(** * ColdSpy / cve-bin-tool: manifest decoding and identity resolution

    A shallow embedding of
      - [cve_bin_tool/sbom_manager/__init__.py]  (class [SBOMManager]),
      - [cve_bin_tool/parsers/javascript.py]     (class [JavascriptParser]),
      - [cve_bin_tool/parsers/python.py]         (class [PythonParser]),
    followed by the properties of the specification that concern them.

    Python strings are modelled as Rocq strings, that is as sequences of
    code points below 256.  Exceptions are modelled by the [result] monad,
    generators by the list of yielded values together with the way the
    generator ended, dictionaries by [gmap] where only lookups matter and by
    association lists where the iteration order is observable. *)

From Stdlib Require Import String Ascii ZArith Bool List Lia.
From stdpp Require Import base option list gmap strings.

Local Open Scope string_scope.
Local Open Scope list_scope.

(** ** Part I: definitions *)

(** *** Python runtime: exceptions and strings *)

Module Py.

(** The exception classes that the embedded code can raise or catch. *)
Inductive exn : Set :=
| KeyError
| IndexError
| FileNotFoundError
| ParseError            (* xml.etree.ElementTree.ParseError *)
| AttributeError
| TypeError
| ValueError
| JSONDecodeError
| UnboundLocalError
| OSError.              (* an [OSError] that is no [FileNotFoundError] *)

Inductive result (A : Type) : Type :=
| Ok (a : A)
| Raise (e : exn).
Arguments Ok {A} a.
Arguments Raise {A} e.

Definition bind {A B} (m : result A) (k : A -> result B) : result B :=
  match m with
  | Ok a => k a
  | Raise e => Raise e
  end.

Definition exn_eqb (a b : exn) : bool :=
  match a, b with
  | KeyError, KeyError | IndexError, IndexError
  | FileNotFoundError, FileNotFoundError | ParseError, ParseError
  | AttributeError, AttributeError | TypeError, TypeError
  | ValueError, ValueError | JSONDecodeError, JSONDecodeError
  | UnboundLocalError, UnboundLocalError | OSError, OSError => true
  | _, _ => false
  end.

(** [try: m  except (e1, e2, ...): h] *)
Definition try_except {A} (m : result A) (caught : list exn) (h : result A)
  : result A :=
  match m with
  | Ok a => Ok a
  | Raise e => if existsb (exn_eqb e) caught then h else Raise e
  end.

(** [l[i]] on a list: [IndexError] when out of range. *)
Definition index {A} (l : list A) (i : nat) : result A :=
  match l !! i with
  | Some a => Ok a
  | None => Raise IndexError
  end.

(** [s or None] for a string [s]. *)
Definition or_None (s : string) : option string :=
  match s with
  | EmptyString => None
  | _ => Some s
  end.

(** Truthiness of an optional string: [None] and [''] are falsy. *)
Definition truthy (o : option string) : bool :=
  match o with
  | Some (String _ _) => true
  | _ => false
  end.

(** [s.split(sep)] for a one-character separator. *)
Fixpoint split (sep : ascii) (s : string) : list string :=
  match s with
  | EmptyString => [EmptyString]
  | String c s' =>
      if Ascii.eqb c sep then EmptyString :: split sep s'
      else match split sep s' with
           | [] => [String c EmptyString]
           | w :: ws => String c w :: ws
           end
  end.

(** [s.startswith(p)]; on success also the rest, [s[len(p):]]. *)
Fixpoint strip_prefix (p s : string) : option string :=
  match p, s with
  | EmptyString, _ => Some s
  | String a p', String b s' =>
      if Ascii.eqb a b then strip_prefix p' s' else None
  | String _ _, EmptyString => None
  end.

Definition startswith (s p : string) : bool :=
  match strip_prefix p s with Some _ => true | None => false end.

(** [s.endswith(p)] *)
Fixpoint endswith (s p : string) : bool :=
  String.eqb s p ||
  match s with
  | EmptyString => false
  | String _ s' => endswith s' p
  end.

(** [p in s] for strings: substring test. *)
Fixpoint contains (s p : string) : bool :=
  startswith s p ||
  match s with
  | EmptyString => false
  | String _ s' => contains s' p
  end.

Definition in_range (lo hi : nat) (c : ascii) : bool :=
  (lo <=? nat_of_ascii c)%nat && (nat_of_ascii c <=? hi)%nat.

Definition is_upper (c : ascii) : bool := in_range 65 90 c.
Definition is_lower (c : ascii) : bool := in_range 97 122 c.
Definition is_digit (c : ascii) : bool := in_range 48 57 c.
Definition is_alpha (c : ascii) : bool := is_upper c || is_lower c.
Definition is_alnum (c : ascii) : bool := is_alpha c || is_digit c.

(** [c.lower()] on code points below 256: A-Z and the upper-case letters
    of Latin-1 (0xC0-0xDE but for the multiplication sign 0xD7). *)
Definition lower_char (c : ascii) : ascii :=
  if is_upper c
     || (in_range 192 222 c && negb (Nat.eqb (nat_of_ascii c) 215))
  then ascii_of_nat (nat_of_ascii c + 32)
  else c.

Fixpoint lower (s : string) : string :=
  match s with
  | EmptyString => EmptyString
  | String c s' => String (lower_char c) (lower s')
  end.

(** [re.sub(r"[^...]", "", s)]: drop the characters outside a class. *)
Fixpoint keep (cls : ascii -> bool) (s : string) : string :=
  match s with
  | EmptyString => EmptyString
  | String c s' => if cls c then String c (keep cls s') else keep cls s'
  end.

(** Line boundaries of [str.splitlines] below code point 256. *)
Definition is_linebreak (c : ascii) : bool :=
  let n := nat_of_ascii c in
  in_range 10 13 c || in_range 28 30 c || Nat.eqb n 133.

(** [s.splitlines()]: ["\r\n"] counts as one boundary and a final
    boundary opens no empty last line. *)
Fixpoint splitlines_aux (cur : string) (s : string) : list string :=
  match s with
  | EmptyString =>
      match cur with EmptyString => [] | _ => [String.rev cur] end
  | String c s' =>
      if is_linebreak c then
        String.rev cur ::
        match s' with
        | String d s'' =>
            if Nat.eqb (nat_of_ascii c) 13 && Nat.eqb (nat_of_ascii d) 10
            then splitlines_aux EmptyString s''
            else splitlines_aux EmptyString s'
        | EmptyString => []
        end
      else splitlines_aux (String c cur) s'
  end.

(** [sep.join(l)] *)
Fixpoint join (sep : string) (l : list string) : string :=
  match l with
  | [] => EmptyString
  | [x] => x
  | x :: rest => x +:+ sep +:+ join sep rest
  end.

End Py.

(** *** Regular expressions: the fragment of [re] used by [is_valid_string] *)

Module Re.

(** Patterns without groups' captures, back references or look-around:
    for these, [re.match(p, s) is not None] only depends on the language
    of [p]. *)
Inductive re : Type :=
| Void                       (* matches nothing *)
| Eps                        (* the empty string *)
| Chr (p : ascii -> bool)    (* one character of a class *)
| Cat (a b : re)
| Alt (a b : re)
| Star (a : re).

Definition Plus (a : re) : re := Cat a (Star a).
Definition Opt (a : re) : re := Alt Eps a.

(** [a{n}] *)
Fixpoint Rep (n : nat) (a : re) : re :=
  match n with
  | O => Eps
  | S n' => Cat a (Rep n' a)
  end.

(** [a{0,n}] *)
Fixpoint UpTo (n : nat) (a : re) : re :=
  match n with
  | O => Eps
  | S n' => Opt (Cat a (UpTo n' a))
  end.

Definition chr_is (c : ascii) : ascii -> bool := Ascii.eqb c.

(** A literal string. *)
Fixpoint Lit (s : string) : re :=
  match s with
  | EmptyString => Eps
  | String c s' => Cat (Chr (chr_is c)) (Lit s')
  end.

(** Membership of a character in the set of characters of a string. *)
Fixpoint one_of (set : string) (c : ascii) : bool :=
  match set with
  | EmptyString => false
  | String d set' => Ascii.eqb c d || one_of set' c
  end.

(** [.] without [re.DOTALL]: any character but the newline. *)
Definition dot (c : ascii) : bool := negb (Nat.eqb (nat_of_ascii c) 10).

Fixpoint nullable (r : re) : bool :=
  match r with
  | Void => false
  | Eps => true
  | Chr _ => false
  | Cat a b => nullable a && nullable b
  | Alt a b => nullable a || nullable b
  | Star _ => true
  end.

Definition cat (a b : re) : re :=
  match a, b with
  | Void, _ => Void
  | _, Void => Void
  | Eps, _ => b
  | _, _ => Cat a b
  end.

Definition alt (a b : re) : re :=
  match a, b with
  | Void, _ => b
  | _, Void => a
  | _, _ => Alt a b
  end.

(** Brzozowski derivative of [r] by the character [c]. *)
Fixpoint deriv (c : ascii) (r : re) : re :=
  match r with
  | Void => Void
  | Eps => Void
  | Chr p => if p c then Eps else Void
  | Cat a b =>
      if nullable a then alt (cat (deriv c a) b) (deriv c b)
      else cat (deriv c a) b
  | Alt a b => alt (deriv c a) (deriv c b)
  | Star a => cat (deriv c a) (Star a)
  end.

(** The whole of [s] is in the language of [r]. *)
Fixpoint fullmatch (r : re) (s : string) : bool :=
  match s with
  | EmptyString => nullable r
  | String c s' => fullmatch (deriv c r) s'
  end.

(** [re.match(r, s) is not None]: some prefix of [s] is in the language
    of [r]. *)
Fixpoint match_ (r : re) (s : string) : bool :=
  nullable r ||
  match s with
  | EmptyString => false
  | String c s' => match_ (deriv c r) s'
  end.

(** [re.match(r + "$", s) is not None]: without [re.MULTILINE], [$]
    holds at the end of the string and before a newline that ends it. *)
Definition match_dollar (r : re) (s : string) : bool :=
  fullmatch (Cat r (Opt (Chr (chr_is "010"%char)))) s.

(** The language of a pattern: [matches r s] when the whole of [s] is
    read by [r]. *)
Inductive matches : re -> string -> Prop :=
| matches_eps : matches Eps EmptyString
| matches_chr p c : p c = true -> matches (Chr p) (String c EmptyString)
| matches_cat a b s t :
    matches a s -> matches b t -> matches (Cat a b) (s +:+ t)
| matches_alt_l a b s : matches a s -> matches (Alt a b) s
| matches_alt_r a b s : matches b s -> matches (Alt a b) s
| matches_star_nil a : matches (Star a) EmptyString
| matches_star_cons a s t :
    matches a s -> matches (Star a) t -> matches (Star a) (s +:+ t).

(** The number of occurrences of the character [c] in [s]. *)
Fixpoint count (c : ascii) (s : string) : nat :=
  match s with
  | EmptyString => 0
  | String d s' => (if Ascii.eqb d c then 1 else 0) + count c s'
  end.

(** The 256 characters. *)
Definition all_ascii : list ascii := map ascii_of_nat (seq 0 256).

(** The class [p] holds no character but [c]. *)
Definition only (c : ascii) (p : ascii -> bool) : bool :=
  forallb (fun d => implb (p d) (Ascii.eqb d c)) all_ascii.

(** A number of occurrences of [c] that every string of the language of
    [r] has at least; [None] for a pattern that is seen to match nothing. *)
Fixpoint min_count (c : ascii) (r : re) : option nat :=
  match r with
  | Void => None
  | Eps => Some 0
  | Chr p => Some (if only c p then 1 else 0)
  | Cat a b =>
      match min_count c a, min_count c b with
      | Some m, Some n => Some (m + n)
      | _, _ => None
      end
  | Alt a b =>
      match min_count c a, min_count c b with
      | Some m, Some n => Some (Nat.min m n)
      | Some m, None => Some m
      | None, o => o
      end
  | Star _ => Some 0
  end.

End Re.

Notation "'let*' x ':=' m 'in' k" := (Py.bind m (fun x => k))
  (at level 10, x name, m at level 100, k at level 200).

(** *** Package URLs *)

Module Purl.
Import Py.

(** [PackageURL.to_dict()] *)
Record PackageURL : Type := {
  type : string;
  namespace : option string;
  name : string;
  version : option string;
  qualifiers : list (string * string);
  subpath : option string
}.

(** [s.partition(c)]: the parts before and after the first [c]. *)
Fixpoint partition (c : ascii) (s : string) : option (string * string) :=
  match s with
  | EmptyString => None
  | String d s' =>
      if Ascii.eqb d c then Some (EmptyString, s')
      else match partition c s' with
           | Some (a, b) => Some (String d a, b)
           | None => None
           end
  end.

(** [s.rpartition(c)]: the parts before and after the last [c]. *)
Fixpoint rpartition (c : ascii) (s : string) : option (string * string) :=
  match s with
  | EmptyString => None
  | String d s' =>
      match rpartition c s' with
      | Some (a, b) => Some (String d a, b)
      | None => if Ascii.eqb d c then Some (EmptyString, s') else None
      end
  end.

Definition rcut (c : ascii) (s : string) : string * option string :=
  match rpartition c s with
  | Some (a, b) => (a, Some b)
  | None => (s, None)
  end.

Definition qualifier_of (kv : string) : string * string :=
  match partition "=" kv with
  | Some (k, v) => (k, v)
  | None => (kv, EmptyString)
  end.

(** Modelled from the spec: the [packageurl] library is not under src/.
    [from_string] reads the grammar
    [scheme:type/namespace/name@version?qualifiers#subpath] of the spec from
    the outside in, with the scheme [pkg] and the type required and the
    namespace optional; anything else is a [ValueError]. *)
Definition from_string (purl : string) : result PackageURL :=
  let '(s1, subpath) := rcut "#" purl in
  let '(s2, quals) := rcut "?" s1 in
  match partition ":" s2 with
  | None => Raise ValueError
  | Some (scheme, rest) =>
      if negb (String.eqb scheme "pkg") then Raise ValueError else
      let '(path, version) := rcut "@" rest in
      match rpartition "/" path with
      | None => Raise ValueError
      | Some (_, EmptyString) => Raise ValueError
      | Some (type_namespace, name) =>
          let '(type, namespace) :=
            match partition "/" type_namespace with
            | Some (t, ns) => (t, Some ns)
            | None => (type_namespace, None)
            end in
          match type with
          | EmptyString => Raise ValueError
          | _ =>
              Ok {| type := type; namespace := namespace; name := name;
                    version := version;
                    qualifiers :=
                      match quals with
                      | Some q => map qualifier_of (split "&" q)
                      | None => []
                      end;
                    subpath := subpath |}
          end
      end
  end.

(** Modelled from the spec: the string of a package URL, after the same
    grammar. *)
Definition to_string (p : PackageURL) : string :=
  "pkg:" +:+ type p +:+ "/"
  +:+ match namespace p with Some ns => ns +:+ "/" | None => "" end
  +:+ name p
  +:+ match version p with Some v => "@" +:+ v | None => "" end
  +:+ match qualifiers p with
      | [] => ""
      | qs => "?" +:+ join "&" (map (fun kv => kv.1 +:+ "=" +:+ kv.2) qs)
      end
  +:+ match subpath p with Some sp => "#" +:+ sp | None => "" end.

(** Modelled from the spec: [Parser.generate_purl] of
    [cve_bin_tool/parsers/__init__.py] is not under src/.  The spec's
    [encode] puts the package type of the parser, the product and the
    version in the package URL and does not embed the vendor. *)
Definition Parser_generate_purl (purl_pkg_type product version vendor : string)
    (qualifier : list (string * string)) (subpath : option string)
  : option string :=
  Some (to_string {| type := purl_pkg_type; namespace := None;
                     name := product; version := Some version;
                     qualifiers := qualifier; subpath := subpath |}).

End Purl.

(** *** [cve_bin_tool.util] and [cve_bin_tool.cvedb]: the shared data *)

Module Util.

(** [cve_bin_tool.util.ProductInfo], a named tuple. *)
Record ProductInfo : Type := {
  vendor : string;
  product : string;
  version : string
}.

#[export] Instance ProductInfo_eq_dec : EqDecision ProductInfo.
Proof. solve_decision. Defined.

#[export] Instance ProductInfo_countable : Countable ProductInfo.
Proof.
  refine (inj_countable'
    (fun p => (vendor p, product p, version p))
    (fun t => {| vendor := t.1.1; product := t.1.2; version := t.2 |}) _).
  intros []; reflexivity.
Defined.

(** [cve_bin_tool.util.ScanInfo], a named tuple. *)
Record ScanInfo : Type := {
  product_info : ProductInfo;
  file_path : string
}.

Inductive Remarks : Set := NewFound.

(** The value [scan_file] stores for every record:
    [{"default": {"remarks": ..., "comments": ..., "severity": ...},
      "paths": {...}}]. *)
Record TriageData : Type := {
  remarks : Remarks;
  comments : string;
  severity : string;
  paths : list string
}.

(** A row of [CVEDB.get_vendor_product_pairs]: a dictionary with the keys
    ["vendor"] and ["product"]. *)
Record VendorProductPair : Type := {
  pair_vendor : string;
  pair_product : string
}.

(** The vulnerability database, an external collaborator. *)
Record CVEDB : Type := {
  get_vendor_product_pairs : string -> list VendorProductPair
}.

End Util.

(** *** [cve_bin_tool/sbom_manager/__init__.py] *)

Module SBOM.
Import Py Util.

(** A decoded identity: [(vendor, product, version)], each possibly
    [None]. *)
Definition Triple : Type := (option string * option string * option string).

(** A module as [parse_sbom] and [SWIDParser.parse] return it:
    [[vendor, product, version]]. *)
Definition Module_ : Type := (option string * string * string).

(** A package of the document [lib4sbom] parsed; [None] stands for a key
    that the dictionary does not have.  An external reference is a list
    [[category, type, locator]]. *)
Record Package : Type := {
  externalreference : option (list (list string));
  name : option string;
  pkg_version : option string
}.

(** What [SBOMParser] holds after [parse_file]: [get_type()] and
    [get_sbom()["packages"].values()] ([None]: no key ["packages"]). *)
Record SBOMDocument : Type := {
  get_type : string;
  packages : option (list Package)
}.

(** The collaborators outside this file: the file system, [lib4sbom],
    the validators, the SWID parser and the [packageurl] library.
    [path_exists] is [Path(name).exists()]: it answers [False] for a name
    that is not there, but the call itself raises [OSError] when the
    operating system refuses the name (a name that is too long, a directory
    that may not be searched). *)
Record World : Type := {
  path_exists : string -> result bool;
  SBOMParser_parse_file : string -> string -> result SBOMDocument;
  validate_spdx : string -> bool;
  validate_cyclonedx : string -> bool;
  SWIDParser_parse : bool -> string -> result (list Module_);
  PackageURL_from_string : string -> result Purl.PackageURL
}.

(** The attributes of an [SBOMManager] object. *)
Record SBOMManager : Type := {
  filename : string;
  type : string;
  validate : bool;
  sbom_data : gmap ProductInfo TriageData;
  cvedb : CVEDB
}.

Definition SBOMtype : list string := ["spdx"; "cyclonedx"; "swid"].

(** [SBOMManager.__init__]; [db] is the database [CVEDB(...)] connects
    to. *)
Definition __init__ (db : CVEDB) (filename sbom_type : string)
    (validate : bool) : SBOMManager :=
  {| filename := filename;
     type := if existsb (String.eqb sbom_type) SBOMtype
             then sbom_type else "unknown";
     validate := validate;
     sbom_data := ∅;
     cvedb := db |}.

(** [SBOMManager.get_vendor] *)
Definition get_vendor (self : SBOMManager) (product : string)
  : list string :=
  let vendor_package_pair := get_vendor_product_pairs (cvedb self) product in
  match vendor_package_pair with
  | _ :: _ => map pair_vendor vendor_package_pair
  | [] => ["UNKNOWN"]
  end.

Definition common_prefix : list string :=
  ["perl-"; "golang-"; "rubygem-"; "python-"; "py3-"; "python3-";
   "python2-"; "rust-"; "nodejs-"].

(** [len(v) > 1 or (len(v) == 1 and v[0] != "UNKNOWN")] *)
Definition vendor_found (v : list string) : bool :=
  match v with
  | _ :: _ :: _ => true
  | [v0] => negb (String.eqb v0 "UNKNOWN")
  | [] => false
  end.

(** The first loop of [common_prefix_split]: it stops ([break]) at the
    first prefix the product starts with, and returns
    [(found_common_prefix, parsed_data)]. *)
Fixpoint prefix_loop (self : SBOMManager) (prefixes : list string)
    (product version : string) : bool * list ProductInfo :=
  match prefixes with
  | [] => (false, [])
  | prefix :: rest =>
      match strip_prefix prefix product with
      | Some common_prefix_product =>
          let common_prefix_vendor := get_vendor self common_prefix_product in
          if vendor_found common_prefix_vendor
          then (true,
                map (fun vendor =>
                       {| vendor := vendor;
                          product := common_prefix_product;
                          version := version |}) common_prefix_vendor)
          else (false, [])
      | None => prefix_loop self rest product version
      end
  end.

(** [SBOMManager.common_prefix_split] *)
Definition common_prefix_split (self : SBOMManager)
    (product version : string) : list ProductInfo :=
  let '(found_common_prefix, parsed_data) :=
    prefix_loop self common_prefix product version in
  if found_common_prefix then parsed_data
  else
    parsed_data ++
    flat_map (fun sp =>
                let temp := get_vendor self sp in
                if vendor_found temp
                then map (fun vendor =>
                            {| vendor := vendor; product := sp;
                               version := version |}) temp
                else [])
             (split "-" product).

(** The pattern of [is_valid_string] for ["purl"], without its final [$]:
    scheme [:] type [/] namespace [/] name [@] version, each [.+], then
    an optional [?], qualifiers [.*], an optional [#] and subpath [.*]. *)
Definition purl_pattern : Re.re :=
  let any1 := Re.Plus (Re.Chr Re.dot) in
  let any0 := Re.Star (Re.Chr Re.dot) in
  Re.Cat any1 (Re.Cat (Re.Lit ":")
 (Re.Cat any1 (Re.Cat (Re.Lit "/")
 (Re.Cat any1 (Re.Cat (Re.Lit "/")
 (Re.Cat any1 (Re.Cat (Re.Lit "@")
 (Re.Cat any1
 (Re.Cat (Re.Opt (Re.Lit "?")) (Re.Cat any0
 (Re.Cat (Re.Opt (Re.Lit "#")) any0))))))))))).

(** [[a-zA-Z0-9\-\._]] *)
Definition cpe23_plain (c : ascii) : bool :=
  is_alnum c || Re.one_of "-._" c.

(** The characters that may follow a backslash in a CPE 2.3 component:
    the backslash, the double quote (code 34) and
    [* ? ! # $ % & ' ( ) + , - . / : ; < = > @ [ ] ^ ` { | } ~]. *)
Definition cpe23_escaped (c : ascii) : bool :=
  Re.one_of "\*?!#$%&'()+,-./:;<=>@[]^`{|}~" c
  || Nat.eqb (nat_of_ascii c) 34.

(** Any number of [?], or at most one [*]. *)
Definition cpe23_wild : Re.re :=
  Re.Alt (Re.Star (Re.Lit "?")) (Re.Opt (Re.Lit "*")).

(** One component of a CPE 2.3 name:
    wildcards, then one or more plain or backslash-escaped characters,
    then wildcards; or one of [*] and [-] alone. *)
Definition cpe23_component : Re.re :=
  Re.Alt
    (Re.Cat cpe23_wild
       (Re.Cat
          (Re.Plus (Re.Alt (Re.Chr cpe23_plain)
                           (Re.Cat (Re.Lit "\") (Re.Chr cpe23_escaped))))
          cpe23_wild))
    (Re.Chr (Re.one_of "*-")).

(** The language component: two or three letters, optionally followed by
    [-] and two letters or three digits; or one of [*] and [-] alone. *)
Definition cpe23_language : Re.re :=
  Re.Alt
    (Re.Cat (Re.Rep 2 (Re.Chr is_alpha))
       (Re.Cat (Re.Opt (Re.Chr is_alpha))
          (Re.Opt (Re.Cat (Re.Lit "-")
                     (Re.Alt (Re.Rep 2 (Re.Chr is_alpha))
                             (Re.Rep 3 (Re.Chr is_digit)))))))
    (Re.Chr (Re.one_of "*-")).

(** The pattern of [is_valid_string] for ["cpe23"]:
    [cpe:2.3:], a part among [a h o * -], five components, the language
    and four components, each after a colon. *)
Definition cpe23_pattern : Re.re :=
  Re.Cat (Re.Lit "cpe:2.3:")
 (Re.Cat (Re.Chr (Re.one_of "aho*-"))
 (Re.Cat (Re.Rep 5 (Re.Cat (Re.Lit ":") cpe23_component))
 (Re.Cat (Re.Cat (Re.Lit ":") cpe23_language)
         (Re.Rep 4 (Re.Cat (Re.Lit ":") cpe23_component))))).

(** The pattern of [is_valid_string] for ["cpe22"]:
    [c], [p] or [P], [e] or [E], [:/], an optional letter of [AHOaho]
    and at most six times a colon followed by any number of characters
    of [[A-Za-z0-9\._\-~%]]. *)
Definition cpe22_pattern : Re.re :=
  Re.Cat (Re.Lit "c")
 (Re.Cat (Re.Chr (Re.one_of "pP"))
 (Re.Cat (Re.Chr (Re.one_of "eE"))
 (Re.Cat (Re.Lit ":/")
 (Re.Cat (Re.Opt (Re.Chr (Re.one_of "AHOaho")))
         (Re.UpTo 6
            (Re.Cat (Re.Lit ":")
               (Re.Star (Re.Chr (fun c => is_alnum c
                                          || Re.one_of "._-~%" c))))))))).

(** [SBOMManager.is_valid_string]; for another [string_type] the Python
    code leaves [string_pattern] unbound and raises. *)
Definition is_valid_string (string_type ref_string : string)
  : result bool :=
  if String.eqb string_type "purl"
  then Ok (Re.match_dollar purl_pattern ref_string)
  else if String.eqb string_type "cpe23"
  then Ok (Re.match_ cpe23_pattern ref_string)
  else if String.eqb string_type "cpe22"
  then Ok (Re.match_ cpe22_pattern ref_string)
  else Raise UnboundLocalError.

(** [SBOMManager.decode_cpe22] *)
Definition decode_cpe22 (cpe22 : string) : result Triple :=
  let cpe := split ":" cpe22 in
  let* vendor := index cpe 2 in
  let* product := index cpe 3 in
  let* version := index cpe 4 in
  Ok (or_None vendor, or_None product, or_None version).

(** [SBOMManager.decode_cpe23] *)
Definition decode_cpe23 (cpe23 : string) : result Triple :=
  let cpe := split ":" cpe23 in
  let* vendor := index cpe 3 in
  let* product := index cpe 4 in
  let* version := index cpe 5 in
  Ok (or_None vendor, or_None product, or_None version).

(** [SBOMManager.decode_purl]: vendor and product stay [None], only the
    version is read from the parsed purl. *)
Definition decode_purl (w : World) (purl : string) : result Triple :=
  let vendor : option string := None in
  let product : option string := None in
  let* purl_info := PackageURL_from_string w purl in
  let version := Purl.version purl_info in
  Ok (vendor ≫= or_None, product ≫= or_None, version ≫= or_None).

(** [a and b], where evaluating [b] may raise. *)
Definition and_ (a : bool) (b : result bool) : result bool :=
  if a then b else Ok false.

(** The body of the loop of [parse_ext_ref]: [decoded] is the dictionary
    the loop fills. *)
Definition parse_ext_ref_body (w : World) (decoded : gmap string Triple)
    (ref : list string) : result (gmap string Triple) :=
  let* ref_type := index ref 1 in
  let* ref_string := index ref 2 in
  let* is23 := and_ (String.eqb ref_type "cpe23Type")
                    (is_valid_string "cpe23" ref_string) in
  if is23 then
    let* t := decode_cpe23 ref_string in Ok (<["cpe23Type" := t]> decoded)
  else
  let* is22 := and_ (String.eqb ref_type "cpe22Type")
                    (is_valid_string "cpe22" ref_string) in
  if is22 then
    let* t := decode_cpe22 ref_string in Ok (<["cpe22Type" := t]> decoded)
  else
  let* ispurl := and_ (String.eqb ref_type "purl")
                      (is_valid_string "purl" ref_string) in
  if ispurl then
    let* t := decode_purl w ref_string in Ok (<["purl" := t]> decoded)
  else Ok decoded.

Fixpoint parse_ext_ref_loop (w : World) (decoded : gmap string Triple)
    (ext_ref : list (list string)) : result (gmap string Triple) :=
  match ext_ref with
  | [] => Ok decoded
  | ref :: rest =>
      let* decoded' := parse_ext_ref_body w decoded ref in
      parse_ext_ref_loop w decoded' rest
  end.

(** [SBOMManager.parse_ext_ref] *)
Definition parse_ext_ref (w : World) (ext_ref : list (list string))
  : result Triple :=
  let* decoded := parse_ext_ref_loop w ∅ ext_ref in
  Ok (default
        (default
           (default (None, None, None) (decoded !! "purl"))
           (decoded !! "cpe22Type"))
        (decoded !! "cpe23Type")).

(** The body of the loop of [parse_sbom]: the module of one package, or
    [None] when the package has no version and is left out. *)
Definition parse_package (w : World) (package : Package)
  : result (option Module_) :=
  let* decoded :=
    match externalreference package with
    | Some ext_ref => parse_ext_ref w ext_ref
    | None => Ok (None, None, None)
    end in
  let '(vendor, package_name, version) := decoded in
  let* package_name :=
    match package_name with
    | Some (String _ _ as n) => Ok n
    | _ => match name package with
           | Some n => Ok n
           | None => Raise KeyError
           end
    end in
  let version :=
    if negb (truthy version) && bool_decide (is_Some (pkg_version package))
    then pkg_version package
    else version in
  match version with
  | Some (String _ _ as v) => Ok (Some (vendor, package_name, v))
  | _ => Ok None
  end.

Fixpoint parse_packages (w : World) (packages : list Package)
    (modules : list Module_) : result (list Module_) :=
  match packages with
  | [] => Ok modules
  | package :: rest =>
      let* m := parse_package w package in
      parse_packages w rest
        (match m with Some m' => modules ++ [m'] | None => modules end)
  end.

(** [SBOMManager.parse_sbom] *)
Definition parse_sbom (w : World) (self : SBOMManager)
  : result (list Module_) :=
  let* sbom_parser := SBOMParser_parse_file w (type self) (filename self) in
  let modules : list Module_ := [] in
  let rest :=
    let* packages :=
      match packages sbom_parser with
      | Some ps => Ok ps
      | None => Raise KeyError
      end in
    parse_packages w packages modules in
  if validate self && endswith (filename self) ".xml" then
    let valid_xml :=
      if String.eqb (get_type sbom_parser) "spdx"
      then validate_spdx w (filename self)
      else validate_cyclonedx w (filename self) in
    if negb valid_xml then Ok modules else rest
  else rest.

(** The triage data [scan_file] stores for every row. *)
Definition new_found : TriageData :=
  {| remarks := NewFound; comments := ""; severity := ""; paths := [""] |}.

(** The records [scan_file] makes of one module. *)
Definition module_records (self : SBOMManager) (m : Module_)
  : list ProductInfo :=
  let '(module_vendor, product, version) := m in
  let product := lower product in
  match module_vendor with
  | None =>
      let vendor_set := get_vendor self product in
      map (fun vendor => {| vendor := vendor; product := product;
                            version := version |}) vendor_set
  | Some module_vendor =>
      [{| vendor := module_vendor; product := product; version := version |}]
  end.

(** [SBOMManager.scan_file]: the mapping it returns and the object after
    the call ([self.sbom_data] is the mapping returned). *)
Definition scan_file (w : World) (self : SBOMManager)
  : result (gmap ProductInfo TriageData * SBOMManager) :=
  let modules : list Module_ := [] in
  let* modules :=
    try_except
      (let* exists_ := path_exists w (filename self) in
       if exists_ then
         if String.eqb (type self) "swid"
         then SWIDParser_parse w (validate self) (filename self)
         else parse_sbom w self
       else Ok modules)
      [KeyError; FileNotFoundError; ParseError]
      (Ok modules) in
  let parsed_data := flat_map (module_records self) modules in
  let sbom_data' :=
    foldl (fun d row => <[row := new_found]> d) (sbom_data self) parsed_data in
  Ok (sbom_data',
      {| filename := filename self; type := type self;
         validate := validate self; sbom_data := sbom_data';
         cvedb := cvedb self |}).

End SBOM.

(** *** [Parser.find_vendor], after the spec's VendorResolver *)

Module Parser.
Import Py Util.

(** [IdentityIndex.lookupVendors]: the vendors the database has for a
    product name, none when it is unknown. *)
Definition lookupVendors (db : CVEDB) (product : string) : list string :=
  map pair_vendor (get_vendor_product_pairs db product).

Definition records (vendors : list string) (product version : string)
  : list ProductInfo :=
  map (fun vendor => {| vendor := vendor; product := product;
                        version := version |}) vendors.

(** The first of the known prefixes that the product starts with, taken
    off. *)
Fixpoint strip_known_prefix (prefixes : list string) (product : string)
  : option string :=
  match prefixes with
  | [] => None
  | prefix :: rest =>
      match strip_prefix prefix product with
      | Some stripped => Some stripped
      | None => strip_known_prefix rest product
      end
  end.

Definition known_prefixes : list string :=
  ["perl-"; "golang-"; "rubygem-"; "python-"; "py3-"; "python3-";
   "python2-"; "rust-"; "nodejs-"].

(** Modelled from the spec: [Parser.find_vendor] of
    [cve_bin_tool/parsers/__init__.py] is not under src/.  This is
    [VendorResolver.resolve] of section 4.4 for a fragment without vendor
    hint: one record per vendor of the index; when the index has none, the
    first known prefix is taken off and the rest looked up; when that fails,
    every hyphen-separated segment is looked up and the hits united; when
    all fails, one record with the vendor [UNKNOWN]. *)
Definition resolve (db : CVEDB) (product version : string)
  : list ProductInfo :=
  match lookupVendors db product with
  | (_ :: _) as vendors => records vendors product version
  | [] =>
      let by_prefix :=
        match strip_known_prefix known_prefixes product with
        | Some stripped => records (lookupVendors db stripped) stripped version
        | None => []
        end in
      match by_prefix with
      | _ :: _ => by_prefix
      | [] =>
          let by_segment :=
            flat_map (fun segment =>
                        records (lookupVendors db segment) segment version)
                     (split "-" product) in
          match by_segment with
          | _ :: _ => by_segment
          | [] => records ["UNKNOWN"] product version
          end
      end
  end.

Definition find_vendor (db : CVEDB) (filename product version : string)
  : option (list ScanInfo) :=
  Some (map (fun row => {| product_info := row; file_path := filename |})
            (resolve db product version)).

End Parser.

(** *** The values [json.load] returns *)

Module Json.
Import Py.

(** JSON numbers are modelled by the integers; an object is the dictionary
    [json.load] builds, in insertion order and with each key once. *)
#[local] Unset Elimination Schemes.
Inductive json : Type :=
| JNull
| JBool (b : bool)
| JNum (n : Z)
| JStr (s : string)
| JArr (l : list json)
| JObj (l : list (string * json)).
#[local] Set Elimination Schemes.

(** Lookup of a key in a dictionary. *)
Fixpoint lookup (k : string) (l : list (string * json)) : option json :=
  match l with
  | [] => None
  | (k', v) :: rest => if String.eqb k k' then Some v else lookup k rest
  end.

Definition is_str (k : string) (v : json) : bool :=
  match v with
  | JStr s => String.eqb s k
  | _ => false
  end.

(** [k in data] for a string [k]: a key of a dictionary, an element of a
    list, a substring of a string; other values are not iterable. *)
Definition py_in (k : string) (data : json) : result bool :=
  match data with
  | JObj l => Ok (bool_decide (is_Some (lookup k l)))
  | JArr l => Ok (existsb (is_str k) l)
  | JStr s => Ok (contains s k)
  | _ => Raise TypeError
  end.

(** [data[k]] for a string [k]: only dictionaries take string keys. *)
Definition getitem (data : json) (k : string) : result json :=
  match data with
  | JObj l => match lookup k l with
              | Some v => Ok v
              | None => Raise KeyError
              end
  | _ => Raise TypeError
  end.

(** [data.get(k, d)]: only dictionaries have [get]. *)
Definition get (data : json) (k : string) (d : json) : result json :=
  match data with
  | JObj l => Ok (default d (lookup k l))
  | _ => Raise AttributeError
  end.

(** [data.items()] *)
Definition items (data : json) : result (list (string * json)) :=
  match data with
  | JObj l => Ok l
  | _ => Raise AttributeError
  end.

(** Truth value of a JSON value. *)
Definition truthy (v : json) : bool :=
  match v with
  | JNull => false
  | JBool b => b
  | JNum n => negb (Z.eqb n 0)
  | JStr s => negb (String.eqb s "")
  | JArr l => match l with [] => false | _ => true end
  | JObj l => match l with [] => false | _ => true end
  end.

(** [v >= n] for an integer [n]: numbers and Booleans compare, the other
    values raise. *)
Definition ge (v : json) (n : Z) : result bool :=
  match v with
  | JNum m => Ok (n <=? m)%Z
  | JBool b => Ok (n <=? (if b then 1 else 0))%Z
  | _ => Raise TypeError
  end.

End Json.

(** *** [cve_bin_tool/parsers/javascript.py] *)

Module Javascript.
Import Py Util Json.

(** A generator: the values yielded so far and how the body went on. *)
Definition gen (A : Type) : Type := (list ScanInfo * result A).

Definition gret {A} (a : A) : gen A := ([], Ok a).

Definition gbind {A B} (m : gen A) (k : A -> gen B) : gen B :=
  match m with
  | (ys, Ok a) => let '(ys', r) := k a in (ys ++ ys', r)
  | (ys, Raise e) => (ys, Raise e)
  end.

Definition lift {A} (r : result A) : gen A := ([], r).

(** [if vendor is not None: yield from vendor] *)
Definition yield_from (vendor : option (list ScanInfo)) : gen unit :=
  (default [] vendor, Ok tt).

(** What a [JavascriptParser] reaches outside its file: the lock file
    [open] and [json.load] read, and [Parser.find_vendor] of
    [cve_bin_tool/parsers/__init__.py], which takes the product and the
    version (and reads [self.filename]). *)
Record World : Type := {
  json_load : string -> result json;
  find_vendor : string -> json -> json -> option (list ScanInfo)
}.

(** The parser as the spec has it: the lock files of [files] and the
    resolver of [Parser.find_vendor] over the database [db], for a product
    and a version that are strings. *)
Definition spec_world (db : CVEDB) (files : string -> result json) : World :=
  {| json_load := files;
     find_vendor := fun filename product version =>
       match product, version with
       | JStr product, JStr version =>
           Parser.find_vendor db filename product version
       | _, _ => None
       end |}.

Definition purl_pkg_type : string := "npm".

(** [[a-zA-Z0-9._-]] *)
Definition product_char (c : ascii) : bool := is_alnum c || Re.one_of "._-" c.

(** [[a-zA-Z0-9.+\-]] *)
Definition version_char (c : ascii) : bool := is_alnum c || Re.one_of ".+-" c.

(** [JavascriptParser.generate_purl] *)
Definition generate_purl (product version vendor : string)
    (qualifier : list (string * string)) (subpath : option string)
  : option string :=
  let product := lower (keep product_char product) in
  let version := keep version_char version in
  let vendor := "UNKNOWN" in
  if String.eqb product "" || String.eqb version "" then None
  else Purl.Parser_generate_purl purl_pkg_type product version vendor
         qualifier subpath.

(** [JavascriptParser.get_package_name] *)
Definition get_package_name (name : string) : string :=
  if contains name "/" then List.last (split "/" name) name else name.

(** The inner loop over [requires]: the entries with the version ["*"] are
    passed over. *)
Definition requires_pairs (requires : list (string * json))
  : list (string * json) :=
  flat_map (fun '(n, v) =>
              let product := get_package_name n in
              let version := v in
              if is_str "*" v then [] else [(product, version)])
           requires.

(** The loop over [data["packages"].items()], for [lockfileVersion >= 2]. *)
Fixpoint packages_loop (packages : list (string * json))
    (product_version_mapping : list (string * json))
  : result (list (string * json)) :=
  match packages with
  | [] => Ok product_version_mapping
  | (package_name, package_dependency) :: rest =>
      let product := get_package_name package_name in
      let* version := get package_dependency "version" JNull in
      let mapping := product_version_mapping ++ [(product, version)] in
      let* requires := get package_dependency "requires" (JObj []) in
      let* requires := items requires in
      packages_loop rest (mapping ++ requires_pairs requires)
  end.

(** [data["dependencies"][i]["version"]], and the entry itself when that
    raises ([except Exception]). *)
Definition dependency_version (entry : json) : json :=
  match getitem entry "version" with
  | Ok version => version
  | Raise _ => entry
  end.

(** The loop over [data["dependencies"]], for the older lock files. *)
Fixpoint dependencies_loop (dependencies : list (string * json))
    (product_version_mapping : list (string * json))
  : result (list (string * json)) :=
  match dependencies with
  | [] => Ok product_version_mapping
  | (i, entry) :: rest =>
      let product := get_package_name i in
      let version := dependency_version entry in
      let mapping := product_version_mapping ++ [(product, version)] in
      let* requires := get entry "requires" (JObj []) in
      let* requires := items requires in
      dependencies_loop rest (mapping ++ requires_pairs requires)
  end.

(** [get_package_name] on a value that need not be a string, as for the
    elements of a [dependencies] that is a list: [in] works on strings,
    lists and dictionaries, [split] on strings only. *)
Definition get_package_name_of (name : json) : result json :=
  let* has_slash := py_in "/" name in
  if has_slash then
    match name with
    | JStr s => Ok (JStr (List.last (split "/" s) s))
    | _ => Raise AttributeError
    end
  else Ok name.

(** The pairs [run_checker] collects in [product_version_mapping].  The
    loop over a [dependencies] that is no dictionary ends at its first
    element: a list is not indexed by its elements nor a string by its
    characters ([TypeError], also in the handler of the [try]), and before
    that [get_package_name] may have raised. *)
Definition product_version_mapping (data : json)
  : result (list (string * json)) :=
  let* lockfileVersion := get data "lockfileVersion" JNull in
  if truthy lockfileVersion then
    let* lockfileVersion := get data "lockfileVersion" (JNum 0) in
    let* ge2 := ge lockfileVersion 2 in
    if ge2 then
      let* packages := getitem data "packages" in
      let* packages := items packages in
      packages_loop packages []
    else
      let* dependencies := getitem data "dependencies" in
      match dependencies with
      | JObj l => dependencies_loop l []
      | JArr [] | JStr EmptyString => Ok []
      | JArr (i :: _) =>
          let* _ := get_package_name_of i in Raise TypeError
      | _ => Raise TypeError
      end
  else Ok [].

(** The vendor of the package the lock file itself describes. *)
Definition header_vendor (w : World) (filename : string) (data : json)
  : result (option (list ScanInfo)) :=
  let* has_name := py_in "name" data in
  let* has_both :=
    if has_name then py_in "version" data else Ok false in
  if has_both then
    let* product := getitem data "name" in
    let* version := getitem data "version" in
    Ok (find_vendor w filename product version)
  else Ok None.

(** [JavascriptParser.run_checker] *)
Definition run_checker (w : World) (filename : string) : gen unit :=
  gbind (lift (json_load w filename)) (fun data =>
  gbind (lift (header_vendor w filename data)) (fun vendor =>
  gbind (yield_from vendor) (fun _ =>
  gbind (lift (product_version_mapping data)) (fun mapping =>
  (flat_map (fun '(product, version) =>
               default [] (find_vendor w filename (JStr product) version))
            mapping,
   Ok tt))))).

End Javascript.

(** *** [cve_bin_tool/parsers/python.py] *)

Module Python.
Import Py Util.

(** What a [PythonParser] reaches outside its file: [parse_strings] of
    [cve_bin_tool/strings.py], which gives the text of the file, and the
    database. *)
Record World : Type := {
  parse_strings : string -> string;
  cve_db : CVEDB
}.

Definition newline : string := String "010" EmptyString.

(** [search(compile(r"^Field: (.+)$", MULTILINE), lines).group(1)], [None]
    when nothing matches: with [MULTILINE] the pattern matches a whole line
    that starts with the field and has at least one more character, and
    [search] returns the first such line. *)
Fixpoint search_line (field : string) (lines : list string) : option string :=
  match lines with
  | [] => None
  | l :: rest =>
      match strip_prefix field l with
      | Some (String _ _ as value) => Some value
      | _ => search_line field rest
      end
  end.

Definition search (field : string) (lines : string) : option string :=
  search_line field (split "010" lines).

(** [PythonParser.run_checker]; the [AttributeError] of [None.group] is
    caught and nothing is yielded. *)
Definition run_checker (w : World) (filename : string) : list ScanInfo :=
  let lines := parse_strings w filename in
  let lines := join newline (firstn 3 (splitlines_aux EmptyString lines)) in
  match search "Name: " lines with
  | None => []
  | Some product =>
      match search "Version: " lines with
      | None => []
      | Some version =>
          let vendor_package_pair :=
            get_vendor_product_pairs (cve_db w) product in
          match vendor_package_pair with
          | [] => []
          | _ =>
              map (fun pair =>
                     {| product_info :=
                          {| vendor := pair_vendor pair; product := product;
                             version := version |};
                        file_path := filename |})
                  vendor_package_pair
          end
      end
  end.

Definition purl_pkg_type : string := "pypi".

(** [[a-zA-Z0-9._-]] *)
Definition product_char (c : ascii) : bool := is_alnum c || Re.one_of "._-" c.

(** [[a-zA-Z0-9.+-]] *)
Definition version_char (c : ascii) : bool := is_alnum c || Re.one_of ".+-" c.

(** [PythonParser.generate_purl], and [PythonRequirementsParser.generate_purl]
    which has the same body. *)
Definition generate_purl (product version vendor : string)
    (qualifier : list (string * string)) (subpath : option string)
  : option string :=
  let product := lower (keep product_char product) in
  let version := keep version_char version in
  let vendor := "UNKNOWN" in
  if String.eqb product "" || String.eqb version "" then None
  else Purl.Parser_generate_purl purl_pkg_type product version vendor
         qualifier subpath.

End Python.

(** *** Predicates the properties are stated with *)

Module Props.
Import Py.

(** The character [c] does not occur in [s]. *)
Fixpoint lacks (c : ascii) (s : string) : bool :=
  match s with
  | EmptyString => true
  | String d s' => negb (Ascii.eqb d c) && lacks c s'
  end.

(** Every character of [s] is in the class [cls]. *)
Fixpoint all_in (cls : ascii -> bool) (s : string) : bool :=
  match s with
  | EmptyString => true
  | String d s' => cls d && all_in cls s'
  end.

(** The fields of a colon-separated name: none holds a colon. *)
Definition colon_free (fields : list string) : bool :=
  forallb (lacks ":") fields.

(** The value of a field as the spec has it: an empty field is absent, any
    other field is itself. *)
Definition absent_when_empty (field : string) : option string :=
  if String.eqb field "" then None else Some field.

(** What may follow the version in a CPE name: nothing, or a colon and the
    further fields. *)
Definition further_fields (rest : string) : bool :=
  match rest with
  | EmptyString => true
  | String c _ => Ascii.eqb c ":"
  end.

(** The types of reference [parse_ext_ref] knows. *)
Definition ref_types : list string := ["cpe23Type"; "cpe22Type"; "purl"].

(** The pattern [parse_ext_ref] checks a reference of the type [ref_type]
    against. *)
Definition string_type (ref_type : string) : string :=
  if String.eqb ref_type "cpe23Type" then "cpe23"
  else if String.eqb ref_type "cpe22Type" then "cpe22"
  else ref_type.

(** The locator of [ref] when [ref] is a reference [[_, ref_type, locator]]
    whose locator is valid for that type. *)
Definition valid_as (ref_type : string) (ref : list string) : option string :=
  match ref !! 1%nat, ref !! 2%nat with
  | Some ty, Some locator =>
      match SBOM.is_valid_string (string_type ref_type) locator with
      | Ok true => if String.eqb ty ref_type then Some locator else None
      | _ => None
      end
  | _, _ => None
  end.

(** The last valid reference of the type [ref_type] in [ext_ref]. *)
Definition last_valid (ref_type : string) (ext_ref : list (list string))
  : option string :=
  last (omap (valid_as ref_type) ext_ref).

(** The decoder of each type of reference. *)
Definition decode_as (w : SBOM.World) (ref_type locator : string)
  : result SBOM.Triple :=
  if String.eqb ref_type "cpe23Type" then SBOM.decode_cpe23 locator
  else if String.eqb ref_type "cpe22Type" then SBOM.decode_cpe22 locator
  else SBOM.decode_purl w locator.

(** What [parse_sbom] makes of the triple decoded from the references of a
    package: the product and the version fall back, each on its own, on the
    fields the package declares, and without version there is no module. *)
Definition with_declared (decoded : SBOM.Triple) (package : SBOM.Package)
  : result (option SBOM.Module_) :=
  let '(vendor, product, version) := decoded in
  let product := if truthy product then product else SBOM.name package in
  let version :=
    if truthy version then version
    else match SBOM.pkg_version package with
         | Some v => Some v
         | None => version
         end in
  match product, version with
  | None, _ => Raise KeyError
  | Some product, Some (String _ _ as version) =>
      Ok (Some (vendor, product, version))
  | Some _, _ => Ok None
  end.

(** A reference the loop of [parse_ext_ref] gets through: it has the three
    elements the loop reads; if it is a valid CPE 2.2 reference it has the
    five fields [decode_cpe22] reads; and if it is a valid package URL the
    [packageurl] library parses it. *)
Definition ref_decodes (w : SBOM.World) (ref : list string) : bool :=
  match ref with
  | _ :: ref_type :: locator :: _ =>
      if String.eqb ref_type "cpe22Type" then
        match SBOM.is_valid_string "cpe22" locator with
        | Ok true => (4 <=? Re.count ":" locator)%nat
        | _ => true
        end
      else if String.eqb ref_type "purl" then
        match SBOM.is_valid_string "purl" locator with
        | Ok true =>
            match SBOM.PackageURL_from_string w locator with
            | Ok _ => true
            | Raise _ => false
            end
        | _ => true
        end
      else true
  | _ => false
  end.

(** The triple of the references of a package by the order of preference:
    that of the last valid CPE 2.3 reference, else that of the last valid
    CPE 2.2 reference, else that of the last valid package URL, else
    nothing. *)
Definition preferred (w : SBOM.World) (ext_ref : list (list string))
  : result SBOM.Triple :=
  match last_valid "cpe23Type" ext_ref with
  | Some cpe23 => SBOM.decode_cpe23 cpe23
  | None =>
      match last_valid "cpe22Type" ext_ref with
      | Some cpe22 => SBOM.decode_cpe22 cpe22
      | None =>
          match last_valid "purl" ext_ref with
          | Some purl => SBOM.decode_purl w purl
          | None => Ok (None, None, None)
          end
      end
  end.

(** The triple the references of a package give, nothing when it has no
    references. *)
Definition decoded_of (w : SBOM.World) (package : SBOM.Package)
  : SBOM.Triple :=
  match SBOM.externalreference package with
  | Some ext_ref =>
      match preferred w ext_ref with
      | Ok t => t
      | Raise _ => (None, None, None)
      end
  | None => (None, None, None)
  end.

(** A package [parse_sbom] gets through: all its references decode, and
    it has a product, from the references or from its name. *)
Definition package_resolves (w : SBOM.World) (package : SBOM.Package) : bool :=
  match SBOM.externalreference package with
  | Some ext_ref => forallb (ref_decodes w) ext_ref
  | None => true
  end
  && (truthy (decoded_of w package).1.2
      || match SBOM.name package with Some _ => true | None => false end).

(** The module of a package by the order of preference: the triple of its
    references, completed from the fields it declares; none when that
    leaves it without version. *)
Definition resolved (w : SBOM.World) (package : SBOM.Package)
  : option SBOM.Module_ :=
  match with_declared (decoded_of w package) package with
  | Ok m => m
  | Raise _ => None
  end.

(** The modules [scan_file] gets from the file: those of the SWID parser or
    of [parse_sbom], and none when the file does not exist or the parser
    raises one of the exceptions [scan_file] catches. *)
Definition ingested_modules (w : SBOM.World) (self : SBOM.SBOMManager)
  : result (list SBOM.Module_) :=
  try_except
    (let* exists_ := SBOM.path_exists w (SBOM.filename self) in
     if exists_ then
       if String.eqb (SBOM.type self) "swid"
       then SBOM.SWIDParser_parse w (SBOM.validate self) (SBOM.filename self)
       else SBOM.parse_sbom w self
     else Ok [])
    [KeyError; FileNotFoundError; ParseError]
    (Ok []).

(** The parser [scan_file] runs on an existing file. *)
Definition underlying_parse (w : SBOM.World) (self : SBOM.SBOMManager)
  : result (list SBOM.Module_) :=
  if String.eqb (SBOM.type self) "swid"
  then SBOM.SWIDParser_parse w (SBOM.validate self) (SBOM.filename self)
  else SBOM.parse_sbom w self.

(** The validator [parse_sbom] runs on a document of the type [doc_type]. *)
Definition validator (w : SBOM.World) (doc_type filename : string) : bool :=
  if String.eqb doc_type "spdx"
  then SBOM.validate_spdx w filename
  else SBOM.validate_cyclonedx w filename.

(** The text [PythonParser.run_checker] searches: the first three lines of
    what [parse_strings] gives. *)
Definition metadata_header (w : Python.World) (filename : string) : string :=
  join Python.newline
       (firstn 3 (splitlines_aux EmptyString (Python.parse_strings w filename))).

(** The records [common_prefix_split] makes of one hyphen-separated
    segment. *)
Definition segment_records (self : SBOM.SBOMManager) (version sp : string)
  : list Util.ProductInfo :=
  let temp := SBOM.get_vendor self sp in
  if SBOM.vendor_found temp
  then map (fun vendor => {| Util.vendor := vendor; Util.product := sp;
                             Util.version := version |}) temp
  else [].

(** The version field of a package of a lock file, [None] (JSON [null])
    when it has none. *)
Definition own_version (package : Json.json) : Json.json :=
  match package with
  | Json.JObj l => default Json.JNull (Json.lookup "version" l)
  | _ => Json.JNull
  end.

(** The entries of the [requires] map of a package, none when it has no
    such map. *)
Definition requires_of (package : Json.json) : list (string * Json.json) :=
  match package with
  | Json.JObj l =>
      match Json.lookup "requires" l with
      | Some (Json.JObj requires) => requires
      | _ => []
      end
  | _ => []
  end.

(** A package of a lock file is a dictionary, and its [requires], when it
    has one, is a dictionary. *)
Definition is_package (package : Json.json) : bool :=
  match package with
  | Json.JObj l =>
      match Json.lookup "requires" l with
      | Some (Json.JObj _) | None => true
      | Some _ => false
      end
  | _ => false
  end.

(** The packages of a lock file of the newer schema: the file is a
    dictionary, its [lockfileVersion] is an integer from 2 on, and its
    [packages] is a dictionary of packages. *)
Definition lockfile_v2 (data : Json.json)
  : option (list (string * Json.json)) :=
  match data with
  | Json.JObj l =>
      match Json.lookup "lockfileVersion" l, Json.lookup "packages" l with
      | Some (Json.JNum n), Some (Json.JObj packages) =>
          if (2 <=? n)%Z && forallb (fun p => is_package p.2) packages
          then Some packages else None
      | _, _ => None
      end
  | _ => None
  end.

(** The pairs the parser collects for one package of the newer schema. *)
Definition package_pairs (entry : string * Json.json)
  : list (string * Json.json) :=
  (Javascript.get_package_name entry.1, own_version entry.2)
  :: Javascript.requires_pairs (requires_of entry.2).

(** A lock file of the older schema with the one dependency [name], given
    as [entry]. *)
Definition legacy_lockfile (name : string) (entry : Json.json) : Json.json :=
  Json.JObj [("lockfileVersion", Json.JNum 1);
             ("dependencies", Json.JObj [(name, entry)])].

(** The validation step of [parse_sbom] lets the document through: it is
    not run, or the validator of the type of the document accepts the
    file. *)
Definition validation_passes (w : SBOM.World) (self : SBOM.SBOMManager)
    (doc : SBOM.SBOMDocument) : bool :=
  negb (SBOM.validate self && endswith (SBOM.filename self) ".xml")
  || validator w (SBOM.get_type doc) (SBOM.filename self).

(** The world [w] with other validators. *)
Definition with_validators (w : SBOM.World)
    (spdx cyclonedx : string -> bool) : SBOM.World :=
  {| SBOM.path_exists := SBOM.path_exists w;
     SBOM.SBOMParser_parse_file := SBOM.SBOMParser_parse_file w;
     SBOM.validate_spdx := spdx;
     SBOM.validate_cyclonedx := cyclonedx;
     SBOM.SWIDParser_parse := SBOM.SWIDParser_parse w;
     SBOM.PackageURL_from_string := SBOM.PackageURL_from_string w |}.

(** The dependencies of a lock file of the older schema: the file is a
    dictionary, its [lockfileVersion] is an integer below 2 other than 0,
    and its [dependencies] is a dictionary of packages. *)
Definition lockfile_v1 (data : Json.json)
  : option (list (string * Json.json)) :=
  match data with
  | Json.JObj l =>
      match Json.lookup "lockfileVersion" l, Json.lookup "dependencies" l with
      | Some (Json.JNum n), Some (Json.JObj dependencies) =>
          if negb (n =? 0)%Z && (n <? 2)%Z
             && forallb (fun p => is_package p.2) dependencies
          then Some dependencies else None
      | _, _ => None
      end
  | _ => None
  end.

(** The pairs the parser collects for one dependency of the older
    schema. *)
Definition legacy_pairs (entry : string * Json.json)
  : list (string * Json.json) :=
  (Javascript.get_package_name entry.1,
   Javascript.dependency_version entry.2)
  :: Javascript.requires_pairs (requires_of entry.2).

(** The section of a lock file that [run_checker] reads for the
    [lockfileVersion] [n]. *)
Definition section_of (n : Z) : string :=
  if (2 <=? n)%Z then "packages" else "dependencies".


(** No character of [s] is a line boundary. *)
Definition one_line (s : string) : bool :=
  all_in (fun c => negb (is_linebreak c)) s.

End Props.

(** *** Concrete collaborators, for the examples *)

Module Examples.
Import Py Util.

(** A database with one product under one vendor. *)
Definition db_of (vendor product : string) : CVEDB :=
  {| get_vendor_product_pairs := fun name =>
       if String.eqb name product
       then [{| pair_vendor := vendor; pair_product := product |}]
       else [] |}.

(** A database that knows no product. *)
Definition empty_db : CVEDB :=
  {| get_vendor_product_pairs := fun _ => [] |}.

(** A world with one SBOM document, whatever the file name: the file
    exists, [lib4sbom] reads [doc] from it, the validators answer [valid]
    and package URLs are read by [Purl.from_string]. *)
Definition world_of (doc : SBOM.SBOMDocument) (valid : bool) : SBOM.World :=
  {| SBOM.path_exists := fun _ => Ok true;
     SBOM.SBOMParser_parse_file := fun _ _ => Ok doc;
     SBOM.validate_spdx := fun _ => valid;
     SBOM.validate_cyclonedx := fun _ => valid;
     SBOM.SWIDParser_parse := fun _ _ => Ok [];
     SBOM.PackageURL_from_string := Purl.from_string |}.

(** A package with a CPE 2.3 reference and a package URL that disagree on
    the version, and a third version declared. *)
Definition nasm_package : SBOM.Package :=
  {| SBOM.externalreference :=
       Some [["PACKAGE-MANAGER"; "purl"; "pkg:generic/nasm/nasm@2.16"];
             ["SECURITY"; "cpe23Type";
              "cpe:2.3:a:nasm:netwide_assembler:2.15:*:*:*:*:*:*:*"]];
     SBOM.name := Some "nasm";
     SBOM.pkg_version := Some "2.14" |}.

Definition nasm_document : SBOM.SBOMDocument :=
  {| SBOM.get_type := "spdx"; SBOM.packages := Some [nasm_package] |}.

(** A world without any file: nothing exists and every parser raises
    [FileNotFoundError]. *)
Definition no_file_world : SBOM.World :=
  {| SBOM.path_exists := fun _ => Ok false;
     SBOM.SBOMParser_parse_file := fun _ _ => Raise FileNotFoundError;
     SBOM.validate_spdx := fun _ => true;
     SBOM.validate_cyclonedx := fun _ => true;
     SBOM.SWIDParser_parse := fun _ _ => Raise FileNotFoundError;
     SBOM.PackageURL_from_string := Purl.from_string |}.

(** A name no file system takes, and a world without any file in which
    the existence check fails on the names longer than 255 characters, as
    it does with [ENAMETOOLONG]. *)
Definition long_name : string :=
  string_of_list_ascii (repeat "a"%char 5000).

Definition long_name_world : SBOM.World :=
  {| SBOM.path_exists := fun name =>
       if (255 <? String.length name)%nat then Raise OSError else Ok false;
     SBOM.SBOMParser_parse_file := fun _ _ => Raise FileNotFoundError;
     SBOM.validate_spdx := fun _ => true;
     SBOM.validate_cyclonedx := fun _ => true;
     SBOM.SWIDParser_parse := fun _ _ => Raise FileNotFoundError;
     SBOM.PackageURL_from_string := Purl.from_string |}.

(** A world whose files exist but cannot be parsed as XML. *)
Definition broken_xml_world : SBOM.World :=
  {| SBOM.path_exists := fun _ => Ok true;
     SBOM.SBOMParser_parse_file := fun _ _ => Raise ParseError;
     SBOM.validate_spdx := fun _ => true;
     SBOM.validate_cyclonedx := fun _ => true;
     SBOM.SWIDParser_parse := fun _ _ => Raise ParseError;
     SBOM.PackageURL_from_string := Purl.from_string |}.

(** The same package with a third reference, a CPE 2.2 name that stops
    after the product. *)
Definition stray_cpe22_package : SBOM.Package :=
  {| SBOM.externalreference :=
       Some [["SECURITY"; "cpe23Type";
              "cpe:2.3:a:nasm:netwide_assembler:2.15:*:*:*:*:*:*:*"];
             ["PACKAGE-MANAGER"; "purl"; "pkg:generic/nasm/nasm@2.16"];
             ["SECURITY"; "cpe22Type"; "cpe:/a:nasm:netwide_assembler"]];
     SBOM.name := Some "nasm";
     SBOM.pkg_version := Some "2.14" |}.

Definition stray_cpe22_document : SBOM.SBOMDocument :=
  {| SBOM.get_type := "spdx";
     SBOM.packages := Some [stray_cpe22_package] |}.

(** A package that gives its name and version only. *)
Definition flask_package : SBOM.Package :=
  {| SBOM.externalreference := None;
     SBOM.name := Some "python-flask";
     SBOM.pkg_version := Some "2.0.1" |}.

Definition flask_document : SBOM.SBOMDocument :=
  {| SBOM.get_type := "spdx"; SBOM.packages := Some [flask_package] |}.

(** The record of that package for the vendor [palletsprojects], and the
    mapping that holds it alone. *)
Definition flask_record : ProductInfo :=
  {| vendor := "palletsprojects"; product := "python-flask";
     version := "2.0.1" |}.

Definition flask_mapping : gmap ProductInfo TriageData :=
  <[flask_record := SBOM.new_found]> ∅.

(** A [PKG-INFO] file, and the parser over a database that knows no
    product. *)
Definition pkg_info : string :=
  "Metadata-Version: 2.1" +:+ Python.newline
  +:+ "Name: zstandard" +:+ Python.newline
  +:+ "Version: 0.18.0" +:+ Python.newline
  +:+ "Summary: Zstandard bindings for Python" +:+ Python.newline.

Definition pkg_info_world (db : CVEDB) : Python.World :=
  {| Python.parse_strings := fun _ => pkg_info; Python.cve_db := db |}.

(** A lock file of the newer schema: bar 1.0.0 requires foo with the
    empty constraint, baz with the wildcard and qux from 1.2 on. *)
Definition lock_v2 : Json.json :=
  Json.JObj
    [("lockfileVersion", Json.JNum 2);
     ("packages",
      Json.JObj
        [("node_modules/@scope/bar",
          Json.JObj [("version", Json.JStr "1.0.0");
                     ("requires",
                      Json.JObj [("foo", Json.JStr "");
                                 ("baz", Json.JStr "*");
                                 ("qux", Json.JStr "^1.2")])])])].

(** A lock file of the older schema: a scoped dependency with its
    requirements, and a dependency without version field. *)
Definition lock_v1 : Json.json :=
  Json.JObj
    [("lockfileVersion", Json.JNum 1);
     ("dependencies",
      Json.JObj
        [("@actions/core",
          Json.JObj [("version", Json.JStr "1.2.6");
                     ("requires",
                      Json.JObj [("@actions/http-client", Json.JStr "^1.0.8");
                                 ("any", Json.JStr "*")])]);
         ("tunnel", Json.JObj [("resolved", Json.JStr "tunnel.tgz")])])].

(** A lock file that names its version but has no section of packages. *)
Definition lock_without_packages : Json.json :=
  Json.JObj [("name", Json.JStr "app"); ("version", Json.JStr "1.0.0");
             ("lockfileVersion", Json.JNum 3)].

(** A parser whose every file holds [data] and whose resolver gives, for a
    product and a version that are strings, one record under the vendor
    [UNKNOWN]. *)
Definition js_world (data : Json.json) : Javascript.World :=
  {| Javascript.json_load := fun _ => Ok data;
     Javascript.find_vendor := fun filename product version =>
       match product, version with
       | Json.JStr product, Json.JStr version =>
           Some [{| product_info :=
                      {| vendor := "UNKNOWN"; product := product;
                         version := version |};
                    file_path := filename |}]
       | _, _ => None
       end |}.

(** A package whose first reference is a CPE 2.2 name without version. *)
Definition short_cpe22_package : SBOM.Package :=
  {| SBOM.externalreference :=
       Some [["SECURITY"; "cpe22Type"; "cpe:/a:nasm:netwide_assembler"]];
     SBOM.name := Some "nasm";
     SBOM.pkg_version := Some "2.15" |}.

Definition short_cpe22_document : SBOM.SBOMDocument :=
  {| SBOM.get_type := "spdx"; SBOM.packages := Some [short_cpe22_package] |}.

(** A package without name, after a package that is in order. *)
Definition nameless_package : SBOM.Package :=
  {| SBOM.externalreference := None;
     SBOM.name := None;
     SBOM.pkg_version := Some "1.0" |}.

Definition nameless_document : SBOM.SBOMDocument :=
  {| SBOM.get_type := "spdx";
     SBOM.packages := Some [nasm_package; nameless_package] |}.

End Examples.

(** ** Part II: properties *)

(** *** Strings *)

Section Strings.
Import Py Props.

Lemma split_nonempty sep s : split sep s <> [].
Proof.
  destruct s as [|c s]; simpl; [discriminate|].
  destruct (Ascii.eqb c sep); [discriminate|].
  destruct (split sep s); discriminate.
Qed.

Lemma split_lacks sep s : lacks sep s = true -> split sep s = [s].
Proof.
  induction s as [|c s IH]; simpl; [reflexivity|].
  intros [Hc Hs]%andb_prop.
  apply negb_true_iff in Hc. rewrite Hc, (IH Hs). reflexivity.
Qed.

Lemma split_app sep a b :
  lacks sep a = true ->
  split sep (a +:+ String sep b) = a :: split sep b.
Proof.
  induction a as [|c a IH]; simpl.
  - intros _. rewrite Ascii.eqb_refl. reflexivity.
  - intros [Hc Ha]%andb_prop.
    apply negb_true_iff in Hc. rewrite Hc, (IH Ha). reflexivity.
Qed.

(** Splitting undoes joining, for fields that do not hold the separator. *)
Lemma split_join sep f fields :
  forallb (lacks sep) (f :: fields) = true ->
  split sep (join (String sep EmptyString) (f :: fields)) = f :: fields.
Proof.
  revert f. induction fields as [|g fields IH]; intros f H.
  - simpl in *. apply split_lacks. now destruct (lacks sep f).
  - apply andb_prop in H as [Hf H].
    change (join (String sep "") (f :: g :: fields))
      with (f +:+ String sep "" +:+ join (String sep "") (g :: fields)).
    change (String sep "" +:+ join (String sep "") (g :: fields))
      with (String sep (join (String sep "") (g :: fields))).
    rewrite (split_app _ _ _ Hf), (IH g H). reflexivity.
Qed.

Lemma append_nil_r (a : string) : a +:+ "" = a.
Proof.
  induction a as [|d a IH]; [reflexivity|].
  change (String d (a +:+ "") = String d a). now rewrite IH.
Qed.

End Strings.

(** *** CPE names: [decode_cpe22] and [decode_cpe23] *)

Section Cpe.
Import Py Props SBOM.

Lemma or_None_absent field : or_None field = absent_when_empty field.
Proof. now destruct field. Qed.

Lemma decode_cpe22_at s vendor product version :
  split ":" s !! 2%nat = Some vendor ->
  split ":" s !! 3%nat = Some product ->
  split ":" s !! 4%nat = Some version ->
  decode_cpe22 s
  = Ok (absent_when_empty vendor, absent_when_empty product,
        absent_when_empty version).
Proof.
  intros Hv Hp Hver. unfold decode_cpe22, index.
  rewrite Hv, Hp, Hver. cbv beta iota delta [bind].
  now rewrite !or_None_absent.
Qed.

Lemma decode_cpe23_at s vendor product version :
  split ":" s !! 3%nat = Some vendor ->
  split ":" s !! 4%nat = Some product ->
  split ":" s !! 5%nat = Some version ->
  decode_cpe23 s
  = Ok (absent_when_empty vendor, absent_when_empty product,
        absent_when_empty version).
Proof.
  intros Hv Hp Hver. unfold decode_cpe23, index.
  rewrite Hv, Hp, Hver. cbv beta iota delta [bind].
  now rewrite !or_None_absent.
Qed.

(** Splitting goes through a separator, whatever stands before it. *)
Lemma split_at_separator sep a b :
  split sep (a +:+ String sep b) = split sep a ++ split sep b.
Proof.
  induction a as [|c a IH].
  - change ("" +:+ String sep b) with (String sep b). simpl.
    now rewrite Ascii.eqb_refl.
  - change (String c a +:+ String sep b) with (String c (a +:+ String sep b)).
    cbn [split]. rewrite IH.
    pose proof (split_nonempty sep a) as Hne.
    destruct (split sep a) as [|x xs]; [congruence|].
    now destruct (Ascii.eqb c sep).
Qed.

(** The first three fields of [vendor:product:version] followed by further
    fields do not depend on the further fields. *)
Lemma split_identity vendor product version rest :
  further_fields rest = true ->
  exists f0 f1 f2 more more',
    split ":" (vendor +:+ ":" +:+ product +:+ ":" +:+ version) 
    = f0 :: f1 :: f2 :: more /\
    split ":" (vendor +:+ ":" +:+ product +:+ ":" +:+ version +:+ rest)
    = f0 :: f1 :: f2 :: more'.
Proof.
  intros Hrest.
  change (":" +:+ product +:+ ":" +:+ version)
    with (String ":" (product +:+ String ":" version)).
  change (":" +:+ product +:+ ":" +:+ version +:+ rest)
    with (String ":" (product +:+ String ":" (version +:+ rest))).
  rewrite !split_at_separator.
  assert (exists tail, split ":" (version +:+ rest)
                       = split ":" version ++ tail) as [tail ->].
  { destruct rest as [|c rest]; simpl in Hrest.
    - exists []. now rewrite append_nil_r, app_nil_r.
    - apply Ascii.eqb_eq in Hrest as ->. rewrite split_at_separator. eauto. }
  pose proof (split_nonempty ":" vendor) as Hv.
  pose proof (split_nonempty ":" product) as Hp.
  pose proof (split_nonempty ":" version) as Hver.
  destruct (split ":" vendor) as [|v0 [|v1 [|v2 vs]]]; [congruence| | |];
    destruct (split ":" product) as [|p0 [|p1 ps]]; try congruence;
    destruct (split ":" version) as [|r0 rs]; try congruence;
    simpl; eauto 10.
Qed.

Lemma decode_cpe22_identity part vendor product version rest :
  lacks ":" part = true ->
  further_fields rest = true ->
  exists f0 f1 f2 more,
    split ":" (vendor +:+ ":" +:+ product +:+ ":" +:+ version)
    = f0 :: f1 :: f2 :: more /\
    decode_cpe22 ("cpe:" +:+ part +:+ ":" +:+ vendor +:+ ":" +:+ product
                  +:+ ":" +:+ version +:+ rest)
    = Ok (absent_when_empty f0, absent_when_empty f1, absent_when_empty f2).
Proof.
  intros Hpart Hrest.
  destruct (split_identity vendor product version rest Hrest)
    as (f0 & f1 & f2 & more & more' & Hid & Hsplit).
  exists f0, f1, f2, more. split; [exact Hid|].
  apply decode_cpe22_at;
    change ("cpe:" +:+ part +:+ ":" +:+ vendor +:+ ":" +:+ product
            +:+ ":" +:+ version +:+ rest)
      with ("cpe" +:+ String ":" (part +:+ String ":"
              (vendor +:+ ":" +:+ product +:+ ":" +:+ version +:+ rest)));
    rewrite (split_app ":" "cpe") by reflexivity;
    rewrite (split_app ":" part) by exact Hpart;
    rewrite Hsplit; reflexivity.
Qed.

Lemma decode_cpe23_identity part vendor product version rest :
  lacks ":" part = true ->
  further_fields rest = true ->
  exists f0 f1 f2 more,
    split ":" (vendor +:+ ":" +:+ product +:+ ":" +:+ version)
    = f0 :: f1 :: f2 :: more /\
    decode_cpe23 ("cpe:2.3:" +:+ part +:+ ":" +:+ vendor +:+ ":" +:+ product
                  +:+ ":" +:+ version +:+ rest)
    = Ok (absent_when_empty f0, absent_when_empty f1, absent_when_empty f2).
Proof.
  intros Hpart Hrest.
  destruct (split_identity vendor product version rest Hrest)
    as (f0 & f1 & f2 & more & more' & Hid & Hsplit).
  exists f0, f1, f2, more. split; [exact Hid|].
  apply decode_cpe23_at;
    change ("cpe:2.3:" +:+ part +:+ ":" +:+ vendor +:+ ":" +:+ product
            +:+ ":" +:+ version +:+ rest)
      with ("cpe" +:+ String ":" ("2.3" +:+ String ":" (part +:+ String ":"
              (vendor +:+ ":" +:+ product +:+ ":" +:+ version +:+ rest))));
    rewrite (split_app ":" "cpe") by reflexivity;
    rewrite (split_app ":" "2.3") by reflexivity;
    rewrite (split_app ":" part) by exact Hpart;
    rewrite Hsplit; reflexivity.
Qed.

(** C2.  [decode_cpe22] reads the fields 2, 3 and 4 of its colon-separated
    argument and [decode_cpe23] the fields 3, 4 and 5, and each returns
    [None] for an empty field and the field itself for any other.  So the
    CPE 2.2 name [cpe:/part:vendor:product:version...] and the CPE 2.3 name
    [cpe:2.3:part:vendor:product:version...] of one identity decode to the
    same triple, whatever the three fields are made of; the triple is the
    identity itself, the empty fields absent, when no field of the identity
    holds a colon.  The CPE 2.3 name of nasm decodes to nasm,
    netwide_assembler, 2.15, and a name whose vendor is empty to no
    vendor. *)
Theorem decode_cpe22_cpe23_agree :
  (forall s vendor product version,
     split ":" s !! 2%nat = Some vendor ->
     split ":" s !! 3%nat = Some product ->
     split ":" s !! 4%nat = Some version ->
     decode_cpe22 s
     = Ok (if String.eqb vendor "" then None else Some vendor,
           if String.eqb product "" then None else Some product,
           if String.eqb version "" then None else Some version)) /\
  (forall s vendor product version,
     split ":" s !! 3%nat = Some vendor ->
     split ":" s !! 4%nat = Some product ->
     split ":" s !! 5%nat = Some version ->
     decode_cpe23 s
     = Ok (if String.eqb vendor "" then None else Some vendor,
           if String.eqb product "" then None else Some product,
           if String.eqb version "" then None else Some version)) /\
  (forall part22 part23 vendor product version rest22 rest23,
     lacks ":" part22 = true ->
     lacks ":" part23 = true ->
     further_fields rest22 = true ->
     further_fields rest23 = true ->
     decode_cpe22 ("cpe:" +:+ part22 +:+ ":" +:+ vendor +:+ ":" +:+ product
                   +:+ ":" +:+ version +:+ rest22)
     = decode_cpe23 ("cpe:2.3:" +:+ part23 +:+ ":" +:+ vendor +:+ ":"
                     +:+ product +:+ ":" +:+ version +:+ rest23) /\
     exists t,
       decode_cpe22 ("cpe:" +:+ part22 +:+ ":" +:+ vendor +:+ ":" +:+ product
                     +:+ ":" +:+ version +:+ rest22) = Ok t /\
       (colon_free [vendor; product; version] = true ->
        t = (absent_when_empty vendor, absent_when_empty product,
             absent_when_empty version))) /\
  decode_cpe23 "cpe:2.3:a:nasm:netwide_assembler:2.15:*:*:*:*:*:*:*"
  = Ok (Some "nasm", Some "netwide_assembler", Some "2.15") /\
  decode_cpe22 "cpe:/a:nasm:netwide_assembler:2.15"
  = Ok (Some "nasm", Some "netwide_assembler", Some "2.15") /\
  decode_cpe23 "cpe:2.3:a::netwide_assembler::*:*:*:*:*:*:*"
  = Ok (None, Some "netwide_assembler", None) /\
  decode_cpe22 "cpe:/a::netwide_assembler:"
  = Ok (None, Some "netwide_assembler", None).
Proof.
  split; [exact decode_cpe22_at|].
  split; [exact decode_cpe23_at|].
  split; [|repeat split; reflexivity].
  intros part22 part23 vendor product version rest22 rest23 H22 H23 Hr22 Hr23.
  destruct (decode_cpe22_identity part22 vendor product version rest22
              H22 Hr22) as (f0 & f1 & f2 & more & Hid & Hd22).
  destruct (decode_cpe23_identity part23 vendor product version rest23
              H23 Hr23) as (g0 & g1 & g2 & more' & Hid' & Hd23).
  rewrite Hid in Hid'. injection Hid' as <- <- <- <-.
  split; [now rewrite Hd22, Hd23|].
  eexists. split; [exact Hd22|].
  intros Hfree. unfold colon_free in Hfree.
  change (":" +:+ product +:+ ":" +:+ version)
    with (String ":" "" +:+ join (String ":" "") [product; version]) in Hid.
  change (vendor +:+ String ":" "" +:+ join (String ":" "") [product; version])
    with (join (String ":" "") [vendor; product; version]) in Hid.
  rewrite (split_join _ _ _ Hfree) in Hid. now injection Hid as <- <- <-.
Qed.

Lemma decode_cpe22_cpe23_agree_witness :
  split ":" "cpe:/a::netwide_assembler:2.15" !! 2%nat = Some "" /\
  split ":" "cpe:/a::netwide_assembler:2.15" !! 3%nat
  = Some "netwide_assembler" /\
  split ":" "cpe:/a::netwide_assembler:2.15" !! 4%nat = Some "2.15" /\
  decode_cpe22 "cpe:/a::netwide_assembler:2.15"
  = Ok (None, Some "netwide_assembler", Some "2.15") /\
  split ":" "cpe:2.3:a:nasm::2.15:*:*:*:*:*:*:*" !! 3%nat = Some "nasm" /\
  split ":" "cpe:2.3:a:nasm::2.15:*:*:*:*:*:*:*" !! 4%nat = Some "" /\
  split ":" "cpe:2.3:a:nasm::2.15:*:*:*:*:*:*:*" !! 5%nat = Some "2.15" /\
  decode_cpe23 "cpe:2.3:a:nasm::2.15:*:*:*:*:*:*:*"
  = Ok (Some "nasm", None, Some "2.15") /\
  lacks ":" "/a" = true /\ lacks ":" "a" = true /\
  further_fields "" = true /\ further_fields ":*:*:*:*:*:*:*" = true /\
  decode_cpe22 "cpe:/a:nasm:netwide_assembler:2.15"
  = decode_cpe23 "cpe:2.3:a:nasm:netwide_assembler:2.15:*:*:*:*:*:*:*".
Proof.
  do 3 (split; [reflexivity|]).
  split.
  { exact (proj1 decode_cpe22_cpe23_agree "cpe:/a::netwide_assembler:2.15"
             "" "netwide_assembler" "2.15" eq_refl eq_refl eq_refl). }
  do 3 (split; [reflexivity|]).
  split.
  { exact (proj1 (proj2 decode_cpe22_cpe23_agree)
             "cpe:2.3:a:nasm::2.15:*:*:*:*:*:*:*"
             "nasm" "" "2.15" eq_refl eq_refl eq_refl). }
  do 4 (split; [reflexivity|]).
  exact (proj1 (proj1 (proj2 (proj2 decode_cpe22_cpe23_agree))
                  "/a" "a" "nasm" "netwide_assembler" "2.15" ""
                  ":*:*:*:*:*:*:*" eq_refl eq_refl eq_refl eq_refl)).
Defined.

End Cpe.

(** *** SBOM ingestion: the order of preference of the references *)

Section Preference.
Import Py Props SBOM.
Variable w : World.

Lemma is_valid_string_known ref_type s :
  In ref_type ref_types ->
  exists b, is_valid_string (string_type ref_type) s = Ok b.
Proof.
  intros [<-|[<-|[<-|[]]]]; simpl; eauto.
Qed.

(** One turn of the loop: a valid reference sets the entry of its type to
    what its decoder returns, and nothing else changes. *)
Lemma parse_ext_ref_body_spec decoded ref decoded' key :
  In key ref_types ->
  parse_ext_ref_body w decoded ref = Ok decoded' ->
  match valid_as key ref with
  | Some s => exists t, decode_as w key s = Ok t /\ decoded' !! key = Some t
  | None => decoded' !! key = decoded !! key
  end.
Proof.
  intros Hkey. unfold parse_ext_ref_body, valid_as, index.
  destruct (ref !! 1%nat) as [ty|]; simpl; [|discriminate].
  destruct (ref !! 2%nat) as [s|]; simpl; [|discriminate].
  unfold and_, is_valid_string at 1 2 3. simpl.
  destruct (String.eqb_spec ty "cpe23Type") as [->|H23].
  { destruct (Re.match_ cpe23_pattern s) eqn:Hv; simpl.
    - destruct (decode_cpe23 s) as [t|] eqn:Hd; simpl; [|discriminate].
      intros [= <-].
      destruct Hkey as [<-|[<-|[<-|[]]]]; simpl; unfold decode_as; simpl.
      + rewrite Hv. exists t. rewrite lookup_insert_eq. auto.
      + destruct (Re.match_ cpe22_pattern s); now rewrite lookup_insert_ne.
      + destruct (Re.match_dollar purl_pattern s); now rewrite lookup_insert_ne.
    - intros [= <-].
      destruct Hkey as [<-|[<-|[<-|[]]]]; simpl.
      + now rewrite Hv.
      + now destruct (Re.match_ cpe22_pattern s).
      + now destruct (Re.match_dollar purl_pattern s). }
  destruct (String.eqb_spec ty "cpe22Type") as [->|H22].
  { destruct (Re.match_ cpe22_pattern s) eqn:Hv; simpl.
    - destruct (decode_cpe22 s) as [t|] eqn:Hd; simpl; [|discriminate].
      intros [= <-].
      destruct Hkey as [<-|[<-|[<-|[]]]]; simpl; unfold decode_as; simpl.
      + destruct (Re.match_ cpe23_pattern s); now rewrite lookup_insert_ne.
      + rewrite Hv. exists t. rewrite lookup_insert_eq. auto.
      + destruct (Re.match_dollar purl_pattern s); now rewrite lookup_insert_ne.
    - intros [= <-].
      destruct Hkey as [<-|[<-|[<-|[]]]]; simpl.
      + now destruct (Re.match_ cpe23_pattern s).
      + now rewrite Hv.
      + now destruct (Re.match_dollar purl_pattern s). }
  destruct (String.eqb_spec ty "purl") as [->|Hp].
  { destruct (Re.match_dollar purl_pattern s) eqn:Hv; simpl.
    - destruct (decode_purl w s) as [t|] eqn:Hd; simpl; [|discriminate].
      intros [= <-].
      destruct Hkey as [<-|[<-|[<-|[]]]]; simpl; unfold decode_as; simpl.
      + destruct (Re.match_ cpe23_pattern s); now rewrite lookup_insert_ne.
      + destruct (Re.match_ cpe22_pattern s); now rewrite lookup_insert_ne.
      + rewrite Hv. exists t. rewrite lookup_insert_eq. auto.
    - intros [= <-].
      destruct Hkey as [<-|[<-|[<-|[]]]]; simpl.
      + now destruct (Re.match_ cpe23_pattern s).
      + now destruct (Re.match_ cpe22_pattern s).
      + now rewrite Hv. }
  intros [= <-].
  destruct (is_valid_string_known key s Hkey) as [b ->].
  destruct b; [|reflexivity].
  destruct (String.eqb_spec ty key) as [->|]; [|reflexivity].
  destruct Hkey as [<-|[<-|[<-|[]]]]; congruence.
Qed.

(** The loop: in the end the entry of each type is what the decoder
    returns for the last valid reference of that type. *)
Lemma parse_ext_ref_loop_spec ext_ref : forall decoded decoded' key,
  In key ref_types ->
  parse_ext_ref_loop w decoded ext_ref = Ok decoded' ->
  match last_valid key ext_ref with
  | Some s => exists t, decode_as w key s = Ok t /\ decoded' !! key = Some t
  | None => decoded' !! key = decoded !! key
  end.
Proof.
  unfold last_valid.
  induction ext_ref as [|ref rest IH]; intros decoded decoded' key Hkey.
  - simpl. now intros [= <-].
  - simpl parse_ext_ref_loop.
    destruct (parse_ext_ref_body w decoded ref) as [d1|] eqn:Hbody;
      cbv beta iota delta [bind]; [|discriminate].
    intros Hloop.
    pose proof (parse_ext_ref_body_spec _ _ _ _ Hkey Hbody) as Hb.
    pose proof (IH _ _ _ Hkey Hloop) as Hr.
    change (omap (valid_as key) (ref :: rest))
      with (match valid_as key ref with
            | Some y => y :: omap (valid_as key) rest
            | None => omap (valid_as key) rest
            end).
    destruct (valid_as key ref) as [s|].
    + rewrite last_cons.
      destruct (last (omap (valid_as key) rest)) as [s'|]; [exact Hr|].
      destruct Hb as (t & Ht & Hd1). exists t. split; [exact Ht|congruence].
    + destruct (last (omap (valid_as key) rest)) as [s'|]; [exact Hr|].
      congruence.
Qed.

Lemma parse_ext_ref_spec ext_ref t :
  parse_ext_ref w ext_ref = Ok t ->
  match last_valid "cpe23Type" ext_ref with
  | Some s => decode_cpe23 s = Ok t
  | None =>
      match last_valid "cpe22Type" ext_ref with
      | Some s => decode_cpe22 s = Ok t
      | None =>
          match last_valid "purl" ext_ref with
          | Some s => decode_purl w s = Ok t
          | None => t = (None, None, None)
          end
      end
  end.
Proof.
  unfold parse_ext_ref.
  destruct (parse_ext_ref_loop w ∅ ext_ref) as [d|] eqn:Hloop;
    cbv beta iota delta [bind]; [|discriminate].
  intros [= <-].
  pose proof (parse_ext_ref_loop_spec _ _ _ "cpe23Type"
                ltac:(simpl; auto) Hloop) as H23.
  pose proof (parse_ext_ref_loop_spec _ _ _ "cpe22Type"
                ltac:(simpl; auto) Hloop) as H22.
  pose proof (parse_ext_ref_loop_spec _ _ _ "purl"
                ltac:(simpl; auto) Hloop) as Hp.
  rewrite lookup_empty in *. unfold Triple in *.
  destruct (last_valid "cpe23Type" ext_ref).
  { destruct H23 as (t & Ht & ->). exact Ht. }
  rewrite H23. cbn [default].
  destruct (last_valid "cpe22Type" ext_ref).
  { destruct H22 as (t & Ht & ->). exact Ht. }
  rewrite H22. cbn [default].
  destruct (last_valid "purl" ext_ref).
  { destruct Hp as (t & Ht & ->). exact Ht. }
  now rewrite Hp.
Qed.

(** The module of a package: the decoded triple, completed field by field
    from the name and the version the package declares. *)
Lemma parse_package_spec package :
  parse_package w package =
  let* decoded :=
    match externalreference package with
    | Some ext_ref => parse_ext_ref w ext_ref
    | None => Ok (None, None, None)
    end in
  with_declared decoded package.
Proof.
  unfold parse_package, with_declared.
  destruct (match externalreference package with
            | Some ext_ref => parse_ext_ref w ext_ref
            | None => Ok (None, None, None)
            end) as [[[vendor product] version]|]; simpl; [|reflexivity].
  destruct product as [[|c p]|], (name package) as [n|]; simpl;
    try reflexivity;
    destruct version as [[|d v]|], (pkg_version package) as [[|e v']|];
    reflexivity.
Qed.

Lemma decoded_version_nonempty s vendor product version :
  decode_cpe23 s = Ok (vendor, product, Some version) -> version <> "".
Proof.
  unfold decode_cpe23, index.
  destruct (_ !! 3%nat); simpl; [|discriminate].
  destruct (_ !! 4%nat); simpl; [|discriminate].
  destruct (_ !! 5%nat) as [[|c v]|]; simpl; [discriminate| |discriminate].
  intros [= _ _ <-]. discriminate.
Qed.

End Preference.

(** *** SBOM ingestion: [scan_file] *)

Section ScanFile.
Import Py Util Props SBOM.
Variable w : World.

Lemma scan_file_unfold self :
  scan_file w self =
  let* modules := ingested_modules w self in
  let sbom_data' :=
    foldl (fun d row => <[row := new_found]> d) (sbom_data self)
          (flat_map (module_records self) modules) in
  Ok (sbom_data',
      {| filename := filename self; type := type self;
         validate := validate self; sbom_data := sbom_data';
         cvedb := cvedb self |}).
Proof. reflexivity. Qed.

(** Without modules [scan_file] returns the mapping of the object as it
    was, and leaves the object as it was. *)
Lemma scan_file_no_modules self :
  ingested_modules w self = Ok [] ->
  scan_file w self = Ok (sbom_data self, self).
Proof.
  intros H. rewrite scan_file_unfold, H. destruct self. reflexivity.
Qed.

Lemma ingested_modules_missing self :
  path_exists w (filename self) = Ok false -> ingested_modules w self = Ok [].
Proof. unfold ingested_modules. now intros ->. Qed.

Lemma ingested_modules_caught self e :
  path_exists w (filename self) = Ok true ->
  In e [KeyError; FileNotFoundError; ParseError] ->
  underlying_parse w self = Raise e ->
  ingested_modules w self = Ok [].
Proof.
  unfold ingested_modules, underlying_parse. intros -> He Hraise.
  cbv beta iota delta [bind].
  rewrite Hraise. destruct He as [<-|[<-|[<-|[]]]]; reflexivity.
Qed.

Lemma ingested_modules_ok self modules b :
  path_exists w (filename self) = Ok b ->
  underlying_parse w self = Ok modules ->
  ingested_modules w self = Ok (if b then modules else []).
Proof.
  unfold ingested_modules, underlying_parse. intros -> H.
  cbv beta iota delta [bind]. destruct b; [|reflexivity].
  now rewrite H.
Qed.

(** An exception of the existence check, or of the parser, that is not
    one of the three [scan_file] catches leaves [scan_file]. *)
Lemma scan_file_exists_raises self e :
  path_exists w (filename self) = Raise e ->
  existsb (exn_eqb e) [KeyError; FileNotFoundError; ParseError] = false ->
  scan_file w self = Raise e.
Proof.
  intros Hex Hnot. rewrite scan_file_unfold. unfold ingested_modules.
  rewrite Hex. cbv beta iota delta [bind]. unfold try_except.
  now rewrite Hnot.
Qed.

Lemma scan_file_parse_raises self e :
  path_exists w (filename self) = Ok true ->
  underlying_parse w self = Raise e ->
  existsb (exn_eqb e) [KeyError; FileNotFoundError; ParseError] = false ->
  scan_file w self = Raise e.
Proof.
  intros Hex Hparse Hnot. rewrite scan_file_unfold.
  unfold ingested_modules, underlying_parse in *.
  rewrite Hex. cbv beta iota delta [bind]. rewrite Hparse.
  unfold try_except. now rewrite Hnot.
Qed.

(** C10, as the code has it.  When the existence check answers that the
    file is not there, [scan_file] raises nothing and returns the mapping
    of the object unchanged, which is the empty mapping for an object just
    made by [__init__]; the same holds when the file is there and the
    parser raises [KeyError], [FileNotFoundError] or [ParseError].  But an
    exception of the existence check itself is not swallowed unless it is
    one of these three: an [OSError], as for a name that is too long,
    leaves [scan_file]; and so does any other exception of the parser. *)
Theorem scan_file_missing_or_unparsable :
  (forall self,
     path_exists w (filename self) = Ok false ->
     scan_file w self = Ok (sbom_data self, self)) /\
  (forall self e,
     path_exists w (filename self) = Ok true ->
     In e [KeyError; FileNotFoundError; ParseError] ->
     underlying_parse w self = Raise e ->
     scan_file w self = Ok (sbom_data self, self)) /\
  (forall db name sbom_type validate,
     let self := __init__ db name sbom_type validate in
     path_exists w name = Ok false \/
     (path_exists w name = Ok true /\
      exists e, In e [KeyError; FileNotFoundError; ParseError] /\
                underlying_parse w self = Raise e) ->
     scan_file w self = Ok (∅, self)) /\
  (forall self,
     path_exists w (filename self) = Raise OSError ->
     scan_file w self = Raise OSError) /\
  (forall self e,
     path_exists w (filename self) = Ok true ->
     underlying_parse w self = Raise e ->
     ~ In e [KeyError; FileNotFoundError; ParseError] ->
     scan_file w self = Raise e).
Proof.
  split; [|split; [|split; [|split]]].
  - intros self H. now apply scan_file_no_modules, ingested_modules_missing.
  - intros self e Hex He H.
    now apply scan_file_no_modules, (ingested_modules_caught _ e).
  - intros db name sbom_type validate self [H|(Hex & e & He & H)].
    + now apply (scan_file_no_modules self), ingested_modules_missing.
    + now apply (scan_file_no_modules self), (ingested_modules_caught _ e).
  - intros self H. now apply scan_file_exists_raises.
  - intros self e Hex H Hnot. apply scan_file_parse_raises; try assumption.
    destruct e; try reflexivity; exfalso; apply Hnot; simpl; auto.
Qed.

Lemma parse_sbom_invalid self doc :
  validate self = true ->
  endswith (filename self) ".xml" = true ->
  SBOMParser_parse_file w (type self) (filename self) = Ok doc ->
  validator w (get_type doc) (filename self) = false ->
  parse_sbom w self = Ok [].
Proof.
  unfold parse_sbom, validator. intros -> -> -> Hv. simpl.
  now rewrite Hv.
Qed.

(** C9.  With validation enabled, for a file whose name ends in [.xml] and
    that the validator of its type rejects, [parse_sbom] returns no module,
    and [scan_file], on an object of a type other than [swid] and when the
    existence check answers, adds no record: it returns the mapping it had,
    the empty one for a new object. *)
Theorem validation_failure_aborts :
  forall self doc,
    validate self = true ->
    endswith (filename self) ".xml" = true ->
    SBOMParser_parse_file w (type self) (filename self) = Ok doc ->
    validator w (get_type doc) (filename self) = false ->
    parse_sbom w self = Ok [] /\
    (type self <> "swid" ->
     (exists b, path_exists w (filename self) = Ok b) ->
     scan_file w self = Ok (sbom_data self, self) /\
     (sbom_data self = ∅ -> scan_file w self = Ok (∅, self))).
Proof.
  intros self doc Hval Hxml Hparse Hinvalid.
  pose proof (parse_sbom_invalid _ _ Hval Hxml Hparse Hinvalid) as Hnone.
  split; [exact Hnone|]. intros Hswid [b Hex].
  assert (scan_file w self = Ok (sbom_data self, self)) as Hscan.
  { apply scan_file_no_modules.
    rewrite (ingested_modules_ok self [] b Hex).
    - now destruct b.
    - unfold underlying_parse.
      destruct (String.eqb_spec (type self) "swid"); [contradiction|].
      exact Hnone. }
  split; [exact Hscan|]. intros Hempty. now rewrite Hscan, Hempty.
Qed.

End ScanFile.

Lemma scan_file_missing_or_unparsable_witness :
  let self := SBOM.__init__ Examples.empty_db "missing.spdx" "spdx" true in
  let long := SBOM.__init__ Examples.empty_db Examples.long_name "spdx" true in
  SBOM.path_exists Examples.no_file_world "missing.spdx" = Py.Ok false /\
  SBOM.scan_file Examples.no_file_world self = Py.Ok (∅, self) /\
  SBOM.path_exists Examples.broken_xml_world "missing.spdx" = Py.Ok true /\
  Props.underlying_parse Examples.broken_xml_world self
  = Py.Raise Py.ParseError /\
  SBOM.scan_file Examples.broken_xml_world self = Py.Ok (∅, self) /\
  SBOM.path_exists Examples.long_name_world (SBOM.filename long)
  = Py.Raise Py.OSError /\
  SBOM.scan_file Examples.long_name_world long = Py.Raise Py.OSError /\
  Props.underlying_parse
    (Examples.world_of Examples.short_cpe22_document true) self
  = Py.Raise Py.IndexError /\
  ~ In Py.IndexError [Py.KeyError; Py.FileNotFoundError; Py.ParseError] /\
  SBOM.scan_file (Examples.world_of Examples.short_cpe22_document true) self
  = Py.Raise Py.IndexError.
Proof.
  intros self long.
  assert (Props.underlying_parse
            (Examples.world_of Examples.short_cpe22_document true) self
          = Py.Raise Py.IndexError) as Hindex by (vm_compute; reflexivity).
  assert (~ In Py.IndexError
              [Py.KeyError; Py.FileNotFoundError; Py.ParseError]) as Hnot
    by (intros [H|[H|[H|[]]]]; discriminate).
  assert (SBOM.path_exists Examples.long_name_world (SBOM.filename long)
          = Py.Raise Py.OSError) as Hlong by (vm_compute; reflexivity).
  split; [reflexivity|].
  split.
  { apply (proj1 (proj2 (proj2 (scan_file_missing_or_unparsable
                                  Examples.no_file_world)))
             Examples.empty_db "missing.spdx" "spdx" true).
    left. reflexivity. }
  split; [reflexivity|]. split; [reflexivity|].
  split.
  { apply (proj1 (proj2 (proj2 (scan_file_missing_or_unparsable
                                  Examples.broken_xml_world)))
             Examples.empty_db "missing.spdx" "spdx" true).
    right. split; [reflexivity|].
    exists Py.ParseError. split; [simpl; auto|reflexivity]. }
  split; [exact Hlong|].
  split.
  { exact (proj1 (proj2 (proj2 (proj2 (scan_file_missing_or_unparsable
                                         Examples.long_name_world))))
             long Hlong). }
  split; [exact Hindex|]. split; [exact Hnot|].
  exact (proj2 (proj2 (proj2 (proj2 (scan_file_missing_or_unparsable
            (Examples.world_of Examples.short_cpe22_document true)))))
           self Py.IndexError eq_refl Hindex Hnot).
Defined.

(** The counterexample to C10 as the spec has it: a name of 5000
    characters is the name of no file, yet [scan_file] does not return the
    empty mapping for it: the [OSError] of the existence check leaves
    it. *)
Lemma scan_file_name_too_long_raises :
  let self := SBOM.__init__ Examples.empty_db Examples.long_name "spdx" true in
  SBOM.path_exists Examples.long_name_world Examples.long_name
  = Py.Raise Py.OSError /\
  SBOM.scan_file Examples.long_name_world self = Py.Raise Py.OSError /\
  SBOM.scan_file Examples.long_name_world self <> Py.Ok (∅, self).
Proof.
  intros self.
  assert (SBOM.path_exists Examples.long_name_world (SBOM.filename self)
          = Py.Raise Py.OSError) as Hlong by (vm_compute; reflexivity).
  assert (SBOM.scan_file Examples.long_name_world self
          = Py.Raise Py.OSError) as Hscan
    by (apply scan_file_exists_raises; [exact Hlong|reflexivity]).
  split; [exact Hlong|]. split; [exact Hscan|].
  rewrite Hscan. discriminate.
Qed.

Lemma validation_failure_aborts_witness :
  let w := Examples.world_of Examples.nasm_document false in
  let self := SBOM.__init__ Examples.empty_db "nasm.spdx.xml" "spdx" true in
  SBOM.validate self = true /\
  Py.endswith (SBOM.filename self) ".xml" = true /\
  SBOM.SBOMParser_parse_file w (SBOM.type self) (SBOM.filename self)
  = Py.Ok Examples.nasm_document /\
  Props.validator w "spdx" (SBOM.filename self) = false /\
  SBOM.path_exists w (SBOM.filename self) = Py.Ok true /\
  SBOM.parse_sbom w self = Py.Ok [] /\
  SBOM.scan_file w self = Py.Ok (∅, self).
Proof.
  intros w self.
  pose proof (validation_failure_aborts w self Examples.nasm_document
                eq_refl eq_refl eq_refl eq_refl) as [Hp Hs].
  do 5 (split; [reflexivity|]).
  split; [exact Hp|].
  destruct (Hs ltac:(discriminate) (ex_intro _ true eq_refl)) as [_ Hempty].
  exact (Hempty eq_refl).
Defined.

(** *** Vendor resolution *)

Section Vendor.
Import Py Util Props SBOM.

Lemma insert_rows_kept (rows : list ProductInfo) :
  forall (d : gmap ProductInfo TriageData) row,
    d !! row = Some new_found ->
    foldl (fun d row => <[row := new_found]> d) d rows !! row
    = Some new_found.
Proof.
  induction rows as [|r rows IH]; intros d row H; simpl; [exact H|].
  apply IH. destruct (decide (r = row)) as [->|Hne].
  - apply lookup_insert_eq.
  - now rewrite lookup_insert_ne.
Qed.

Lemma insert_rows_lookup (rows : list ProductInfo) :
  forall (d : gmap ProductInfo TriageData) row,
    In row rows ->
    foldl (fun d row => <[row := new_found]> d) d rows !! row
    = Some new_found.
Proof.
  induction rows as [|r rows IH]; intros d row Hin; simpl; [destruct Hin|].
  destruct Hin as [->|Hin].
  - apply insert_rows_kept, lookup_insert_eq.
  - now apply IH.
Qed.

Lemma insert_rows_inv (rows : list ProductInfo) :
  forall (d : gmap ProductInfo TriageData) row x,
    foldl (fun d row => <[row := new_found]> d) d rows !! row = Some x ->
    In row rows \/ d !! row = Some x.
Proof.
  induction rows as [|r rows IH]; intros d row x H; simpl in *; [now right|].
  destruct (IH _ _ _ H) as [Hin|Hd]; [now left; right|].
  destruct (decide (r = row)) as [->|Hne]; [now left; left|].
  rewrite lookup_insert_ne in Hd by exact Hne. now right.
Qed.

(** A module without vendor whose product the database does not know
    becomes one record, with the vendor [UNKNOWN]. *)
Lemma module_records_unknown self product version :
  get_vendor_product_pairs (cvedb self) (lower product) = [] ->
  module_records self (None, product, version)
  = [{| vendor := "UNKNOWN"; product := lower product;
        version := version |}].
Proof.
  intros H. unfold module_records, get_vendor. now rewrite H.
Qed.

(** The mapping [scan_file] returns holds every record of every module. *)
Lemma scan_file_records w self modules :
  ingested_modules w self = Ok modules ->
  exists mapping self',
    scan_file w self = Ok (mapping, self') /\
    (forall m row, In m modules -> In row (module_records self m) ->
                   mapping !! row = Some new_found) /\
    (forall row x, mapping !! row = Some x ->
                   sbom_data self !! row = Some x \/
                   exists m, In m modules /\ In row (module_records self m)).
Proof.
  intros H. rewrite scan_file_unfold, H. simpl. eexists _, _.
  split; [reflexivity|]. split.
  - intros m row Hm Hrow. apply insert_rows_lookup.
    apply in_flat_map. eauto.
  - intros row x Hx. apply insert_rows_inv in Hx as [Hin|Hd]; [right|now left].
    apply in_flat_map in Hin. exact Hin.
Qed.

Lemma python_run_checker_no_match (w : Python.World) filename product :
  Python.search "Name: " (metadata_header w filename) = Some product ->
  get_vendor_product_pairs (Python.cve_db w) product = [] ->
  Python.run_checker w filename = [].
Proof.
  unfold Python.run_checker, metadata_header. intros -> Hnone.
  destruct (Python.search "Version: " _); [|reflexivity].
  now rewrite Hnone.
Qed.

(** C4, as the code has it.  On the SBOM path a module without vendor
    whose product the database does not know gives exactly one record, with
    the vendor [UNKNOWN], and the mapping returned holds it.  On the
    [PKG-INFO] path a product the database does not know gives no record at
    all. *)
Theorem unknown_vendor_sentinel :
  (forall w self modules product version,
     ingested_modules w self = Ok modules ->
     In (None, product, version) modules ->
     get_vendor_product_pairs (cvedb self) (lower product) = [] ->
     module_records self (None, product, version)
     = [{| vendor := "UNKNOWN"; product := lower product;
           version := version |}] /\
     exists mapping self',
       scan_file w self = Ok (mapping, self') /\
       mapping !! {| vendor := "UNKNOWN"; product := lower product;
                     version := version |} = Some new_found) /\
  (forall (w : Python.World) filename product,
     Python.search "Name: " (metadata_header w filename) = Some product ->
     get_vendor_product_pairs (Python.cve_db w) product = [] ->
     Python.run_checker w filename = []).
Proof.
  split; [|exact python_run_checker_no_match].
  intros w self modules product version Hmod Hin Hnone.
  pose proof (module_records_unknown self product version Hnone) as Hrec.
  split; [exact Hrec|].
  destruct (scan_file_records w self modules Hmod)
    as (mapping & self' & Hscan & Hall & _).
  exists mapping, self'. split; [exact Hscan|].
  apply (Hall _ _ Hin). rewrite Hrec. now left.
Qed.

Lemma prefix_loop_not_found self prefixes product version :
  fst (prefix_loop self prefixes product version) = false ->
  prefix_loop self prefixes product version = (false, []).
Proof.
  induction prefixes as [|prefix rest IH]; simpl; [reflexivity|].
  destruct (strip_prefix prefix product); [|exact IH].
  destruct (vendor_found _); [discriminate|reflexivity].
Qed.

Lemma strip_prefix_app prefix rest :
  strip_prefix prefix (prefix +:+ rest) = Some rest.
Proof.
  induction prefix as [|c prefix IH]; simpl; [reflexivity|].
  now rewrite Ascii.eqb_refl.
Qed.

(** No known prefix is the beginning of another one, so a product that
    starts with one of them is stripped of that one. *)
Lemma prefix_loop_known self prefix rest version :
  In prefix common_prefix ->
  prefix_loop self common_prefix (prefix +:+ rest) version
  = if vendor_found (get_vendor self rest)
    then (true, map (fun vendor => {| vendor := vendor; product := rest;
                                      version := version |})
                    (get_vendor self rest))
    else (false, []).
Proof.
  unfold common_prefix.
  intros [<-|[<-|[<-|[<-|[<-|[<-|[<-|[<-|[<-|[]]]]]]]]]]; reflexivity.
Qed.

Lemma get_vendor_unknown self name :
  get_vendor_product_pairs (cvedb self) name = [] ->
  vendor_found (get_vendor self name) = false.
Proof. unfold get_vendor. now intros ->. Qed.

Lemma flat_map_nil {A B} (f : A -> list B) l :
  (forall a, f a = []) -> flat_map f l = [].
Proof.
  intros H. induction l as [|a l IH]; simpl; [reflexivity|].
  now rewrite H, IH.
Qed.

(** C6, as the code has it.  [scan_file] does not use the fallback: a
    module without vendor whose product the database does not know gets the
    vendor [UNKNOWN], with or without a known prefix.  The fallback is
    [common_prefix_split], which [scan_file] does not call: for a product
    with a known prefix whose rest has a vendor, it gives the vendors of the
    rest; when the rest has none, or the product has no known prefix, it
    gives the vendors of the hyphen-separated segments; and it gives nothing,
    not [UNKNOWN], when the database knows none of them. *)
Theorem prefix_fallback_unused :
  (forall self product version,
     get_vendor_product_pairs (cvedb self) (lower product) = [] ->
     module_records self (None, product, version)
     = [{| vendor := "UNKNOWN"; product := lower product;
           version := version |}]) /\
  (forall self prefix rest version,
     In prefix common_prefix ->
     vendor_found (get_vendor self rest) = true ->
     common_prefix_split self (prefix +:+ rest) version
     = map (fun vendor => {| vendor := vendor; product := rest;
                             version := version |})
           (get_vendor self rest)) /\
  (forall self prefix rest version,
     In prefix common_prefix ->
     vendor_found (get_vendor self rest) = false ->
     common_prefix_split self (prefix +:+ rest) version
     = flat_map (segment_records self version)
                (split "-" (prefix +:+ rest))) /\
  (forall self product version,
     (forall prefix, In prefix common_prefix ->
                     startswith product prefix = false) ->
     common_prefix_split self product version
     = flat_map (segment_records self version) (split "-" product)) /\
  (forall self product version,
     (forall name, get_vendor_product_pairs (cvedb self) name = []) ->
     common_prefix_split self product version = []).
Proof.
  split; [exact module_records_unknown|].
  split; [|split; [|split]].
  - intros self prefix rest version Hin Hfound.
    unfold common_prefix_split.
    rewrite (prefix_loop_known _ _ _ _ Hin), Hfound. reflexivity.
  - intros self prefix rest version Hin Hfound.
    unfold common_prefix_split.
    rewrite (prefix_loop_known _ _ _ _ Hin), Hfound. reflexivity.
  - intros self product version Hnone.
    unfold common_prefix_split.
    rewrite prefix_loop_not_found; [reflexivity|].
    assert (forall prefixes,
              (forall prefix, In prefix prefixes ->
                              startswith product prefix = false) ->
              fst (prefix_loop self prefixes product version) = false) as H.
    { induction prefixes as [|p ps IH]; intros Hps; simpl; [reflexivity|].
      pose proof (Hps p (or_introl eq_refl)) as Hp.
      unfold startswith in Hp.
      destruct (strip_prefix p product); [discriminate|].
      apply IH. intros q Hq. apply Hps. now right. }
    apply H, Hnone.
  - intros self product version Hnone.
    unfold common_prefix_split.
    rewrite prefix_loop_not_found.
    + apply flat_map_nil. intros sp.
      now rewrite (get_vendor_unknown _ _ (Hnone sp)).
    + induction common_prefix as [|p ps IH]; simpl; [reflexivity|].
      destruct (strip_prefix p product); [|exact IH].
      now rewrite (get_vendor_unknown _ _ (Hnone _)).
Qed.

End Vendor.

Lemma unknown_vendor_sentinel_witness :
  let w := Examples.world_of Examples.flask_document true in
  let self := SBOM.__init__ Examples.empty_db "flask.spdx" "spdx" true in
  Props.ingested_modules w self = Py.Ok [(None, "python-flask", "2.0.1")] /\
  Util.get_vendor_product_pairs (SBOM.cvedb self) "python-flask" = [] /\
  (exists mapping self',
     SBOM.scan_file w self = Py.Ok (mapping, self') /\
     mapping !! {| Util.vendor := "UNKNOWN"; Util.product := "python-flask";
                   Util.version := "2.0.1" |} = Some SBOM.new_found) /\
  Python.search "Name: "
    (Props.metadata_header (Examples.pkg_info_world Examples.empty_db)
       "PKG-INFO")
  = Some "zstandard" /\
  Python.run_checker (Examples.pkg_info_world Examples.empty_db) "PKG-INFO"
  = [].
Proof.
  intros w self.
  split; [reflexivity|]. split; [reflexivity|].
  split.
  - exact (proj2 (proj1 unknown_vendor_sentinel w self _
                    "python-flask" "2.0.1" eq_refl (or_introl eq_refl)
                    eq_refl)).
  - split; [reflexivity|].
    exact (proj2 unknown_vendor_sentinel
             (Examples.pkg_info_world Examples.empty_db) "PKG-INFO"
             "zstandard" eq_refl eq_refl).
Defined.

(** C4 fails on the [PKG-INFO] path: the file names zstandard 0.18.0, the
    database does not know it, and the parser yields no record, so none with
    the vendor [UNKNOWN]. *)
Lemma pkg_info_unknown_product_not_emitted :
  let w := Examples.pkg_info_world Examples.empty_db in
  Python.search "Name: " (Props.metadata_header w "PKG-INFO")
  = Some "zstandard" /\
  Python.search "Version: " (Props.metadata_header w "PKG-INFO")
  = Some "0.18.0" /\
  Python.run_checker w "PKG-INFO" = [] /\
  ~ (exists record,
       In record (Python.run_checker w "PKG-INFO") /\
       Util.vendor (Util.product_info record) = "UNKNOWN").
Proof.
  repeat split; try reflexivity.
  intros (record & Hin & _). exact Hin.
Qed.

Lemma prefix_fallback_unused_witness :
  let self := SBOM.__init__ (Examples.db_of "palletsprojects" "flask")
                "flask.spdx" "spdx" true in
  In "python-" SBOM.common_prefix /\
  SBOM.vendor_found (SBOM.get_vendor self "flask") = true /\
  SBOM.common_prefix_split self "python-flask" "2.0.1"
  = [{| Util.vendor := "palletsprojects"; Util.product := "flask";
        Util.version := "2.0.1" |}] /\
  SBOM.module_records self (None, "python-flask", "2.0.1")
  = [{| Util.vendor := "UNKNOWN"; Util.product := "python-flask";
        Util.version := "2.0.1" |}].
Proof.
  intros self.
  assert (In "python-" SBOM.common_prefix) as Hin by (simpl; auto).
  split; [exact Hin|]. split; [reflexivity|]. split.
  - exact (proj1 (proj2 prefix_fallback_unused) self "python-" "flask"
             "2.0.1" Hin eq_refl).
  - exact (proj1 prefix_fallback_unused self "python-flask" "2.0.1" eq_refl).
Defined.

(** C6 fails in [scan_file]: the database knows flask and not python-flask;
    resolving flask gives its vendor, and the module python-flask of the
    document is recorded under [UNKNOWN] alone. *)
Lemma scan_file_skips_prefix_fallback :
  let w := Examples.world_of Examples.flask_document true in
  let self := SBOM.__init__ (Examples.db_of "palletsprojects" "flask")
                "flask.spdx" "spdx" true in
  SBOM.get_vendor self "flask" = ["palletsprojects"] /\
  SBOM.get_vendor self "python-flask" = ["UNKNOWN"] /\
  SBOM.get_vendor self "python-flask" <> SBOM.get_vendor self "flask" /\
  exists mapping self',
    SBOM.scan_file w self = Py.Ok (mapping, self') /\
    mapping !! {| Util.vendor := "UNKNOWN"; Util.product := "python-flask";
                  Util.version := "2.0.1" |} = Some SBOM.new_found /\
    mapping !! {| Util.vendor := "palletsprojects";
                  Util.product := "python-flask";
                  Util.version := "2.0.1" |} = None /\
    mapping !! {| Util.vendor := "palletsprojects"; Util.product := "flask";
                  Util.version := "2.0.1" |} = None.
Proof.
  split; [reflexivity|]. split; [reflexivity|]. split; [discriminate|].
  eexists _, _. split; [reflexivity|].
  repeat split; vm_compute; reflexivity.
Qed.

(** *** The lock files of npm *)

Section Lockfile.
Import Py Util Json Props Javascript.

Lemma packages_loop_spec packages : forall mapping,
  forallb (fun p => is_package p.2) packages = true ->
  packages_loop packages mapping
  = Ok (mapping ++ flat_map package_pairs packages).
Proof.
  induction packages as [|[name package] rest IH]; intros mapping Hall; simpl.
  - now rewrite app_nil_r.
  - simpl in Hall. apply andb_prop in Hall as [Hp Hrest].
    destruct package as [| | | | |l]; try discriminate.
    unfold package_pairs at 1, own_version, requires_of.
    simpl in Hp |- *.
    destruct (lookup "requires" l) as [[| | | | |requires]|];
      try discriminate; simpl; rewrite (IH _ Hrest), <- !app_assoc;
      reflexivity.
Qed.

Lemma product_version_mapping_v2 data packages :
  lockfile_v2 data = Some packages ->
  product_version_mapping data = Ok (flat_map package_pairs packages).
Proof.
  unfold lockfile_v2, product_version_mapping.
  destruct data as [| | | | |l]; try discriminate. simpl.
  destruct (lookup "lockfileVersion" l) as [[| |n| | |]|]; try discriminate.
  destruct (lookup "packages" l) as [[| | | | |ps]|]; try discriminate.
  destruct (2 <=? n)%Z eqn:Hn; [|discriminate]. simpl.
  destruct (forallb _ ps) eqn:Hall; [|discriminate].
  intros [= <-]. simpl.
  assert ((n =? 0)%Z = false) as -> by lia. simpl. rewrite Hn.
  now rewrite (packages_loop_spec _ [] Hall).
Qed.

Lemma requires_pairs_in requires product v :
  In (product, v) (requires_pairs requires) <->
  is_str "*" v = false /\
  exists n, In (n, v) requires /\ product = get_package_name n.
Proof.
  unfold requires_pairs. rewrite in_flat_map. split.
  - intros ([n v'] & Hin & Hp).
    destruct (is_str "*" v') eqn:Hstar; [destruct Hp|].
    destruct Hp as [[= <- <-]|[]]. eauto.
  - intros (Hstar & n & Hin & ->). exists (n, v). split; [exact Hin|].
    rewrite Hstar. now left.
Qed.

Lemma header_vendor_dict (w : World) filename l :
  exists header, header_vendor w filename (JObj l) = Ok header.
Proof.
  unfold header_vendor. simpl.
  destruct (lookup "name" l) as [product|]; simpl; [|eauto].
  destruct (lookup "version" l) as [version|]; simpl; eauto.
Qed.

(** What [run_checker] yields for a lock file that is a dictionary: the
    records of the package the file describes, then what [find_vendor]
    returns for every collected pair, in order. *)
Lemma run_checker_output (w : World) filename l mapping :
  json_load w filename = Ok (JObj l) ->
  product_version_mapping (JObj l) = Ok mapping ->
  exists header,
    run_checker w filename
    = (header ++
       flat_map (fun '(product, version) =>
                   default [] (find_vendor w filename (JStr product) version))
                mapping,
       Ok tt).
Proof.
  intros Hload Hmap. unfold run_checker. rewrite Hload.
  unfold gbind at 1, lift at 1. cbv beta iota.
  destruct (header_vendor_dict w filename l) as [header ->].
  unfold gbind, lift, yield_from. cbv beta iota. rewrite Hmap.
  exists (default [] header). now rewrite !app_nil_l.
Qed.

(** C7.  For a lock file of the newer schema the parser collects, for every
    package, the pair of its name and its own version field, and, for every
    entry of its [requires] whose version is not ["*"], the pair of that
    entry; a pair with the version ["*"] can only be the own version field
    of a package, so there is none when the packages give versions.  The
    pairs collected are the ones handed to [find_vendor], whose records are
    the output. *)
Theorem npm_v2_lockfile_pairs :
  forall data packages,
    lockfile_v2 data = Some packages ->
    exists mapping,
      product_version_mapping data = Ok mapping /\
      (forall name package,
         In (name, package) packages ->
         In (get_package_name name, own_version package) mapping) /\
      (forall name package n v,
         In (name, package) packages ->
         In (n, v) (requires_of package) ->
         is_str "*" v = false ->
         In (get_package_name n, v) mapping) /\
      (forall product v,
         In (product, v) mapping ->
         is_str "*" v = true ->
         exists name package,
           In (name, package) packages /\ own_version package = v) /\
      ((forall name package,
          In (name, package) packages ->
          is_str "*" (own_version package) = false) ->
       forall product v, In (product, v) mapping -> is_str "*" v = false) /\
      (forall (w : World) filename,
         json_load w filename = Ok data ->
         exists header,
           run_checker w filename
           = (header ++
              flat_map (fun '(product, version) =>
                          default []
                            (find_vendor w filename (JStr product) version))
                       mapping,
              Ok tt)).
Proof.
  intros data packages Hv2.
  pose proof (product_version_mapping_v2 _ _ Hv2) as Hmap.
  exists (flat_map package_pairs packages).
  split; [exact Hmap|].
  assert (forall product v,
            In (product, v) (flat_map package_pairs packages) ->
            is_str "*" v = true ->
            exists name package,
              In (name, package) packages /\ own_version package = v)
    as Hstar.
  { intros product v Hin Hs. apply in_flat_map in Hin as ([name package] & Hp & Hin).
    destruct Hin as [[= _ <-]|Hin]; [eauto|].
    apply requires_pairs_in in Hin as [Hne _]. simpl in Hne. congruence. }
  repeat split.
  - intros name package Hin. apply in_flat_map.
    exists (name, package). split; [exact Hin|]. now left.
  - intros name package n v Hin Hreq Hne. apply in_flat_map.
    exists (name, package). split; [exact Hin|]. right.
    apply requires_pairs_in. eauto.
  - exact Hstar.
  - intros Hown product v Hin.
    destruct (is_str "*" v) eqn:Hs; [|reflexivity].
    destruct (Hstar _ _ Hin Hs) as (name & package & Hp & <-).
    rewrite (Hown _ _ Hp) in Hs. discriminate.
  - intros w filename Hload.
    destruct data as [| | | | |l]; try discriminate.
    exact (run_checker_output w filename l _ Hload Hmap).
Qed.

End Lockfile.

Lemma npm_v2_lockfile_pairs_witness :
  exists packages,
    Props.lockfile_v2 Examples.lock_v2 = Some packages /\
    exists mapping,
      Javascript.product_version_mapping Examples.lock_v2 = Py.Ok mapping /\
      mapping = [("bar", Json.JStr "1.0.0"); ("foo", Json.JStr "");
                 ("qux", Json.JStr "^1.2")] /\
      forall product v, In (product, v) mapping -> Json.is_str "*" v = false.
Proof.
  eexists. split; [reflexivity|].
  destruct (npm_v2_lockfile_pairs Examples.lock_v2 _ eq_refl)
    as (mapping & Hmap & _ & _ & _ & Hnone & _).
  exists mapping. split; [exact Hmap|].
  split; [vm_compute in Hmap; congruence|].
  apply Hnone. intros name package [[= <- <-]|[]]. reflexivity.
Defined.

(** *** The older schema of the lock files *)

Section Legacy.
Import Py Util Json Props Javascript.

(** A dependency given as a plain string ends the loop with the
    [AttributeError] of [str.get]: the only exception the loop can raise. *)
Lemma dependencies_loop_plain_string dependencies : forall mapping name v,
  In (name, JStr v) dependencies ->
  dependencies_loop dependencies mapping = Raise AttributeError.
Proof.
  induction dependencies as [|[i entry] rest IH]; intros mapping name v Hin;
    [destruct Hin|].
  simpl. destruct Hin as [[= -> ->]|Hin]; [reflexivity|].
  destruct entry as [| | | | |l]; try reflexivity. simpl.
  destruct (default (JObj []) (lookup "requires" l)) as [| | | | |requires];
    try reflexivity.
  simpl. exact (IH _ _ _ Hin).
Qed.

(** C8, on the code.  The two forms of a dependency give the same pair
    [(product, version)]; the object form ends well with that pair, but the
    plain string form, after the pair is added, raises the [AttributeError]
    of [data["dependencies"][i].get], so that [run_checker] yields nothing
    for the pairs of the file. *)
Theorem legacy_plain_string_entry_raises :
  forall name v,
    (get_package_name name, dependency_version (JStr v))
    = (get_package_name name,
       dependency_version (JObj [("version", JStr v)])) /\
    product_version_mapping
      (legacy_lockfile name (JObj [("version", JStr v)]))
    = Ok [(get_package_name name, JStr v)] /\
    product_version_mapping (legacy_lockfile name (JStr v))
    = Raise AttributeError /\
    forall find_vendor filename,
      run_checker
        {| json_load := fun _ => Ok (legacy_lockfile name (JStr v));
           find_vendor := find_vendor |} filename
      = ([], Raise AttributeError).
Proof.
  intros name v. repeat split.
Qed.

End Legacy.

(** *** Versions of the emitted records *)

Section Versions.
Import Py Util Json Props.

Lemma with_declared_version decoded package vendor product version :
  with_declared decoded package = Ok (Some (vendor, product, version)) ->
  version <> "".
Proof.
  unfold with_declared. destruct decoded as [[v p] ver].
  destruct (if Py.truthy p then p else SBOM.name package) as [p'|];
    [|discriminate].
  destruct (if Py.truthy ver then ver else _) as [[|c ver']|];
    try discriminate.
  intros [= _ _ <-]. discriminate.
Qed.

Lemma with_declared_no_version vendor product version package m :
  Py.truthy version = false ->
  Py.truthy (SBOM.pkg_version package) = false ->
  with_declared (vendor, product, version) package <> Ok (Some m).
Proof.
  unfold with_declared. intros Hv Hdecl.
  destruct (if Py.truthy product then product else SBOM.name package)
    as [p'|]; [|discriminate].
  destruct version as [[|c v']|]; try discriminate;
    destruct (SBOM.pkg_version package) as [[|d v'']|]; discriminate.
Qed.

Lemma parse_package_version w package vendor product version :
  SBOM.parse_package w package = Ok (Some (vendor, product, version)) ->
  version <> "".
Proof.
  rewrite parse_package_spec.
  destruct (match SBOM.externalreference package with
            | Some ext_ref => SBOM.parse_ext_ref w ext_ref
            | None => Ok (None, None, None)
            end) as [decoded|]; simpl; [|discriminate].
  apply with_declared_version.
Qed.

Lemma parse_packages_versions w packages : forall modules result,
  Forall (fun m : SBOM.Module_ => m.2 <> "") modules ->
  SBOM.parse_packages w packages modules = Ok result ->
  Forall (fun m : SBOM.Module_ => m.2 <> "") result.
Proof.
  induction packages as [|package rest IH]; intros modules result Hall; simpl.
  - now intros [= <-].
  - destruct (SBOM.parse_package w package) as [m|] eqn:Hp; simpl;
      [|discriminate].
    apply IH. destruct m as [[[vendor product] version]|]; [|exact Hall].
    apply Forall_app. split; [exact Hall|].
    constructor; [|constructor]. simpl.
    exact (parse_package_version _ _ _ _ _ Hp).
Qed.

Lemma parse_sbom_versions w self modules :
  SBOM.parse_sbom w self = Ok modules ->
  Forall (fun m : SBOM.Module_ => m.2 <> "") modules.
Proof.
  unfold SBOM.parse_sbom.
  destruct (SBOM.SBOMParser_parse_file w _ _) as [doc|]; simpl;
    [|discriminate].
  assert ((let* packages :=
             match SBOM.packages doc with
             | Some ps => Ok ps
             | None => Raise KeyError
             end in
           SBOM.parse_packages w packages []) = Ok modules ->
          Forall (fun m : SBOM.Module_ => m.2 <> "") modules) as Hrest.
  { destruct (SBOM.packages doc) as [ps|]; simpl; [|discriminate].
    apply parse_packages_versions. constructor. }
  destruct (SBOM.validate self && endswith (SBOM.filename self) ".xml");
    [|exact Hrest].
  destruct (negb _); [|exact Hrest].
  intros [= <-]. constructor.
Qed.

Lemma module_records_version self m row :
  In row (SBOM.module_records self m) -> version row = m.2.
Proof.
  destruct m as [[[module_vendor|] product] version]; simpl.
  - now intros [<-|[]].
  - intros Hin. apply in_map_iff in Hin as (vendor & <- & _). reflexivity.
Qed.

Lemma search_line_nonempty field lines value :
  Python.search_line field lines = Some value -> value <> "".
Proof.
  induction lines as [|l rest IH]; simpl; [discriminate|].
  destruct (strip_prefix field l) as [[|c s]|]; try exact IH.
  intros [= <-]. discriminate.
Qed.

Lemma python_run_checker_versions w filename record :
  In record (Python.run_checker w filename) ->
  version (product_info record) <> "".
Proof.
  unfold Python.run_checker.
  destruct (Python.search "Name: " _) as [product|]; [|intros []].
  destruct (Python.search "Version: " _) as [v|] eqn:Hv; [|intros []].
  apply search_line_nonempty in Hv.
  destruct (get_vendor_product_pairs _ product) as [|pair pairs];
    [intros []|].
  intros Hin. apply in_map_iff in Hin as (p & <- & _). exact Hv.
Qed.

(** C3, as the code has it.  [parse_sbom] returns modules with a version
    that is not empty, and leaves out a package for which neither the
    references nor the declared version give one; so every record [scan_file]
    adds for an SPDX or CycloneDX document has a version that is not empty.
    So has every record of the [PKG-INFO] parser.  The parser of the lock
    files does not look at the versions: for the newer schema every own
    version field, absent or empty as it may be, and every constraint of
    [requires] other than ["*"], the empty one too, is handed on. *)
Theorem emitted_versions :
  (forall w self modules,
     SBOM.parse_sbom w self = Ok modules ->
     forall vendor product version,
       In (vendor, product, version) modules -> version <> "") /\
  (forall w package decoded m,
     match SBOM.externalreference package with
     | Some ext_ref => SBOM.parse_ext_ref w ext_ref
     | None => Ok (None, None, None)
     end = Ok decoded ->
     Py.truthy decoded.2 = false ->
     Py.truthy (SBOM.pkg_version package) = false ->
     SBOM.parse_package w package <> Ok (Some m)) /\
  (forall w self mapping self' row x,
     SBOM.type self <> "swid" ->
     SBOM.scan_file w self = Ok (mapping, self') ->
     mapping !! row = Some x ->
     SBOM.sbom_data self !! row = Some x \/ version row <> "") /\
  (forall w filename record,
     In record (Python.run_checker w filename) ->
     version (product_info record) <> "") /\
  (forall data packages,
     lockfile_v2 data = Some packages ->
     exists mapping,
       Javascript.product_version_mapping data = Ok mapping /\
       (forall name package,
          In (name, package) packages ->
          In (Javascript.get_package_name name, own_version package)
             mapping) /\
       (forall name package n v,
          In (name, package) packages ->
          In (n, v) (requires_of package) ->
          is_str "*" v = false ->
          In (Javascript.get_package_name n, v) mapping) /\
       (forall name package n,
          In (name, package) packages ->
          In (n, JStr "") (requires_of package) ->
          In (Javascript.get_package_name n, JStr "") mapping) /\
       (forall (w : Javascript.World) filename,
          Javascript.json_load w filename = Ok data ->
          exists header,
            Javascript.run_checker w filename
            = (header ++
               flat_map (fun '(product, version) =>
                           default []
                             (Javascript.find_vendor w filename
                                (JStr product) version))
                        mapping,
               Ok tt))).
Proof.
  split; [|split; [|split; [|split]]].
  - intros w self modules Hparse vendor product version Hin.
    pose proof (parse_sbom_versions _ _ _ Hparse) as Hall.
    rewrite List.Forall_forall in Hall. exact (Hall _ Hin).
  - intros w package [[vendor product] version] m Hdec Hv Hdecl.
    rewrite parse_package_spec, Hdec. simpl.
    now apply with_declared_no_version.
  - intros w self mapping self' row x Hswid Hscan Hrow.
    destruct (ingested_modules w self) as [modules|e] eqn:Hmods.
    + destruct (scan_file_records w self modules Hmods)
        as (mapping0 & self0 & Hscan0 & _ & Hinv).
      rewrite Hscan in Hscan0. injection Hscan0 as <- <-.
      destruct (Hinv _ _ Hrow) as [Hold|(m & Hm & Hin)]; [now left|right].
      rewrite (module_records_version _ _ _ Hin).
      unfold ingested_modules in Hmods.
      destruct (SBOM.path_exists w (SBOM.filename self)) as [[|]|e0];
        cbv beta iota delta [bind] in Hmods;
        [|injection Hmods as <-; destruct Hm|].
      2:{ simpl in Hmods.
          destruct (exn_eqb e0 KeyError || _); [|discriminate].
          injection Hmods as <-. destruct Hm. }
      destruct (String.eqb_spec (SBOM.type self) "swid"); [contradiction|].
      destruct (SBOM.parse_sbom w self) as [ms|e] eqn:Hparse; simpl in Hmods.
      * injection Hmods as <-.
        pose proof (parse_sbom_versions _ _ _ Hparse) as Hall.
        rewrite List.Forall_forall in Hall. exact (Hall _ Hm).
      * destruct (exn_eqb e KeyError || _); [|discriminate].
        injection Hmods as <-. destruct Hm.
    + rewrite scan_file_unfold, Hmods in Hscan. discriminate.
  - exact python_run_checker_versions.
  - intros data packages Hv2.
    exists (flat_map package_pairs packages).
    pose proof (product_version_mapping_v2 _ _ Hv2) as Hmap.
    assert (forall name package n v,
              In (name, package) packages ->
              In (n, v) (requires_of package) ->
              is_str "*" v = false ->
              In (Javascript.get_package_name n, v)
                 (flat_map package_pairs packages)) as Hreqs.
    { intros name package n v Hin Hreq Hstar. apply in_flat_map.
      exists (name, package). split; [exact Hin|]. right.
      apply requires_pairs_in. split; [exact Hstar|]. eauto. }
    split; [exact Hmap|]. split; [|split; [|split]].
    + intros name package Hin. apply in_flat_map.
      exists (name, package). split; [exact Hin|]. now left.
    + exact Hreqs.
    + intros name package n Hin Hreq.
      exact (Hreqs name package n _ Hin Hreq eq_refl).
    + intros w filename Hload.
      unfold lockfile_v2 in Hv2.
      destruct data as [| | | | |l]; try discriminate.
      exact (run_checker_output w filename l _ Hload Hmap).
Qed.

End Versions.

Lemma emitted_versions_witness :
  let w := Examples.world_of Examples.nasm_document true in
  let self := SBOM.__init__ Examples.empty_db "nasm.spdx" "spdx" true in
  let js := Examples.js_world Examples.lock_v2 in
  SBOM.parse_sbom w self
  = Py.Ok [(Some "nasm", "netwide_assembler", "2.15")] /\
  "2.15" <> "" /\
  Javascript.json_load js "package-lock.json" = Py.Ok Examples.lock_v2 /\
  (exists packages,
     Props.lockfile_v2 Examples.lock_v2 = Some packages /\
     exists mapping,
       Javascript.product_version_mapping Examples.lock_v2 = Py.Ok mapping /\
       In ("foo", Json.JStr "") mapping /\
       In ("qux", Json.JStr "^1.2") mapping /\
       exists header,
         Javascript.run_checker js "package-lock.json"
         = (header ++
            flat_map (fun '(product, version) =>
                        default []
                          (Javascript.find_vendor js "package-lock.json"
                             (Json.JStr product) version))
                     mapping,
            Py.Ok tt)).
Proof.
  intros w self js.
  split; [vm_compute; reflexivity|].
  split.
  { apply (proj1 emitted_versions w self _ ltac:(vm_compute; reflexivity)
             (Some "nasm") "netwide_assembler" "2.15").
    now left. }
  split; [reflexivity|].
  eexists. split; [reflexivity|].
  destruct (proj2 (proj2 (proj2 (proj2 emitted_versions)))
              Examples.lock_v2 _ eq_refl)
    as (mapping & Hmap & _ & Hreq & _ & Hrun).
  exists mapping. split; [exact Hmap|]. split; [|split].
  - apply (Hreq "node_modules/@scope/bar" _ "foo" (Json.JStr "")
             (or_introl eq_refl)); [simpl; auto|reflexivity].
  - apply (Hreq "node_modules/@scope/bar" _ "qux" (Json.JStr "^1.2")
             (or_introl eq_refl)); [simpl; auto|reflexivity].
  - exact (Hrun js "package-lock.json" eq_refl).
Defined.

(** C3 fails on the lock files of npm: bar 1.0.0 requires foo with the
    empty constraint, the database knows foo, and the parser, with the
    resolver of the spec, yields a record for foo whose version is empty. *)
Lemma npm_v2_emits_empty_version :
  let w := Javascript.spec_world (Examples.db_of "foo_project" "foo")
             (fun _ => Py.Ok Examples.lock_v2) in
  Javascript.product_version_mapping Examples.lock_v2
  = Py.Ok [("bar", Json.JStr "1.0.0"); ("foo", Json.JStr "");
           ("qux", Json.JStr "^1.2")] /\
  Javascript.run_checker w "package-lock.json"
  = ([{| Util.product_info :=
           {| Util.vendor := "UNKNOWN"; Util.product := "bar";
              Util.version := "1.0.0" |};
         Util.file_path := "package-lock.json" |};
      {| Util.product_info :=
           {| Util.vendor := "foo_project"; Util.product := "foo";
              Util.version := "" |};
         Util.file_path := "package-lock.json" |};
      {| Util.product_info :=
           {| Util.vendor := "UNKNOWN"; Util.product := "qux";
              Util.version := "^1.2" |};
         Util.file_path := "package-lock.json" |}],
     Py.Ok tt) /\
  exists record,
    In record (Javascript.run_checker w "package-lock.json").1 /\
    Util.version (Util.product_info record) = "".
Proof.
  split; [reflexivity|]. split; [reflexivity|].
  eexists. split; [right; left; reflexivity|reflexivity].
Qed.

(** *** Package URLs: [decode_purl] and [generate_purl] *)

Section PackageUrl.
Import Py Props.

Lemma keep_all_in cls s : all_in cls s = true -> keep cls s = s.
Proof.
  induction s as [|c s IH]; simpl; [reflexivity|].
  intros [Hc Hs]%andb_prop. now rewrite Hc, (IH Hs).
Qed.

Lemma all_in_lacks cls c s :
  cls c = false -> all_in cls s = true -> lacks c s = true.
Proof.
  intros Hc. induction s as [|d s IH]; simpl; [reflexivity|].
  intros [Hd Hs]%andb_prop. rewrite (IH Hs), andb_true_r.
  destruct (Ascii.eqb_spec d c) as [->|]; [congruence|reflexivity].
Qed.

Lemma lacks_app c a b :
  lacks c (a +:+ b) = lacks c a && lacks c b.
Proof.
  induction a as [|d a IH]; simpl; [reflexivity|].
  now rewrite IH, andb_assoc.
Qed.

Lemma rpartition_lacks c s : lacks c s = true -> Purl.rpartition c s = None.
Proof.
  induction s as [|d s IH]; simpl; [reflexivity|].
  intros [Hd Hs]%andb_prop. rewrite (IH Hs).
  apply negb_true_iff in Hd. now rewrite Hd.
Qed.

Lemma rpartition_app c a b :
  lacks c b = true ->
  Purl.rpartition c (a +:+ String c b) = Some (a, b).
Proof.
  intros Hb. induction a as [|d a IH]; simpl.
  - now rewrite (rpartition_lacks _ _ Hb), Ascii.eqb_refl.
  - now rewrite IH.
Qed.

(** The package URL of a product and a version without the characters of
    the grammar reads back as that product and that version. *)
Lemma from_string_to_string type product version :
  lacks "/" product = true -> lacks "@" product = true ->
  lacks "?" product = true -> lacks "#" product = true ->
  lacks "@" version = true -> lacks "?" version = true ->
  lacks "#" version = true ->
  product <> "" -> type = "npm" ->
  Purl.from_string ("pkg:" +:+ type +:+ "/" +:+ product +:+ "@" +:+ version)
  = Ok {| Purl.type := type; Purl.namespace := None; Purl.name := product;
          Purl.version := Some version; Purl.qualifiers := [];
          Purl.subpath := None |}.
Proof.
  intros Hp1 Hp2 Hp3 Hp4 Hv1 Hv2 Hv3 Hne ->.
  unfold Purl.from_string, Purl.rcut.
  change ("pkg:" +:+ "npm" +:+ "/" +:+ product +:+ "@" +:+ version)
    with ("pkg:npm/" +:+ product +:+ "@" +:+ version).
  rewrite rpartition_lacks by (now rewrite !lacks_app, Hp4, Hv3).
  rewrite rpartition_lacks by (now rewrite !lacks_app, Hp3, Hv2).
  change (Purl.partition ":" ("pkg:npm/" +:+ product +:+ "@" +:+ version))
    with (Some ("pkg", ("npm/" +:+ product) +:+ String "@" version)).
  cbv beta iota.
  change (negb (String.eqb "pkg" "pkg")) with false. cbv beta iota.
  rewrite (rpartition_app _ _ _ Hv1).
  change ("npm/" +:+ product) with ("npm" +:+ String "/" product).
  rewrite (rpartition_app _ _ _ Hp1).
  destruct product as [|c p]; [congruence|]. reflexivity.
Qed.

Lemma decode_purl_version_only w purl p :
  SBOM.PackageURL_from_string w purl = Ok p ->
  SBOM.decode_purl w purl = Ok (None, None, Purl.version p ≫= or_None).
Proof. unfold SBOM.decode_purl. now intros ->. Qed.

(** C5, as the code has it.  [decode_purl] returns the version the package
    URL carries and nothing else: the vendor and the product are always
    [None].  For a product over [[A-Za-z0-9._-]] in lower case and a version
    over [[A-Za-z0-9.+-]], both not empty, [generate_purl] normalizes
    neither, the package URL it makes reads back as that product and that
    version, and [decode_purl] recovers the version, not the product. *)
Theorem purl_decode_version_only :
  (forall w purl p,
     SBOM.PackageURL_from_string w purl = Ok p ->
     SBOM.decode_purl w purl = Ok (None, None, Purl.version p ≫= or_None)) /\
  (forall w product version vendor,
     SBOM.PackageURL_from_string w = Purl.from_string ->
     all_in Javascript.product_char product = true ->
     lower product = product ->
     all_in Javascript.version_char version = true ->
     product <> "" -> version <> "" ->
     exists purl,
       Javascript.generate_purl product version vendor [] None = Some purl /\
       Purl.from_string purl
       = Ok {| Purl.type := "npm"; Purl.namespace := None;
               Purl.name := product; Purl.version := Some version;
               Purl.qualifiers := []; Purl.subpath := None |} /\
       SBOM.decode_purl w purl = Ok (None, None, Some version)).
Proof.
  split; [exact decode_purl_version_only|].
  intros w product version vendor Hw Hp Hlow Hv Hpne Hvne.
  exists ("pkg:" +:+ "npm" +:+ "/" +:+ product +:+ "@" +:+ version).
  assert (Purl.from_string
            ("pkg:" +:+ "npm" +:+ "/" +:+ product +:+ "@" +:+ version)
          = Ok {| Purl.type := "npm"; Purl.namespace := None;
                  Purl.name := product; Purl.version := Some version;
                  Purl.qualifiers := []; Purl.subpath := None |}) as Hread.
  { apply from_string_to_string; try reflexivity; try assumption;
      (eapply all_in_lacks; [|eassumption]); reflexivity. }
  split; [|split; [exact Hread|]].
  - unfold Javascript.generate_purl.
    rewrite (keep_all_in _ _ Hp), (keep_all_in _ _ Hv), Hlow.
    destruct product as [|c p]; [congruence|].
    destruct version as [|d v]; [congruence|].
    unfold Purl.Parser_generate_purl, Purl.to_string. simpl.
    now rewrite !append_nil_r.
  - rewrite (decode_purl_version_only w _ _
               ltac:(rewrite Hw; exact Hread)). simpl.
    destruct version; [congruence|reflexivity].
Qed.

End PackageUrl.

Lemma purl_decode_version_only_witness :
  let w := Examples.world_of Examples.nasm_document true in
  SBOM.PackageURL_from_string w = Purl.from_string /\
  Props.all_in Javascript.product_char "left-pad" = true /\
  Py.lower "left-pad" = "left-pad" /\
  Props.all_in Javascript.version_char "1.3.0+build" = true /\
  exists purl,
    Javascript.generate_purl "left-pad" "1.3.0+build" "npm" [] None
    = Some purl /\
    SBOM.decode_purl w purl = Py.Ok (None, None, Some "1.3.0+build").
Proof.
  intros w. do 4 (split; [reflexivity|]).
  destruct (proj2 purl_decode_version_only w "left-pad" "1.3.0+build" "npm"
              eq_refl eq_refl eq_refl eq_refl
              ltac:(discriminate) ltac:(discriminate))
    as (purl & Hgen & _ & Hdec).
  exists purl. split; assumption.
Defined.

(** C5 fails on the product: the package URL of left-pad 1.3.0 names the
    product, and [decode_purl] returns the version alone. *)
Lemma decode_purl_drops_product :
  let w := Examples.world_of Examples.nasm_document true in
  Javascript.generate_purl "left-pad" "1.3.0" "npm" [] None
  = Some "pkg:npm/left-pad@1.3.0" /\
  (exists p, Purl.from_string "pkg:npm/left-pad@1.3.0" = Py.Ok p /\
             Purl.name p = "left-pad" /\ Purl.version p = Some "1.3.0") /\
  SBOM.decode_purl w "pkg:npm/left-pad@1.3.0"
  = Py.Ok (None, None, Some "1.3.0") /\
  SBOM.decode_purl w "pkg:npm/left-pad@1.3.0"
  <> Py.Ok (None, Some "left-pad", Some "1.3.0").
Proof.
  split; [reflexivity|]. split; [eexists; repeat split|].
  split; [reflexivity|]. discriminate.
Qed.

(** *** The patterns of [is_valid_string] *)

Section Patterns.
Import Py Props.

Lemma nullable_sound r : Re.nullable r = true -> Re.matches r "".
Proof.
  induction r as [| |p|a IHa b IHb|a IHa b IHb|a IHa]; simpl;
    try discriminate.
  - constructor.
  - intros [Ha Hb]%andb_prop.
    exact (Re.matches_cat a b "" "" (IHa Ha) (IHb Hb)).
  - intros [Ha|Hb]%orb_prop.
    + apply Re.matches_alt_l, IHa, Ha.
    + apply Re.matches_alt_r, IHb, Hb.
  - intros _. constructor.
Qed.

Lemma matches_void s : ~ Re.matches Re.Void s.
Proof. intros H. inversion H. Qed.

Lemma matches_eps_inv s : Re.matches Re.Eps s -> s = "".
Proof. intros H. now inversion H. Qed.

Lemma matches_cat_inv a b s :
  Re.matches (Re.Cat a b) s ->
  exists s1 s2, s = s1 +:+ s2 /\ Re.matches a s1 /\ Re.matches b s2.
Proof. intros H. inversion H; subst. eauto. Qed.

Lemma matches_alt_inv a b s :
  Re.matches (Re.Alt a b) s -> Re.matches a s \/ Re.matches b s.
Proof. intros H. inversion H; subst; auto. Qed.

Lemma cat_sound a b s : Re.matches (Re.cat a b) s -> Re.matches (Re.Cat a b) s.
Proof.
  destruct a, b; simpl; intros H; try exact H;
    try (exfalso; exact (matches_void _ H));
    exact (Re.matches_cat Re.Eps _ "" s Re.matches_eps H).
Qed.

Lemma alt_sound a b s : Re.matches (Re.alt a b) s -> Re.matches (Re.Alt a b) s.
Proof.
  destruct a, b; simpl; intros H; try exact H;
    try (exfalso; exact (matches_void _ H));
    first [ apply Re.matches_alt_l; exact H | apply Re.matches_alt_r; exact H ].
Qed.

Lemma deriv_sound c r : forall s,
  Re.matches (Re.deriv c r) s -> Re.matches r (String c s).
Proof.
  induction r as [| |p|a IHa b IHb|a IHa b IHb|a IHa]; simpl; intros s H.
  - inversion H.
  - inversion H.
  - destruct (p c) eqn:Hp; [|inversion H].
    apply matches_eps_inv in H as ->. now constructor.
  - assert (forall s, Re.matches (Re.cat (Re.deriv c a) b) s ->
                      Re.matches (Re.Cat a b) (String c s)) as Hcat.
    { intros s0 H0.
      apply cat_sound, matches_cat_inv in H0 as (s1 & s2 & -> & H1 & H2).
      exact (Re.matches_cat a b (String c s1) s2 (IHa _ H1) H2). }
    destruct (Re.nullable a) eqn:Hn; [|exact (Hcat _ H)].
    apply alt_sound, matches_alt_inv in H as [H|H]; [exact (Hcat _ H)|].
    exact (Re.matches_cat a b "" (String c s) (nullable_sound _ Hn)
             (IHb _ H)).
  - apply alt_sound, matches_alt_inv in H as [H|H].
    + apply Re.matches_alt_l, IHa, H.
    + apply Re.matches_alt_r, IHb, H.
  - apply cat_sound, matches_cat_inv in H as (s1 & s2 & -> & H1 & H2).
    exact (Re.matches_star_cons a (String c s1) s2 (IHa _ H1) H2).
Qed.

Lemma fullmatch_sound s : forall r,
  Re.fullmatch r s = true -> Re.matches r s.
Proof.
  induction s as [|c s IH]; simpl; intros r H.
  - exact (nullable_sound _ H).
  - apply deriv_sound, IH, H.
Qed.

(** What [re.match] accepts starts with a string of the language. *)
Lemma match_sound s : forall r,
  Re.match_ r s = true ->
  exists p q, s = p +:+ q /\ Re.matches r p.
Proof.
  induction s as [|c s IH]; simpl; intros r H.
  - rewrite orb_false_r in H. exists "", "". split; [reflexivity|].
    exact (nullable_sound _ H).
  - apply orb_prop in H as [H|H].
    + exists "", (String c s). split; [reflexivity|].
      exact (nullable_sound _ H).
    + destruct (IH _ H) as (p & q & -> & Hp).
      exists (String c p), q. split; [reflexivity|].
      exact (deriv_sound _ _ _ Hp).
Qed.

Lemma count_app c s t : Re.count c (s +:+ t) = Re.count c s + Re.count c t.
Proof.
  induction s as [|d s IH]; simpl; [reflexivity|]. rewrite IH. lia.
Qed.

Lemma in_all_ascii d : In d Re.all_ascii.
Proof.
  unfold Re.all_ascii. apply in_map_iff. exists (nat_of_ascii d).
  split; [apply ascii_nat_embedding|].
  apply in_seq. pose proof (nat_ascii_bounded d). lia.
Qed.

Lemma only_sound c p d : Re.only c p = true -> p d = true -> d = c.
Proof.
  unfold Re.only. rewrite forallb_forall. intros H Hp.
  specialize (H d (in_all_ascii d)). rewrite Hp in H. simpl in H.
  now apply Ascii.eqb_eq.
Qed.

(** [min_count] is a lower bound on the language. *)
Lemma min_count_sound c r s :
  Re.matches r s ->
  exists n, Re.min_count c r = Some n /\ n <= Re.count c s.
Proof.
  induction 1 as [|p d Hp|a b s t _ [m [Hm Hms]] _ [n [Hn Hnt]]
                  |a b s _ [m [Hm Hms]]|a b s _ [n [Hn Hns]]
                  |a|a s t _ _ _ _]; simpl.
  - exists 0. split; [reflexivity|lia].
  - destruct (Re.only c p) eqn:Ho.
    + exists 1. split; [reflexivity|].
      rewrite (only_sound _ _ _ Ho Hp), Ascii.eqb_refl. lia.
    + exists 0. split; [reflexivity|lia].
  - rewrite Hm, Hn, count_app. exists (m + n). split; [reflexivity|lia].
  - rewrite Hm. destruct (Re.min_count c b) as [n|].
    + exists (Nat.min m n). split; [reflexivity|lia].
    + exists m. split; [reflexivity|lia].
  - rewrite Hn. destruct (Re.min_count c a) as [m|].
    + exists (Nat.min m n). split; [reflexivity|lia].
    + exists n. split; [reflexivity|lia].
  - exists 0. split; [reflexivity|lia].
  - exists 0. split; [reflexivity|lia].
Qed.

Lemma length_split c s : length (split c s) = S (Re.count c s).
Proof.
  induction s as [|d s IH]; simpl; [reflexivity|].
  destruct (Ascii.eqb d c); simpl; [now rewrite IH|].
  destruct (split c s) as [|w ws] eqn:Hs; simpl in *; lia.
Qed.

Lemma index_lt {A} (l : list A) i :
  i < length l -> exists a, index l i = Ok a.
Proof.
  intros H. unfold index.
  destruct (lookup_lt_is_Some_2 l i H) as [a ->]. eauto.
Qed.

Lemma index_ge {A} (l : list A) i :
  length l <= i -> index l i = Raise IndexError.
Proof. intros H. unfold index. now rewrite (lookup_ge_None_2 l i H). Qed.

Lemma decode_cpe22_short s :
  Re.count ":" s < 4 -> SBOM.decode_cpe22 s = Raise IndexError.
Proof.
  intros H. pose proof (length_split ":" s) as Hlen. unfold SBOM.decode_cpe22.
  destruct (le_lt_dec (length (split ":" s)) 2) as [H2|H2].
  { now rewrite (index_ge _ 2 H2). }
  destruct (index_lt (split ":" s) 2 H2) as [v ->]. simpl.
  destruct (le_lt_dec (length (split ":" s)) 3) as [H3|H3].
  { now rewrite (index_ge _ 3 H3). }
  destruct (index_lt (split ":" s) 3 H3) as [p ->]. simpl.
  rewrite (index_ge _ 4) by lia. reflexivity.
Qed.

Lemma decode_cpe22_long s :
  4 <= Re.count ":" s -> exists t, SBOM.decode_cpe22 s = Ok t.
Proof.
  intros H. pose proof (length_split ":" s) as Hlen. unfold SBOM.decode_cpe22.
  destruct (index_lt (split ":" s) 2 ltac:(lia)) as [v ->].
  destruct (index_lt (split ":" s) 3 ltac:(lia)) as [p ->].
  destruct (index_lt (split ":" s) 4 ltac:(lia)) as [ver ->].
  simpl. eauto.
Qed.

Lemma decode_cpe23_long s :
  5 <= Re.count ":" s -> exists t, SBOM.decode_cpe23 s = Ok t.
Proof.
  intros H. pose proof (length_split ":" s) as Hlen. unfold SBOM.decode_cpe23.
  destruct (index_lt (split ":" s) 3 ltac:(lia)) as [v ->].
  destruct (index_lt (split ":" s) 4 ltac:(lia)) as [p ->].
  destruct (index_lt (split ":" s) 5 ltac:(lia)) as [ver ->].
  simpl. eauto.
Qed.

(** X1.  [decode_cpe22] raises [IndexError], and nothing else, exactly for
    a string with fewer than four colons, and [decode_cpe23] exactly for a
    string with fewer than five. *)
Theorem decode_cpe_index_error :
  forall s,
    (Re.count ":" s < 4 -> SBOM.decode_cpe22 s = Raise IndexError) /\
    (4 <= Re.count ":" s -> exists t, SBOM.decode_cpe22 s = Ok t) /\
    (Re.count ":" s < 5 -> SBOM.decode_cpe23 s = Raise IndexError) /\
    (5 <= Re.count ":" s -> exists t, SBOM.decode_cpe23 s = Ok t).
Proof.
  intros s. pose proof (length_split ":" s) as Hlen.
  unfold SBOM.decode_cpe22, SBOM.decode_cpe23.
  repeat split; intros H.
  - destruct (le_lt_dec (length (split ":" s)) 2) as [H2|H2].
    { now rewrite (index_ge _ 2 H2). }
    destruct (index_lt (split ":" s) 2 H2) as [v ->]. simpl.
    destruct (le_lt_dec (length (split ":" s)) 3) as [H3|H3].
    { now rewrite (index_ge _ 3 H3). }
    destruct (index_lt (split ":" s) 3 H3) as [p ->]. simpl.
    rewrite (index_ge _ 4) by lia. reflexivity.
  - destruct (index_lt (split ":" s) 2 ltac:(lia)) as [v ->].
    destruct (index_lt (split ":" s) 3 ltac:(lia)) as [p ->].
    destruct (index_lt (split ":" s) 4 ltac:(lia)) as [ver ->].
    simpl. eauto.
  - destruct (le_lt_dec (length (split ":" s)) 3) as [H3|H3].
    { now rewrite (index_ge _ 3 H3). }
    destruct (index_lt (split ":" s) 3 H3) as [v ->]. simpl.
    destruct (le_lt_dec (length (split ":" s)) 4) as [H4|H4].
    { now rewrite (index_ge _ 4 H4). }
    destruct (index_lt (split ":" s) 4 H4) as [p ->]. simpl.
    rewrite (index_ge _ 5) by lia. reflexivity.
  - destruct (index_lt (split ":" s) 3 ltac:(lia)) as [v ->].
    destruct (index_lt (split ":" s) 4 ltac:(lia)) as [p ->].
    destruct (index_lt (split ":" s) 5 ltac:(lia)) as [ver ->].
    simpl. eauto.
Qed.

Lemma valid_cpe23_colons s :
  SBOM.is_valid_string "cpe23" s = Ok true -> 12 <= Re.count ":" s.
Proof.
  unfold SBOM.is_valid_string. simpl. intros [= H].
  destruct (match_sound _ _ H) as (p & q & -> & Hp).
  destruct (min_count_sound ":" _ _ Hp) as (n & Hn & Hle).
  vm_compute in Hn. injection Hn as <-. rewrite count_app. lia.
Qed.

(** X2.  A string that [is_valid_string] accepts as CPE 2.3 has at least
    twelve colons, so that [decode_cpe23] never raises on it. *)
Theorem valid_cpe23_decodes :
  forall s,
    SBOM.is_valid_string "cpe23" s = Ok true ->
    12 <= Re.count ":" s /\ exists t, SBOM.decode_cpe23 s = Ok t.
Proof.
  intros s H. pose proof (valid_cpe23_colons s H) as Hc.
  split; [exact Hc|].
  apply decode_cpe23_long. lia.
Qed.

Lemma valid_purl_counts s :
  SBOM.is_valid_string "purl" s = Ok true ->
  2 <= Re.count "/" s /\ 1 <= Re.count ":" s /\ 1 <= Re.count "@" s.
Proof.
  unfold SBOM.is_valid_string, Re.match_dollar. simpl. intros [= H].
  apply fullmatch_sound in H.
  destruct (min_count_sound "/" _ _ H) as (n1 & Hn1 & H1).
  destruct (min_count_sound ":" _ _ H) as (n2 & Hn2 & H2).
  destruct (min_count_sound "@" _ _ H) as (n3 & Hn3 & H3).
  vm_compute in Hn1, Hn2, Hn3.
  injection Hn1 as <-. injection Hn2 as <-. injection Hn3 as <-. lia.
Qed.

(** X3.  A string that [is_valid_string] accepts as package URL has a
    colon, two slashes and an at sign; so [parse_ext_ref] passes over a
    package URL without namespace, of the form [pkg:type/name@version]. *)
Theorem purl_without_namespace_ignored :
  (forall s,
     SBOM.is_valid_string "purl" s = Ok true ->
     2 <= Re.count "/" s /\ 1 <= Re.count ":" s /\ 1 <= Re.count "@" s) /\
  (forall w decoded category s,
     Re.count "/" s < 2 ->
     SBOM.is_valid_string "purl" s = Ok false /\
     SBOM.parse_ext_ref_body w decoded [category; "purl"; s] = Ok decoded).
Proof.
  split; [exact valid_purl_counts|].
  intros w decoded category s Hs.
  assert (SBOM.is_valid_string "purl" s = Ok false) as Hinvalid.
  { destruct (SBOM.is_valid_string "purl" s) as [[|]|e] eqn:Hv.
    - apply valid_purl_counts in Hv. lia.
    - reflexivity.
    - discriminate Hv. }
  split; [exact Hinvalid|].
  unfold SBOM.parse_ext_ref_body, index.
  change ([category; "purl"; s] !! 1%nat) with (Some "purl").
  change ([category; "purl"; s] !! 2%nat) with (Some s).
  cbv beta iota delta [bind SBOM.and_].
  change (String.eqb "purl" "cpe23Type") with false.
  change (String.eqb "purl" "cpe22Type") with false.
  change (String.eqb "purl" "purl") with true. cbv iota.
  now rewrite Hinvalid.
Qed.

Lemma match_app r s t : Re.match_ r s = true -> Re.match_ r (s +:+ t) = true.
Proof.
  revert r. induction s as [|c s IH]; intros r; simpl.
  - rewrite orb_false_r. intros H. destruct t; simpl; now rewrite H.
  - intros [H|H]%orb_prop; [now rewrite H|].
    rewrite (IH _ H). apply orb_true_r.
Qed.

(** X4.  The CPE patterns are not anchored at the end: what follows an
    accepted string is not looked at.  In particular every string that
    starts with [cpe:/] is accepted as CPE 2.2. *)
Theorem cpe_validity_is_prefix_only :
  (forall s t,
     SBOM.is_valid_string "cpe23" s = Ok true ->
     SBOM.is_valid_string "cpe23" (s +:+ t) = Ok true) /\
  (forall s t,
     SBOM.is_valid_string "cpe22" s = Ok true ->
     SBOM.is_valid_string "cpe22" (s +:+ t) = Ok true) /\
  (forall t, SBOM.is_valid_string "cpe22" ("cpe:/" +:+ t) = Ok true).
Proof.
  assert (forall s, SBOM.is_valid_string "cpe23" s
                    = Ok (Re.match_ SBOM.cpe23_pattern s)) as H23
    by reflexivity.
  assert (forall s, SBOM.is_valid_string "cpe22" s
                    = Ok (Re.match_ SBOM.cpe22_pattern s)) as H22
    by reflexivity.
  repeat split.
  - intros s t. rewrite !H23. intros [= H]. now rewrite (match_app _ _ t H).
  - intros s t. rewrite !H22. intros [= H]. now rewrite (match_app _ _ t H).
  - intros t. rewrite H22. f_equal.
    apply (match_app _ "cpe:/" t). reflexivity.
Qed.

Lemma or_None_nonempty s : or_None s <> Some "".
Proof. destruct s; discriminate. Qed.

(** X5.  No decoder returns an empty string: every field of a decoded
    triple is [None] or a string that is not empty, and so is every field of
    what [parse_ext_ref] returns; [decode_purl] returns neither vendor nor
    product. *)
Theorem decoded_fields_not_empty :
  (forall s vendor product version,
     SBOM.decode_cpe22 s = Ok (vendor, product, version) \/
     SBOM.decode_cpe23 s = Ok (vendor, product, version) ->
     vendor <> Some "" /\ product <> Some "" /\ version <> Some "") /\
  (forall w s vendor product version,
     SBOM.decode_purl w s = Ok (vendor, product, version) ->
     vendor = None /\ product = None /\ version <> Some "") /\
  (forall w ext_ref vendor product version,
     SBOM.parse_ext_ref w ext_ref = Ok (vendor, product, version) ->
     vendor <> Some "" /\ product <> Some "" /\ version <> Some "").
Proof.
  assert (forall s vendor product version,
            SBOM.decode_cpe22 s = Ok (vendor, product, version) \/
            SBOM.decode_cpe23 s = Ok (vendor, product, version) ->
            vendor <> Some "" /\ product <> Some "" /\ version <> Some "")
    as Hcpe.
  { intros s vendor product version [H|H];
      unfold SBOM.decode_cpe22, SBOM.decode_cpe23, index in H;
      repeat (destruct (_ !! _) in H; simpl in H; [|discriminate H]);
      injection H as <- <- <-; auto using or_None_nonempty. }
  assert (forall w s vendor product version,
            SBOM.decode_purl w s = Ok (vendor, product, version) ->
            vendor = None /\ product = None /\ version <> Some "") as Hpurl.
  { intros w s vendor product version. unfold SBOM.decode_purl.
    destruct (SBOM.PackageURL_from_string w s) as [p|]; simpl;
      [|discriminate].
    intros [= <- <- <-]. repeat split.
    destruct (Purl.version p) as [v|]; simpl; [|discriminate].
    apply or_None_nonempty. }
  split; [exact Hcpe|]. split; [exact Hpurl|].
  intros w ext_ref vendor product version H.
  apply parse_ext_ref_spec in H.
  destruct (last_valid "cpe23Type" ext_ref); [eapply Hcpe; eauto|].
  destruct (last_valid "cpe22Type" ext_ref); [eapply Hcpe; eauto|].
  destruct (last_valid "purl" ext_ref).
  - destruct (Hpurl _ _ _ _ _ H) as (-> & -> & Hv). now repeat split.
  - injection H as -> -> ->. now repeat split.
Qed.

End Patterns.

Lemma decode_cpe_index_error_witness :
  Re.count ":" "cpe:/a:nasm:netwide_assembler" < 4 /\
  SBOM.decode_cpe22 "cpe:/a:nasm:netwide_assembler" = Py.Raise Py.IndexError /\
  4 <= Re.count ":" "cpe:/a:nasm:netwide_assembler:2.15" /\
  exists t, SBOM.decode_cpe22 "cpe:/a:nasm:netwide_assembler:2.15" = Py.Ok t.
Proof.
  split; [vm_compute; lia|]. split.
  - apply (proj1 (decode_cpe_index_error _)). vm_compute; lia.
  - split; [vm_compute; lia|].
    apply (proj1 (proj2 (decode_cpe_index_error _))). vm_compute; lia.
Defined.

Lemma valid_cpe23_decodes_witness :
  SBOM.is_valid_string "cpe23"
    "cpe:2.3:a:nasm:netwide_assembler:2.15:*:*:*:*:*:*:*" = Py.Ok true /\
  exists t,
    SBOM.decode_cpe23 "cpe:2.3:a:nasm:netwide_assembler:2.15:*:*:*:*:*:*:*"
    = Py.Ok t.
Proof.
  assert (SBOM.is_valid_string "cpe23"
            "cpe:2.3:a:nasm:netwide_assembler:2.15:*:*:*:*:*:*:*"
          = Py.Ok true) as H by (vm_compute; reflexivity).
  split; [exact H|].
  exact (proj2 (valid_cpe23_decodes _ H)).
Defined.

Lemma purl_without_namespace_ignored_witness :
  Re.count "/" "pkg:npm/left-pad@1.3.0" < 2 /\
  SBOM.is_valid_string "purl" "pkg:npm/left-pad@1.3.0" = Py.Ok false /\
  SBOM.is_valid_string "purl" "pkg:npm/npm/left-pad@1.3.0" = Py.Ok true /\
  2 <= Re.count "/" "pkg:npm/npm/left-pad@1.3.0".
Proof.
  split; [vm_compute; lia|]. split.
  - apply (proj2 purl_without_namespace_ignored
             (Examples.world_of Examples.nasm_document true) ∅ "PACKAGE-MANAGER").
    vm_compute; lia.
  - split; [vm_compute; reflexivity|].
    apply (proj1 purl_without_namespace_ignored).
    vm_compute; reflexivity.
Defined.

Lemma cpe_validity_is_prefix_only_witness :
  SBOM.is_valid_string "cpe22" "cpe:/a:nasm" = Py.Ok true /\
  SBOM.is_valid_string "cpe22" ("cpe:/a:nasm" +:+ " and more") = Py.Ok true.
Proof.
  split; [vm_compute; reflexivity|].
  refine (proj1 (proj2 cpe_validity_is_prefix_only) "cpe:/a:nasm"
            " and more" _).
  vm_compute; reflexivity.
Defined.

Lemma decoded_fields_not_empty_witness :
  SBOM.decode_cpe22 "cpe:/a::netwide_assembler:2.15"
  = Py.Ok (None, Some "netwide_assembler", Some "2.15") /\
  (None : option string) <> Some "".
Proof.
  split; [reflexivity|].
  apply (proj1 decoded_fields_not_empty "cpe:/a::netwide_assembler:2.15"
           None (Some "netwide_assembler") (Some "2.15")).
  left. reflexivity.
Defined.

(** *** SBOM ingestion: errors, order and repeated scans *)

Section Ingestion.
Import Py Util Props SBOM.

Lemma parse_sbom_passes w self doc :
  SBOMParser_parse_file w (type self) (filename self) = Ok doc ->
  validation_passes w self doc = true ->
  parse_sbom w self =
  let* packages :=
    match packages doc with Some ps => Ok ps | None => Raise KeyError end in
  parse_packages w packages [].
Proof.
  unfold parse_sbom, validation_passes, validator. intros -> H. simpl.
  destruct (validate self && endswith (filename self) ".xml");
    [|reflexivity].
  simpl in H. now rewrite H.
Qed.

Lemma scan_file_raises w self e :
  path_exists w (filename self) = Ok true ->
  type self <> "swid" ->
  parse_sbom w self = Raise e ->
  existsb (exn_eqb e) [KeyError; FileNotFoundError; ParseError] = false ->
  scan_file w self = Raise e.
Proof.
  intros Hex Hswid Hparse Hnot.
  apply scan_file_parse_raises; try assumption. unfold underlying_parse.
  now destruct (String.eqb_spec (type self) "swid").
Qed.

(** X6.  [scan_file] does not catch [IndexError].  When the first
    reference of the first package is a CPE 2.2 name that is accepted as
    valid and has fewer than four colons, such as [cpe:/a:vendor:product],
    [parse_sbom] and [scan_file] raise [IndexError]. *)
Theorem short_cpe22_reference_raises :
  forall w self doc category cpe22 refs pkg_name declared rest,
    path_exists w (filename self) = Ok true ->
    type self <> "swid" ->
    SBOMParser_parse_file w (type self) (filename self) = Ok doc ->
    validation_passes w self doc = true ->
    packages doc
    = Some ({| externalreference :=
                 Some ([category; "cpe22Type"; cpe22] :: refs);
               name := pkg_name; pkg_version := declared |} :: rest) ->
    is_valid_string "cpe22" cpe22 = Ok true ->
    Re.count ":" cpe22 < 4 ->
    parse_sbom w self = Raise IndexError /\
    scan_file w self = Raise IndexError.
Proof.
  intros w self doc category cpe22 refs pkg_name declared rest
         Hex Hswid Hparse Hpass Hpk Hvalid Hshort.
  assert (parse_sbom w self = Raise IndexError) as Hraise.
  { rewrite (parse_sbom_passes _ _ _ Hparse Hpass), Hpk.
    cbv beta iota delta [bind]. cbn [parse_packages].
    unfold parse_package. cbn [externalreference].
    unfold parse_ext_ref. cbn [parse_ext_ref_loop].
    unfold parse_ext_ref_body at 1, index.
    change ((category :: "cpe22Type" :: cpe22 :: nil) !! 1%nat)
      with (Some "cpe22Type").
    change ((category :: "cpe22Type" :: cpe22 :: nil) !! 2%nat)
      with (Some cpe22).
    cbv beta iota delta [bind and_].
    change (String.eqb "cpe22Type" "cpe23Type") with false.
    change (String.eqb "cpe22Type" "cpe22Type") with true. cbv iota.
    rewrite Hvalid.
    rewrite (decode_cpe22_short cpe22 Hshort). reflexivity. }
  split; [exact Hraise|].
  now apply scan_file_raises.
Qed.

Lemma parse_packages_app w before : forall after modules,
  parse_packages w (before ++ after) modules =
  let* modules' := parse_packages w before modules in
  parse_packages w after modules'.
Proof.
  induction before as [|p before IH]; intros after modules; simpl;
    [reflexivity|].
  destruct (parse_package w p) as [m|]; simpl; [|reflexivity].
  apply IH.
Qed.

Lemma parse_packages_ok w packages : forall modules,
  Forall (fun p => exists r, parse_package w p = Ok r) packages ->
  exists modules', parse_packages w packages modules = Ok modules'.
Proof.
  induction packages as [|p ps IH]; intros modules Hall; simpl; [eauto|].
  inversion Hall as [|? ? [r Hr] Hps]; subst. rewrite Hr. simpl.
  now apply IH.
Qed.

(** X7.  A package without name, and without a reference that gives a
    product, makes [parse_sbom] raise [KeyError], also after packages that
    are in order; [scan_file] catches it and returns the mapping it had, so
    that the packages before it are lost too. *)
Theorem nameless_package_discards_document :
  forall w self doc before package after,
    path_exists w (filename self) = Ok true ->
    type self <> "swid" ->
    SBOMParser_parse_file w (type self) (filename self) = Ok doc ->
    validation_passes w self doc = true ->
    packages doc = Some (before ++ package :: after) ->
    Forall (fun p => exists r, parse_package w p = Ok r) before ->
    externalreference package = None ->
    name package = None ->
    parse_sbom w self = Raise KeyError /\
    scan_file w self = Ok (sbom_data self, self).
Proof.
  intros w self doc before package after Hex Hswid Hparse Hpass Hpk Hbefore
         Hrefs Hname.
  assert (parse_sbom w self = Raise KeyError) as Hraise.
  { rewrite (parse_sbom_passes _ _ _ Hparse Hpass), Hpk.
    cbv beta iota delta [bind]. rewrite parse_packages_app.
    destruct (parse_packages_ok w before [] Hbefore) as [ms ->].
    cbv beta iota delta [bind]. cbn [parse_packages].
    unfold parse_package. now rewrite Hrefs, Hname. }
  split; [exact Hraise|].
  apply scan_file_no_modules.
  apply (ingested_modules_caught w self KeyError Hex); [simpl; auto|].
  unfold underlying_parse.
  destruct (String.eqb_spec (type self) "swid"); [contradiction|].
  exact Hraise.
Qed.

Lemma parse_package_same_purl w w' package :
  (forall s, PackageURL_from_string w' s = PackageURL_from_string w s) ->
  parse_package w' package = parse_package w package.
Proof.
  intros Hsame. unfold parse_package.
  destruct (externalreference package) as [ext_ref|]; [|reflexivity].
  assert (parse_ext_ref w' ext_ref = parse_ext_ref w ext_ref) as ->;
    [|reflexivity].
  unfold parse_ext_ref. generalize (∅ : gmap string Triple).
  induction ext_ref as [|ref rest IH]; intros d; [reflexivity|].
  cbn [parse_ext_ref_loop].
  assert (parse_ext_ref_body w' d ref = parse_ext_ref_body w d ref) as ->.
  { unfold parse_ext_ref_body, decode_purl.
    destruct (index ref 1) as [ty|]; [|reflexivity].
    destruct (index ref 2) as [loc|]; [|reflexivity].
    cbv beta iota delta [bind]. now rewrite Hsame. }
  destruct (parse_ext_ref_body w d ref) as [d'|];
    cbv beta iota delta [bind]; [|reflexivity].
  specialize (IH d'). cbv beta iota delta [bind] in IH.
  destruct (parse_ext_ref_loop w' d' rest), (parse_ext_ref_loop w d' rest);
    congruence.
Qed.

(** X9.  Validation only happens for a file whose name ends in [.xml] and
    with [validate] set: otherwise [parse_sbom] does not depend on the
    validators. *)
Theorem validators_unused_unless_xml :
  forall w self spdx cyclonedx,
    validate self = false \/ endswith (filename self) ".xml" = false ->
    parse_sbom (with_validators w spdx cyclonedx) self = parse_sbom w self.
Proof.
  intros w self spdx cyclonedx H. unfold parse_sbom. simpl.
  assert (validate self && endswith (filename self) ".xml" = false) as ->.
  { destruct H as [-> | ->]; [reflexivity|apply andb_false_r]. }
  destruct (SBOMParser_parse_file w (type self) (filename self)) as [doc|];
    simpl; [|reflexivity].
  destruct (packages doc) as [ps|]; simpl; [|reflexivity].
  generalize (@nil Module_). induction ps as [|p ps IH]; intros ms; simpl;
    [reflexivity|].
  rewrite (parse_package_same_purl w (with_validators w spdx cyclonedx) p)
    by reflexivity.
  destruct (parse_package w p); simpl; [apply IH|reflexivity].
Qed.

Lemma insert_rows_id (rows : list ProductInfo) :
  forall d : gmap ProductInfo TriageData,
    (forall row, In row rows -> d !! row = Some new_found) ->
    foldl (fun d row => <[row := new_found]> d) d rows = d.
Proof.
  induction rows as [|r rows IH]; intros d H; simpl; [reflexivity|].
  rewrite (insert_id d r new_found) by (apply H; now left).
  apply IH. intros row Hin. apply H. now right.
Qed.

(** X10.  Scanning a second time changes nothing: after a call that
    returned, a further call of [scan_file] on the same object, with the
    file unchanged, returns the same mapping and leaves the object as it
    is. *)
Theorem scan_file_twice :
  forall w self mapping self',
    scan_file w self = Ok (mapping, self') ->
    scan_file w self' = Ok (mapping, self').
Proof.
  intros w self mapping self' H. rewrite scan_file_unfold in H.
  destruct (ingested_modules w self) as [modules|] eqn:Hmods;
    cbv beta iota delta [bind] in H; [|discriminate].
  cbv zeta in H. injection H as Hmap Hself.
  assert (ingested_modules w self' = ingested_modules w self) as Hsame
    by (now subst self').
  assert (forall m, module_records self' m = module_records self m) as Hrec
    by (now subst self').
  assert (sbom_data self' = mapping) as Hdata by (now subst self').
  assert (filename self' = filename self /\ type self' = type self /\
          validate self' = validate self /\ cvedb self' = cvedb self)
    as (Hf & Ht & Hv & Hc) by (now subst self').
  rewrite scan_file_unfold, Hsame, Hmods. cbv beta iota zeta delta [bind].
  assert (flat_map (module_records self') modules
          = flat_map (module_records self) modules) as ->.
  { clear -Hrec. induction modules as [|m ms IH]; simpl; [reflexivity|].
    now rewrite Hrec, IH. }
  rewrite Hdata, insert_rows_id.
  - rewrite Hf, Ht, Hv, Hc. do 2 f_equal. now rewrite <- Hself, Hmap.
  - intros row Hin. rewrite <- Hmap. now apply insert_rows_lookup.
Qed.

Lemma lower_char_idempotent c : lower_char (lower_char c) = lower_char c.
Proof. destruct c as [[] [] [] [] [] [] [] []]; reflexivity. Qed.

Lemma lower_idempotent s : lower (lower s) = lower s.
Proof.
  induction s as [|c s IH]; simpl; [reflexivity|].
  now rewrite lower_char_idempotent, IH.
Qed.

Lemma module_records_product self m row :
  In row (module_records self m) -> product row = lower m.1.2.
Proof.
  destruct m as [[[module_vendor|] p] v]; simpl.
  - now intros [<-|[]].
  - intros Hin. apply in_map_iff in Hin as (vendor & <- & _). reflexivity.
Qed.

(** X11.  Every record [scan_file] adds has a product in lower case and the
    triage data of a new finding.  A module that names its vendor gives the
    one record of that vendor, without a look at the database; a module
    that does not gives one record for each pair of the database, in the
    order of the database. *)
Theorem scan_file_records_shape :
  (forall w self mapping self' row x,
     scan_file w self = Ok (mapping, self') ->
     mapping !! row = Some x ->
     sbom_data self !! row = Some x \/
     (x = new_found /\ lower (product row) = product row)) /\
  (forall self module_vendor p v,
     module_records self (Some module_vendor, p, v)
     = [{| vendor := module_vendor; product := lower p; version := v |}]) /\
  (forall self p v,
     get_vendor_product_pairs (cvedb self) (lower p) <> [] ->
     module_records self (None, p, v)
     = map (fun pair => {| vendor := pair_vendor pair; product := lower p;
                           version := v |})
           (get_vendor_product_pairs (cvedb self) (lower p))).
Proof.
  split; [|split].
  - intros w self mapping self' row x Hscan Hrow.
    destruct (ingested_modules w self) as [modules|] eqn:Hmods.
    + destruct (scan_file_records w self modules Hmods)
        as (mapping0 & self0 & Hscan0 & Hall & Hinv).
      rewrite Hscan in Hscan0. injection Hscan0 as <- <-.
      destruct (Hinv _ _ Hrow) as [Hold|(m & Hm & Hin)]; [now left|right].
      split.
      * rewrite (Hall _ _ Hm Hin) in Hrow. congruence.
      * rewrite (module_records_product _ _ _ Hin). apply lower_idempotent.
    + rewrite scan_file_unfold, Hmods in Hscan. discriminate.
  - reflexivity.
  - intros self p v Hne. unfold module_records, get_vendor.
    destruct (get_vendor_product_pairs (cvedb self) (lower p)) as [|pair ps];
      [congruence|].
    now rewrite map_map.
Qed.

Lemma parse_ext_ref_loop_app w pre : forall post decoded,
  parse_ext_ref_loop w decoded (pre ++ post) =
  let* decoded' := parse_ext_ref_loop w decoded pre in
  parse_ext_ref_loop w decoded' post.
Proof.
  induction pre as [|ref pre IH]; intros post decoded; [reflexivity|].
  cbn [app parse_ext_ref_loop].
  destruct (parse_ext_ref_body w decoded ref) as [d|];
    cbv beta iota delta [bind]; [|reflexivity].
  apply IH.
Qed.

Lemma parse_ext_ref_body_invalid w decoded ref :
  3 <= length ref ->
  (forall key, In key ref_types -> valid_as key ref = None) ->
  parse_ext_ref_body w decoded ref = Ok decoded.
Proof.
  intros Hlen Hnone.
  destruct ref as [|category [|ty [|s more]]]; simpl in Hlen; try lia.
  pose proof (Hnone "cpe23Type" ltac:(simpl; auto)) as H23.
  pose proof (Hnone "cpe22Type" ltac:(simpl; auto)) as H22.
  pose proof (Hnone "purl" ltac:(simpl; auto)) as Hp.
  unfold valid_as in H23, H22, Hp.
  change ((category :: ty :: s :: more) !! 1%nat) with (Some ty) in *.
  change ((category :: ty :: s :: more) !! 2%nat) with (Some s) in *.
  change (string_type "cpe23Type") with "cpe23" in H23.
  change (string_type "cpe22Type") with "cpe22" in H22.
  change (string_type "purl") with "purl" in Hp.
  unfold parse_ext_ref_body, index.
  change ((category :: ty :: s :: more) !! 1%nat) with (Some ty).
  change ((category :: ty :: s :: more) !! 2%nat) with (Some s).
  cbv beta iota delta [bind and_].
  assert (exists b, is_valid_string "cpe23" s = Ok b) as [b23 E23]
    by (eexists; reflexivity).
  assert (exists b, is_valid_string "cpe22" s = Ok b) as [b22 E22]
    by (eexists; reflexivity).
  assert (exists b, is_valid_string "purl" s = Ok b) as [bp Ep]
    by (eexists; reflexivity).
  cbv beta iota in H23, H22, Hp.
  rewrite E23 in H23 |- *. rewrite E22 in H22 |- *. rewrite Ep in Hp |- *.
  destruct (String.eqb ty "cpe23Type"), b23; try discriminate;
    destruct (String.eqb ty "cpe22Type"), b22; try discriminate;
    destruct (String.eqb ty "purl"), bp; try discriminate; reflexivity.
Qed.

(** X12.  A reference that is not a valid reference of one of the three
    types (another type, or a locator its pattern rejects) changes nothing:
    [parse_ext_ref] returns what it returns without it.  A reference with
    fewer than three elements makes it raise [IndexError]. *)
Theorem invalid_references_ignored :
  (forall w pre ref post,
     3 <= length ref ->
     (forall key, In key ref_types -> valid_as key ref = None) ->
     parse_ext_ref w (pre ++ ref :: post) = parse_ext_ref w (pre ++ post)) /\
  (forall w ref post,
     length ref < 3 -> parse_ext_ref w (ref :: post) = Raise IndexError).
Proof.
  split.
  - intros w pre ref post Hlen Hnone. unfold parse_ext_ref.
    rewrite !parse_ext_ref_loop_app.
    destruct (parse_ext_ref_loop w ∅ pre) as [d|];
      cbv beta iota delta [bind]; [|reflexivity].
    cbn [parse_ext_ref_loop].
    now rewrite (parse_ext_ref_body_invalid w d ref Hlen Hnone).
  - intros w ref post Hlen. unfold parse_ext_ref. cbn [parse_ext_ref_loop].
    unfold parse_ext_ref_body, index.
    destruct ref as [|category [|ty [|s more]]]; simpl in Hlen; try lia;
      reflexivity.
Qed.

End Ingestion.

Lemma short_cpe22_reference_raises_witness :
  let w := Examples.world_of Examples.short_cpe22_document true in
  let self := SBOM.__init__ Examples.empty_db "nasm.spdx" "spdx" true in
  SBOM.is_valid_string "cpe22" "cpe:/a:nasm:netwide_assembler" = Py.Ok true /\
  Re.count ":" "cpe:/a:nasm:netwide_assembler" < 4 /\
  SBOM.scan_file w self = Py.Raise Py.IndexError.
Proof.
  intros w self.
  assert (SBOM.is_valid_string "cpe22" "cpe:/a:nasm:netwide_assembler"
          = Py.Ok true) as Hv by (vm_compute; reflexivity).
  assert (Re.count ":" "cpe:/a:nasm:netwide_assembler" < 4) as Hc
    by (vm_compute; lia).
  split; [exact Hv|]. split; [exact Hc|].
  exact (proj2 (short_cpe22_reference_raises w self
                  Examples.short_cpe22_document "SECURITY"
                  "cpe:/a:nasm:netwide_assembler" [] (Some "nasm")
                  (Some "2.15") [] eq_refl ltac:(discriminate) eq_refl
                  eq_refl eq_refl Hv Hc)).
Defined.

Lemma nameless_package_discards_document_witness :
  let w := Examples.world_of Examples.nameless_document true in
  let self := SBOM.__init__ Examples.empty_db "doc.spdx" "spdx" true in
  SBOM.parse_package w Examples.nasm_package
  = Py.Ok (Some (Some "nasm", "netwide_assembler", "2.15")) /\
  SBOM.parse_sbom w self = Py.Raise Py.KeyError /\
  SBOM.scan_file w self = Py.Ok (∅, self).
Proof.
  intros w self.
  assert (SBOM.parse_package w Examples.nasm_package
          = Py.Ok (Some (Some "nasm", "netwide_assembler", "2.15"))) as Hp
    by (vm_compute; reflexivity).
  split; [exact Hp|].
  apply (nameless_package_discards_document w self
           Examples.nameless_document [Examples.nasm_package]
           Examples.nameless_package []);
    try reflexivity; [discriminate|].
  constructor; [eauto|constructor].
Defined.

Lemma validators_unused_unless_xml_witness :
  let w := Examples.world_of Examples.nasm_document true in
  let self := SBOM.__init__ Examples.empty_db "nasm.spdx.json" "spdx" true in
  Py.endswith (SBOM.filename self) ".xml" = false /\
  SBOM.parse_sbom
    (Props.with_validators w (fun _ => false) (fun _ => false)) self
  = SBOM.parse_sbom w self.
Proof.
  intros w self. split; [reflexivity|].
  apply validators_unused_unless_xml. right. reflexivity.
Defined.

Lemma scan_file_twice_witness :
  let w := Examples.world_of Examples.flask_document true in
  let self := SBOM.__init__ Examples.empty_db "flask.spdx" "spdx" true in
  exists mapping self',
    SBOM.scan_file w self = Py.Ok (mapping, self') /\
    SBOM.scan_file w self' = Py.Ok (mapping, self').
Proof.
  intros w self. eexists _, _.
  split; [reflexivity|].
  apply (scan_file_twice w self). reflexivity.
Defined.

Lemma scan_file_records_shape_witness :
  let w := Examples.world_of Examples.flask_document true in
  let self := SBOM.__init__ (Examples.db_of "palletsprojects" "python-flask")
                "flask.spdx" "spdx" true in
  let row := Examples.flask_record in
  let mapping := Examples.flask_mapping in
  let self' := {| SBOM.filename := "flask.spdx"; SBOM.type := "spdx";
                  SBOM.validate := true; SBOM.sbom_data := mapping;
                  SBOM.cvedb := SBOM.cvedb self |} in
  Util.get_vendor_product_pairs (SBOM.cvedb self) (Py.lower "Python-Flask")
  <> [] /\
  SBOM.module_records self (None, "Python-Flask", "2.0.1") = [row] /\
  SBOM.scan_file w self = Py.Ok (mapping, self') /\
  mapping !! row = Some SBOM.new_found /\
  (SBOM.sbom_data self !! row = Some SBOM.new_found \/
   (SBOM.new_found = SBOM.new_found /\
    Py.lower (Util.product row) = Util.product row)).
Proof.
  intros w self row mapping self'.
  assert (Util.get_vendor_product_pairs (SBOM.cvedb self)
            (Py.lower "Python-Flask") <> []) as H
    by (vm_compute; discriminate).
  assert (Props.ingested_modules w self
          = Py.Ok [(None, "python-flask", "2.0.1")]) as Hmods
    by (vm_compute; reflexivity).
  assert (SBOM.module_records self (None, "python-flask", "2.0.1") = [row])
    as Hrec by (vm_compute; reflexivity).
  assert (SBOM.scan_file w self = Py.Ok (mapping, self')) as Hscan.
  { rewrite scan_file_unfold, Hmods. cbv beta iota zeta delta [Py.bind].
    cbn [flat_map]. rewrite Hrec. reflexivity. }
  assert (mapping !! row = Some SBOM.new_found) as Hrow
    by apply lookup_insert_eq.
  split; [exact H|]. split.
  { exact (proj2 (proj2 scan_file_records_shape) self "Python-Flask" "2.0.1"
             H). }
  split; [exact Hscan|]. split; [exact Hrow|].
  exact (proj1 scan_file_records_shape w self mapping self' row _
           Hscan Hrow).
Defined.

Lemma invalid_references_ignored_witness :
  let w := Examples.world_of Examples.nasm_document true in
  let ref := ["OTHER"; "swh"; "swh:1:cnt:94a9ed024d3859793618152ea559a168bbcbb5e2"] in
  3 <= length ref /\
  SBOM.parse_ext_ref w
    (ref :: default [] (SBOM.externalreference Examples.nasm_package))
  = SBOM.parse_ext_ref w
      (default [] (SBOM.externalreference Examples.nasm_package)).
Proof.
  intros w ref. split; [simpl; lia|].
  apply (proj1 invalid_references_ignored w [] ref); [simpl; lia|].
  intros key [<-|[<-|[<-|[]]]]; vm_compute; reflexivity.
Defined.

(** *** Lock files: package names, the older schema and files that are no
    lock files *)

Section PackageNames.
Import Py Props Javascript.

Lemma contains_char c s :
  contains s (String c EmptyString) = negb (lacks c s).
Proof.
  induction s as [|d s IH]; [reflexivity|].
  cbn [contains lacks]. rewrite IH. unfold startswith. cbn [strip_prefix].
  rewrite (Ascii.eqb_sym c d).
  destruct (Ascii.eqb d c); [reflexivity|].
  cbn [negb andb orb]. reflexivity.
Qed.

Lemma split_pieces_lack sep s : Forall (fun w => lacks sep w = true) (split sep s).
Proof.
  induction s as [|c s IH]; simpl; [now constructor|].
  destruct (Ascii.eqb c sep) eqn:Hc; [now constructor|].
  destruct (split sep s) as [|w ws]; [constructor; simpl; [now rewrite Hc|constructor]|].
  inversion IH as [|? ? Hw Hws]; subst.
  constructor; [simpl; now rewrite Hc, Hw|exact Hws].
Qed.

Lemma last_Forall {A} (P : A -> Prop) (l : list A) d :
  l <> [] -> Forall P l -> P (List.last l d).
Proof.
  induction l as [|a l IH]; [congruence|]. intros _ Hall.
  inversion Hall as [|? ? Ha Hl]; subst.
  destruct l as [|b l]; [exact Ha|]. apply IH; [discriminate|exact Hl].
Qed.

Lemma split_two sep a b :
  exists w w' ws, split sep (a +:+ String sep b) = w :: w' :: ws.
Proof.
  induction a as [|c a (w & w' & ws & IH)]; simpl.
  - rewrite Ascii.eqb_refl. pose proof (split_nonempty sep b) as Hne.
    destruct (split sep b) as [|w' ws]; [congruence|eauto].
  - rewrite IH. destruct (Ascii.eqb c sep); eauto.
Qed.

Lemma last_split_app sep a b d :
  List.last (split sep (a +:+ String sep b)) d = List.last (split sep b) d.
Proof.
  induction a as [|c a IH]; simpl.
  - rewrite Ascii.eqb_refl. pose proof (split_nonempty sep b) as Hne.
    destruct (split sep b) as [|w ws]; [congruence|reflexivity].
  - destruct (split_two sep a b) as (w & w' & ws & Hs).
    rewrite Hs in IH |- *. destruct (Ascii.eqb c sep); exact IH.
Qed.

(** X13.  [get_package_name] returns the part of a name after its last
    slash: the result holds no slash, a name without slash is returned as it
    is, [scope/base] gives [base] whatever the scope, and a second
    application changes nothing. *)
Theorem get_package_name_last_segment :
  (forall name, lacks "/" (get_package_name name) = true) /\
  (forall name, lacks "/" name = true -> get_package_name name = name) /\
  (forall scope base,
     lacks "/" base = true ->
     get_package_name (scope +:+ "/" +:+ base) = base) /\
  (forall name,
     get_package_name (get_package_name name) = get_package_name name).
Proof.
  assert (forall name, lacks "/" name = true -> get_package_name name = name)
    as Hid.
  { intros name H. unfold get_package_name.
    change "/"%string with (String "/" EmptyString).
    now rewrite contains_char, H. }
  assert (forall name, lacks "/" (get_package_name name) = true) as Hlacks.
  { intros name. unfold get_package_name.
    change "/"%string with (String "/" EmptyString). rewrite contains_char.
    destruct (lacks "/" name) eqn:H; [exact H|]. cbn [negb].
    apply (last_Forall (fun w => lacks "/" w = true));
      [apply split_nonempty|apply split_pieces_lack]. }
  split; [exact Hlacks|]. split; [exact Hid|]. split.
  - intros scope base Hbase. unfold get_package_name.
    change ("/" +:+ base) with (String "/" base).
    change "/"%string with (String "/" EmptyString).
    rewrite contains_char, lacks_app. cbn [lacks].
    rewrite Ascii.eqb_refl, andb_false_r. cbn [negb].
    now rewrite last_split_app, (split_lacks _ _ Hbase).
  - intros name. apply Hid, Hlacks.
Qed.

End PackageNames.

Section OlderLockfile.
Import Py Util Json Props Javascript.

Lemma dependencies_loop_spec dependencies : forall mapping,
  forallb (fun p => is_package p.2) dependencies = true ->
  dependencies_loop dependencies mapping
  = Ok (mapping ++ flat_map legacy_pairs dependencies).
Proof.
  induction dependencies as [|[i entry] rest IH]; intros mapping Hall; simpl.
  - now rewrite app_nil_r.
  - simpl in Hall. apply andb_prop in Hall as [Hp Hrest].
    destruct entry as [| | | | |l]; try discriminate.
    unfold legacy_pairs at 1, requires_of.
    simpl in Hp |- *.
    destruct (lookup "requires" l) as [[| | | | |requires]|];
      try discriminate; simpl; rewrite (IH _ Hrest), <- !app_assoc;
      reflexivity.
Qed.

(** X14.  For a lock file of the older schema whose dependencies are
    dictionaries the parser collects, for every dependency in order, the
    pair of its name and its [version] field, then the pairs of its
    [requires] but for the versions ["*"]; nothing else of a dependency is
    read.  A dependency without [version] field is collected with the
    dictionary of the dependency itself as its version. *)
Theorem legacy_lockfile_pairs :
  forall data dependencies,
    lockfile_v1 data = Some dependencies ->
    product_version_mapping data
    = Ok (flat_map legacy_pairs dependencies) /\
    (forall i l version,
       In (i, JObj l) dependencies ->
       lookup "version" l = Some version ->
       In (get_package_name i, version)
          (flat_map legacy_pairs dependencies)) /\
    (forall i l,
       In (i, JObj l) dependencies ->
       lookup "version" l = None ->
       In (get_package_name i, JObj l)
          (flat_map legacy_pairs dependencies)) /\
    (forall (w : World) filename,
       json_load w filename = Ok data ->
       exists header,
         run_checker w filename
         = (header ++
            flat_map (fun '(product, version) =>
                        default []
                          (find_vendor w filename (JStr product) version))
                     (flat_map legacy_pairs dependencies),
            Ok tt)).
Proof.
  intros data dependencies Hv1.
  assert (product_version_mapping data
          = Ok (flat_map legacy_pairs dependencies)) as Hmap.
  { unfold lockfile_v1 in Hv1. unfold product_version_mapping.
    destruct data as [| | | | |l]; try discriminate. simpl.
    destruct (lookup "lockfileVersion" l) as [[| |n| | |]|];
      try discriminate.
    destruct (lookup "dependencies" l) as [[| | | | |deps]|] eqn:Hdeps;
      try discriminate.
    destruct (negb (n =? 0)%Z) eqn:Hn0; [|discriminate].
    destruct (n <? 2)%Z eqn:Hn2; [|discriminate].
    destruct (forallb (fun p => is_package p.2) deps) eqn:Hall;
      [|discriminate].
    injection Hv1 as <-. simpl. rewrite Hn0.
    assert ((2 <=? n)%Z = false) as -> by lia. simpl.
    try rewrite Hdeps. simpl. now rewrite (dependencies_loop_spec _ _ Hall). }
  split; [exact Hmap|]. split; [|split].
  - intros i l version Hin Hver. apply in_flat_map.
    exists (i, JObj l). split; [exact Hin|]. left.
    unfold dependency_version. simpl. now rewrite Hver.
  - intros i l Hin Hver. apply in_flat_map.
    exists (i, JObj l). split; [exact Hin|]. left.
    unfold dependency_version. simpl. now rewrite Hver.
  - intros w filename Hload.
    destruct data as [| | | | |l]; try discriminate.
    exact (run_checker_output w filename l _ Hload Hmap).
Qed.

Lemma run_checker_header (w : World) filename l e :
  json_load w filename = Ok (JObj l) ->
  product_version_mapping (JObj l) = Raise e ->
  exists header,
    header_vendor w filename (JObj l) = Ok header /\
    run_checker w filename = (default [] header, Raise e).
Proof.
  intros Hload Hmap. unfold run_checker. rewrite Hload.
  unfold gbind at 1, lift at 1. cbv beta iota.
  destruct (header_vendor_dict w filename l) as [header Hh]. rewrite Hh.
  unfold gbind, lift, yield_from. cbv beta iota. rewrite Hmap.
  exists header. split; [reflexivity|]. now rewrite !app_nil_l, app_nil_r.
Qed.

(** X15.  Files that are no lock files.  An error of [json.load] leaves
    [run_checker]; a JSON value that is no dictionary makes it raise
    [TypeError] or [AttributeError] before anything is yielded; a
    dictionary without [lockfileVersion], or with one that is not truthy,
    gives the records of its own name and version and nothing else. *)
Theorem run_checker_not_a_lock_file :
  forall (w : World) filename,
    (forall e, json_load w filename = Raise e ->
               run_checker w filename = ([], Raise e)) /\
    (forall data,
       json_load w filename = Ok data ->
       (forall l, data <> JObj l) ->
       run_checker w filename = ([], Raise TypeError) \/
       run_checker w filename = ([], Raise AttributeError)) /\
    (forall l,
       json_load w filename = Ok (JObj l) ->
       truthy (default JNull (lookup "lockfileVersion" l)) = false ->
       exists header,
         header_vendor w filename (JObj l) = Ok header /\
         run_checker w filename = (default [] header, Ok tt)).
Proof.
  intros w filename. split; [|split].
  - intros e H. unfold run_checker. now rewrite H.
  - intros data H Hno. unfold run_checker. rewrite H.
    destruct data as [|b|n|s|a|l]; try (left; reflexivity).
    + unfold gbind, lift, header_vendor. simpl.
      destruct (contains s "name"); simpl;
        [destruct (contains s "version"); simpl|]; auto.
    + unfold gbind, lift, header_vendor. simpl.
      destruct (existsb (is_str "name") a); simpl;
        [destruct (existsb (is_str "version") a); simpl|]; auto.
    + now destruct (Hno l).
  - intros l Hload Hfalsy. unfold run_checker. rewrite Hload.
    unfold gbind at 1, lift at 1. cbv beta iota.
    destruct (header_vendor_dict w filename l) as [header Hh]. rewrite Hh.
    unfold gbind, lift, yield_from, product_version_mapping. simpl.
    rewrite Hfalsy. exists header. split; [reflexivity|].
    now rewrite !app_nil_r.
Qed.

(** X16.  A lock file without the section its version asks for.  With a
    [lockfileVersion] from 2 on and no [packages], or with a lower one
    (other than 0) and no [dependencies], [run_checker] yields the records
    of the name and version of the file and then raises [KeyError]; with a
    [lockfileVersion] that is a string (not empty) it raises [TypeError]
    at the comparison. *)
Theorem lock_file_without_section :
  forall (w : World) filename l,
    json_load w filename = Ok (JObj l) ->
    (forall n,
       lookup "lockfileVersion" l = Some (JNum n) ->
       n <> 0%Z ->
       lookup (section_of n) l = None ->
       exists header,
         header_vendor w filename (JObj l) = Ok header /\
         run_checker w filename = (default [] header, Raise KeyError)) /\
    (forall s,
       lookup "lockfileVersion" l = Some (JStr s) ->
       s <> "" ->
       exists header,
         header_vendor w filename (JObj l) = Ok header /\
         run_checker w filename = (default [] header, Raise TypeError)).
Proof.
  intros w filename l Hload. split.
  - intros n Hv Hn Hsec. apply (run_checker_header w filename l _ Hload).
    unfold product_version_mapping, section_of in *. simpl. rewrite Hv. simpl.
    assert (negb (n =? 0)%Z = true) as -> by (apply negb_true_iff; lia).
    destruct (2 <=? n)%Z; now rewrite Hsec.
  - intros s Hv Hs. apply (run_checker_header w filename l _ Hload).
    unfold product_version_mapping. simpl. rewrite Hv. simpl.
    destruct (String.eqb_spec s ""); [contradiction|reflexivity].
Qed.

End OlderLockfile.

Lemma get_package_name_last_segment_witness :
  Props.lacks "/" "core" = true /\
  Javascript.get_package_name "@actions/core" = "core" /\
  Javascript.get_package_name "lodash" = "lodash".
Proof.
  split; [reflexivity|]. split.
  - exact (proj1 (proj2 (proj2 get_package_name_last_segment))
             "@actions" "core" eq_refl).
  - exact (proj1 (proj2 get_package_name_last_segment) "lodash" eq_refl).
Defined.

Lemma legacy_lockfile_pairs_witness :
  let tunnel := [("resolved", Json.JStr "tunnel.tgz")] in
  let dependencies :=
    [("@actions/core",
      Json.JObj [("version", Json.JStr "1.2.6");
                 ("requires",
                  Json.JObj [("@actions/http-client", Json.JStr "^1.0.8");
                             ("any", Json.JStr "*")])]);
     ("tunnel", Json.JObj tunnel)] in
  Props.lockfile_v1 Examples.lock_v1 = Some dependencies /\
  Javascript.product_version_mapping Examples.lock_v1
  = Py.Ok [("core", Json.JStr "1.2.6"); ("http-client", Json.JStr "^1.0.8");
           ("tunnel", Json.JObj tunnel)].
Proof.
  intros tunnel dependencies.
  assert (Props.lockfile_v1 Examples.lock_v1 = Some dependencies) as H
    by reflexivity.
  split; [exact H|].
  exact (proj1 (legacy_lockfile_pairs Examples.lock_v1 dependencies H)).
Defined.

Lemma run_checker_not_a_lock_file_witness :
  let manifest := [("name", Json.JStr "app"); ("version", Json.JStr "1.0.0")] in
  let w := Examples.js_world (Json.JObj manifest) in
  Javascript.json_load w "package.json" = Py.Ok (Json.JObj manifest) /\
  Json.truthy (default Json.JNull (Json.lookup "lockfileVersion" manifest))
  = false /\
  exists header,
    Javascript.header_vendor w "package.json" (Json.JObj manifest)
    = Py.Ok header /\
    Javascript.run_checker w "package.json" = (default [] header, Py.Ok tt).
Proof.
  intros manifest w. split; [reflexivity|]. split; [reflexivity|].
  exact (proj2 (proj2 (run_checker_not_a_lock_file w "package.json"))
           manifest eq_refl eq_refl).
Defined.

Lemma lock_file_without_section_witness :
  let l := [("name", Json.JStr "app"); ("version", Json.JStr "1.0.0");
            ("lockfileVersion", Json.JNum 3)] in
  let w := Examples.js_world Examples.lock_without_packages in
  Javascript.json_load w "package-lock.json" = Py.Ok (Json.JObj l) /\
  Json.lookup "lockfileVersion" l = Some (Json.JNum 3) /\
  3%Z <> 0%Z /\
  Json.lookup (Props.section_of 3) l = None /\
  exists header,
    Javascript.header_vendor w "package-lock.json" (Json.JObj l)
    = Py.Ok header /\
    Javascript.run_checker w "package-lock.json"
    = (default [] header, Py.Raise Py.KeyError).
Proof.
  intros l w. split; [reflexivity|]. split; [reflexivity|].
  split; [discriminate|]. split; [reflexivity|].
  exact (proj1 (lock_file_without_section w "package-lock.json" l eq_refl)
           3%Z eq_refl ltac:(discriminate) eq_refl).
Defined.

(** *** SBOM ingestion: the order of preference, from the references to the
    records *)

Section Resolution.
Import Py Util Props SBOM.
Variable w : World.

Lemma ref_decodes_body decoded ref :
  ref_decodes w ref = true ->
  exists decoded', parse_ext_ref_body w decoded ref = Ok decoded'.
Proof.
  destruct ref as [|category [|ref_type [|locator more]]]; try discriminate.
  unfold ref_decodes, parse_ext_ref_body, index.
  change ((category :: ref_type :: locator :: more) !! 1%nat)
    with (Some ref_type).
  change ((category :: ref_type :: locator :: more) !! 2%nat)
    with (Some locator).
  cbv beta iota delta [bind and_].
  assert (exists b, is_valid_string "cpe23" locator = Ok b) as [b23 E23]
    by (eexists; reflexivity).
  assert (exists b, is_valid_string "cpe22" locator = Ok b) as [b22 E22]
    by (eexists; reflexivity).
  assert (exists b, is_valid_string "purl" locator = Ok b) as [bp Ep]
    by (eexists; reflexivity).
  destruct (String.eqb_spec ref_type "cpe23Type") as [->|H23].
  { intros _. rewrite E23. destruct b23; [|eauto].
    destruct (decode_cpe23_long locator) as [t ->]; [|eauto].
    pose proof (valid_cpe23_colons locator E23). lia. }
  destruct (String.eqb_spec ref_type "cpe22Type") as [->|H22].
  { rewrite E22. destruct b22; [|eauto]. intros Hlong.
    apply Nat.leb_le in Hlong.
    destruct (decode_cpe22_long locator Hlong) as [t ->]. eauto. }
  destruct (String.eqb_spec ref_type "purl") as [->|Hp]; [|eauto].
  rewrite Ep. destruct bp; [|eauto]. unfold decode_purl.
  destruct (PackageURL_from_string w locator); [eauto|discriminate].
Qed.

Lemma ref_fails_body ref :
  ref_decodes w ref = false ->
  exists e, forall decoded, parse_ext_ref_body w decoded ref = Raise e.
Proof.
  destruct ref as [|category [|ref_type [|locator more]]];
    try (intros _; exists IndexError; intros decoded; reflexivity).
  unfold ref_decodes, parse_ext_ref_body, index.
  change ((category :: ref_type :: locator :: more) !! 1%nat)
    with (Some ref_type).
  change ((category :: ref_type :: locator :: more) !! 2%nat)
    with (Some locator).
  cbv beta iota delta [bind and_].
  assert (exists b, is_valid_string "cpe22" locator = Ok b) as [b22 E22]
    by (eexists; reflexivity).
  assert (exists b, is_valid_string "purl" locator = Ok b) as [bp Ep]
    by (eexists; reflexivity).
  destruct (String.eqb_spec ref_type "cpe22Type") as [->|H22].
  { change (String.eqb "cpe22Type" "cpe23Type") with false. cbv iota.
    rewrite E22. destruct b22; [|discriminate]. intros Hshort.
    apply Nat.leb_gt in Hshort. exists IndexError. intros decoded.
    now rewrite (decode_cpe22_short locator Hshort). }
  destruct (String.eqb_spec ref_type "purl") as [->|Hp]; [|discriminate].
  change (String.eqb "purl" "cpe23Type") with false. cbv iota.
  rewrite Ep. destruct bp; [|discriminate]. unfold decode_purl.
  destruct (PackageURL_from_string w locator) as [|e]; [discriminate|].
  intros _. exists e. intros decoded. reflexivity.
Qed.

Lemma refs_decode_loop ext_ref : forall decoded,
  forallb (ref_decodes w) ext_ref = true ->
  exists decoded', parse_ext_ref_loop w decoded ext_ref = Ok decoded'.
Proof.
  induction ext_ref as [|ref rest IH]; intros decoded Hall; simpl; [eauto|].
  simpl in Hall. apply andb_prop in Hall as [Href Hrest].
  destruct (ref_decodes_body decoded ref Href) as [d ->].
  cbv beta iota delta [bind]. now apply IH.
Qed.

Lemma refs_fail_loop ext_ref : forall decoded,
  forallb (ref_decodes w) ext_ref = false ->
  exists e, parse_ext_ref_loop w decoded ext_ref = Raise e.
Proof.
  induction ext_ref as [|ref rest IH]; intros decoded Hall; simpl;
    [discriminate|].
  simpl in Hall. destruct (ref_decodes w ref) eqn:Href.
  - destruct (ref_decodes_body decoded ref Href) as [d ->].
    cbv beta iota delta [bind]. now apply IH.
  - destruct (ref_fails_body ref Href) as [e He]. rewrite He. eauto.
Qed.

Lemma preferred_spec ext_ref t :
  parse_ext_ref w ext_ref = Ok t -> preferred w ext_ref = Ok t.
Proof.
  intros H. apply parse_ext_ref_spec in H. unfold preferred.
  destruct (last_valid "cpe23Type" ext_ref); [exact H|].
  destruct (last_valid "cpe22Type" ext_ref); [exact H|].
  destruct (last_valid "purl" ext_ref); [exact H|now subst].
Qed.

Lemma refs_decode_preferred ext_ref :
  forallb (ref_decodes w) ext_ref = true ->
  exists t, parse_ext_ref w ext_ref = Ok t /\ preferred w ext_ref = Ok t.
Proof.
  intros Hall. destruct (refs_decode_loop ext_ref ∅ Hall) as [d Hd].
  assert (exists t, parse_ext_ref w ext_ref = Ok t) as [t Ht]
    by (unfold parse_ext_ref; rewrite Hd; eauto).
  exists t. split; [exact Ht|]. now apply preferred_spec.
Qed.

Lemma refs_fail_raise ext_ref :
  forallb (ref_decodes w) ext_ref = false ->
  exists e, parse_ext_ref w ext_ref = Raise e.
Proof.
  intros Hall. destruct (refs_fail_loop ext_ref ∅ Hall) as [e He].
  exists e. unfold parse_ext_ref. now rewrite He.
Qed.

(** A stray CPE 2.2 reference after references that decode. *)
Lemma short_cpe22_raises before category cpe22 after :
  forallb (ref_decodes w) before = true ->
  is_valid_string "cpe22" cpe22 = Ok true ->
  Re.count ":" cpe22 < 4 ->
  parse_ext_ref w (before ++ [category; "cpe22Type"; cpe22] :: after)
  = Raise IndexError.
Proof.
  intros Hbefore Hvalid Hshort. unfold parse_ext_ref.
  rewrite parse_ext_ref_loop_app.
  destruct (refs_decode_loop before ∅ Hbefore) as [d ->].
  cbv beta iota delta [bind]. cbn [parse_ext_ref_loop].
  unfold parse_ext_ref_body at 1, index.
  change ((category :: "cpe22Type" :: cpe22 :: nil) !! 1%nat)
    with (Some "cpe22Type").
  change ((category :: "cpe22Type" :: cpe22 :: nil) !! 2%nat)
    with (Some cpe22).
  cbv beta iota delta [bind and_].
  change (String.eqb "cpe22Type" "cpe23Type") with false.
  change (String.eqb "cpe22Type" "cpe22Type") with true. cbv iota.
  now rewrite Hvalid, (decode_cpe22_short cpe22 Hshort).
Qed.

Lemma package_resolves_parse package :
  package_resolves w package = true ->
  parse_package w package = Ok (resolved w package).
Proof.
  unfold package_resolves, resolved, decoded_of. intros H.
  apply andb_prop in H as [Hrefs Hproduct].
  rewrite parse_package_spec.
  destruct (externalreference package) as [ext_ref|].
  - destruct (refs_decode_preferred ext_ref Hrefs) as (t & -> & Ht).
    rewrite Ht in Hproduct |- *. cbv beta iota delta [bind].
    destruct t as [[vendor product] version]. unfold with_declared in *.
    simpl in Hproduct.
    destruct (truthy product) eqn:Hp.
    + destruct product as [[|c p]|]; try discriminate.
      now destruct (if truthy version then version else _) as [[|d v]|].
    + destruct (name package) as [n|]; [|discriminate].
      now destruct (if truthy version then version else _) as [[|d v]|].
  - cbv beta iota delta [bind]. unfold with_declared in *.
    simpl in Hproduct |- *.
    destruct (name package) as [n|]; [|discriminate].
    now destruct (pkg_version package) as [[|d v]|].
Qed.

Lemma packages_resolve_parse packages : forall modules,
  forallb (package_resolves w) packages = true ->
  parse_packages w packages modules
  = Ok (modules ++ omap (resolved w) packages).
Proof.
  induction packages as [|p ps IH]; intros modules Hall.
  - simpl. now rewrite app_nil_r.
  - simpl in Hall. apply andb_prop in Hall as [Hp Hps].
    cbn [parse_packages]. rewrite (package_resolves_parse p Hp).
    cbv beta iota delta [bind]. rewrite (IH _ Hps).
    change (omap (resolved w) (p :: ps))
      with (match resolved w p with
            | Some m => m :: omap (resolved w) ps
            | None => omap (resolved w) ps
            end).
    destruct (resolved w p); [|reflexivity].
    now rewrite <- app_assoc.
Qed.

Lemma packages_resolve_ok packages :
  forallb (package_resolves w) packages = true ->
  Forall (fun p => exists r, parse_package w p = Ok r) packages.
Proof.
  intros Hall. apply List.Forall_forall. intros p Hin.
  exists (resolved w p). apply package_resolves_parse.
  exact (proj1 (forallb_forall _ _) Hall p Hin).
Qed.

(** C1.  The references of a package are taken in a strict order of
    preference, and the records follow it.  When every reference of the
    package decodes, [parse_ext_ref] returns the triple of the last valid
    CPE 2.3 reference if there is one, else that of the last valid CPE 2.2
    reference, else that of the last valid package URL, else nothing; when
    one does not, it raises.  For a document whose packages all resolve,
    [parse_sbom] returns, in the order of the document, the module of each
    package: that triple, completed from the name and version the package
    declares, and no module without version.  In particular a package with
    a valid CPE 2.3 reference whose version field is not empty and a valid
    package URL gets a module with the version of the CPE 2.3 reference, and
    [scan_file] records it with that version.  But a valid CPE 2.2
    reference that stops before the version, next to these two, makes
    [parse_ext_ref], [parse_sbom] and [scan_file] raise [IndexError]. *)
Theorem sbom_preference_order :
  (forall ext_ref,
     forallb (ref_decodes w) ext_ref = true ->
     exists t,
       parse_ext_ref w ext_ref = Ok t /\
       match last_valid "cpe23Type" ext_ref with
       | Some cpe23 => decode_cpe23 cpe23 = Ok t
       | None =>
           match last_valid "cpe22Type" ext_ref with
           | Some cpe22 => decode_cpe22 cpe22 = Ok t
           | None =>
               match last_valid "purl" ext_ref with
               | Some purl => decode_purl w purl = Ok t
               | None => t = (None, None, None)
               end
           end
       end) /\
  (forall ext_ref,
     forallb (ref_decodes w) ext_ref = false ->
     exists e, parse_ext_ref w ext_ref = Raise e) /\
  (forall self doc packages,
     SBOMParser_parse_file w (type self) (filename self) = Ok doc ->
     validation_passes w self doc = true ->
     SBOM.packages doc = Some packages ->
     forallb (package_resolves w) packages = true ->
     parse_sbom w self = Ok (omap (resolved w) packages)) /\
  (forall self doc before package after ext_ref cpe23 purl
          vendor_field product_field version,
     SBOMParser_parse_file w (type self) (filename self) = Ok doc ->
     validation_passes w self doc = true ->
     SBOM.packages doc = Some (before ++ package :: after) ->
     forallb (package_resolves w) (before ++ package :: after) = true ->
     externalreference package = Some ext_ref ->
     last_valid "cpe23Type" ext_ref = Some cpe23 ->
     last_valid "purl" ext_ref = Some purl ->
     split ":" cpe23 !! 3%nat = Some vendor_field ->
     split ":" cpe23 !! 4%nat = Some product_field ->
     split ":" cpe23 !! 5%nat = Some version ->
     version <> "" ->
     let vendor := absent_when_empty vendor_field in
     let product := absent_when_empty product_field in
     exists product',
       Some product' = (if truthy product then product else name package) /\
       parse_sbom w self
       = Ok (omap (resolved w) before
             ++ (vendor, product', version) :: omap (resolved w) after) /\
       (path_exists w (filename self) = Ok true ->
        type self <> "swid" ->
        exists mapping self',
          scan_file w self = Ok (mapping, self') /\
          module_records self (vendor, product', version) <> [] /\
          forall row,
            In row (module_records self (vendor, product', version)) ->
            mapping !! row = Some new_found /\
            Util.version row = version)) /\
  (forall self doc before package after refs category cpe22 refs',
     SBOMParser_parse_file w (type self) (filename self) = Ok doc ->
     validation_passes w self doc = true ->
     SBOM.packages doc = Some (before ++ package :: after) ->
     forallb (package_resolves w) before = true ->
     externalreference package
     = Some (refs ++ [category; "cpe22Type"; cpe22] :: refs') ->
     forallb (ref_decodes w) refs = true ->
     is_valid_string "cpe22" cpe22 = Ok true ->
     Re.count ":" cpe22 < 4 ->
     parse_ext_ref w (refs ++ [category; "cpe22Type"; cpe22] :: refs')
     = Raise IndexError /\
     parse_sbom w self = Raise IndexError /\
     (path_exists w (filename self) = Ok true ->
      type self <> "swid" ->
      scan_file w self = Raise IndexError)).
Proof.
  split; [|split; [|split; [|split]]].
  - intros ext_ref Hall.
    destruct (refs_decode_preferred ext_ref Hall) as (t & Ht & _).
    exists t. split; [exact Ht|]. now apply parse_ext_ref_spec.
  - exact refs_fail_raise.
  - intros self doc packages Hparse Hpass Hpk Hall.
    rewrite (parse_sbom_passes _ _ _ Hparse Hpass), Hpk.
    cbv beta iota delta [bind].
    now rewrite (packages_resolve_parse _ _ Hall).
  - intros self doc before package after ext_ref cpe23 purl vendor_field
           product_field version Hparse Hpass Hpk Hall Hext H23 Hpurl
           Hf3 Hf4 Hf5 Hversion vendor product.
    assert (decode_cpe23 cpe23 = Ok (vendor, product, Some version)) as Hdec.
    { rewrite (decode_cpe23_at _ _ _ _ Hf3 Hf4 Hf5). do 2 f_equal.
      unfold absent_when_empty.
      now destruct (String.eqb_spec version ""). }
    assert (parse_sbom w self
            = Ok (omap (resolved w) (before ++ package :: after))) as Hsbom.
    { rewrite (parse_sbom_passes _ _ _ Hparse Hpass), Hpk.
      cbv beta iota delta [bind].
      now rewrite (packages_resolve_parse _ _ Hall). }
    rewrite forallb_app in Hall. apply andb_prop in Hall as [_ Hall].
    simpl in Hall. apply andb_prop in Hall as [Hp _].
    pose proof (decoded_version_nonempty _ _ _ _ Hdec) as Hne.
    assert (decoded_of w package = (vendor, product, Some version)) as Hdecoded.
    { unfold decoded_of, preferred. now rewrite Hext, H23, Hdec. }
    unfold package_resolves in Hp. apply andb_prop in Hp as [_ Hproduct].
    rewrite Hdecoded in Hproduct. simpl in Hproduct.
    assert (exists product',
              Some product'
              = (if truthy product then product else name package))
      as [product' Hproduct'].
    { destruct (truthy product) eqn:Htp.
      - destruct product as [p|]; [eauto|discriminate].
      - destruct (name package) as [n|]; [eauto|discriminate]. }
    assert (resolved w package = Some (vendor, product', version)) as Hres.
    { unfold resolved. rewrite Hdecoded. unfold with_declared.
      rewrite <- Hproduct'.
      destruct version as [|c v]; [congruence|]. reflexivity. }
    assert (parse_sbom w self
            = Ok (omap (resolved w) before
                  ++ (vendor, product', version) :: omap (resolved w) after))
      as Hmodules.
    { rewrite Hsbom. f_equal. rewrite omap_app. f_equal.
      change (omap (resolved w) (package :: after))
        with (match resolved w package with
              | Some m => m :: omap (resolved w) after
              | None => omap (resolved w) after
              end).
      now rewrite Hres. }
    exists product'. split; [exact Hproduct'|]. split; [exact Hmodules|].
    intros Hex Hswid.
    assert (ingested_modules w self
            = Ok (omap (resolved w) before
                  ++ (vendor, product', version) :: omap (resolved w) after))
      as Hmods.
    { apply (ingested_modules_ok w self _ true Hex).
      unfold underlying_parse.
      now destruct (String.eqb_spec (type self) "swid"). }
    destruct (scan_file_records w self _ Hmods)
      as (mapping & self' & Hscan & Hrows & _).
    exists mapping, self'. split; [exact Hscan|]. split.
    + unfold module_records, get_vendor.
      destruct vendor; [discriminate|].
      now destruct (get_vendor_product_pairs (cvedb self) (lower product')).
    + intros row Hrow. split.
      * apply (Hrows (vendor, product', version)); [|exact Hrow].
        apply in_or_app. right. now left.
      * exact (module_records_version _ _ _ Hrow).
  - intros self doc before package after refs category cpe22 refs'
           Hparse Hpass Hpk Hbefore Hext Hrefs Hvalid Hshort.
    pose proof (short_cpe22_raises refs category cpe22 refs'
                  Hrefs Hvalid Hshort) as Hraise.
    assert (parse_sbom w self = Raise IndexError) as Hsbom.
    { rewrite (parse_sbom_passes _ _ _ Hparse Hpass), Hpk.
      cbv beta iota delta [bind]. rewrite parse_packages_app.
      destruct (parse_packages_ok w before []
                  (packages_resolve_ok before Hbefore)) as [ms ->].
      cbv beta iota delta [bind]. cbn [parse_packages].
      unfold parse_package. now rewrite Hext, Hraise. }
    split; [exact Hraise|]. split; [exact Hsbom|].
    intros Hex Hswid. now apply scan_file_raises.
Qed.

End Resolution.

Lemma sbom_preference_order_witness :
  let cpe23 := "cpe:2.3:a:nasm:netwide_assembler:2.15:*:*:*:*:*:*:*" in
  let purl := "pkg:generic/nasm/nasm@2.16" in
  let refs := [["PACKAGE-MANAGER"; "purl"; purl];
               ["SECURITY"; "cpe23Type"; cpe23]] in
  let stray := ["SECURITY"; "cpe22Type"; "cpe:/a:nasm:netwide_assembler"] in
  let w := Examples.world_of Examples.nasm_document true in
  let w' := Examples.world_of Examples.stray_cpe22_document true in
  let self := SBOM.__init__ Examples.empty_db "nasm.spdx" "spdx" true in
  let row := {| Util.vendor := "nasm"; Util.product := "netwide_assembler";
                Util.version := "2.15" |} in
  (forallb (Props.ref_decodes w) refs = true /\
   SBOM.parse_ext_ref w refs
   = Py.Ok (Some "nasm", Some "netwide_assembler", Some "2.15")) /\
  (forallb (Props.ref_decodes w) [stray] = false /\
   exists e, SBOM.parse_ext_ref w [stray] = Py.Raise e) /\
  (forallb (Props.package_resolves w) [Examples.nasm_package] = true /\
   Props.last_valid "cpe23Type" refs = Some cpe23 /\
   Props.last_valid "purl" refs = Some purl /\
   SBOM.decode_purl w purl = Py.Ok (None, None, Some "2.16") /\
   Py.split ":" cpe23 !! 3%nat = Some "nasm" /\
   Py.split ":" cpe23 !! 4%nat = Some "netwide_assembler" /\
   Py.split ":" cpe23 !! 5%nat = Some "2.15" /\
   SBOM.parse_sbom w self
   = Py.Ok [(Some "nasm", "netwide_assembler", "2.15")] /\
   exists mapping self',
     SBOM.scan_file w self = Py.Ok (mapping, self') /\
     mapping !! row = Some SBOM.new_found) /\
  (SBOM.is_valid_string "cpe22" "cpe:/a:nasm:netwide_assembler" = Py.Ok true /\
   Re.count ":" "cpe:/a:nasm:netwide_assembler" < 4 /\
   SBOM.parse_sbom w' self = Py.Raise Py.IndexError /\
   SBOM.scan_file w' self = Py.Raise Py.IndexError).
Proof.
  intros cpe23 purl refs stray w w' self row.
  assert (forallb (Props.ref_decodes w) refs = true) as Hrefs
    by (vm_compute; reflexivity).
  assert (forallb (Props.ref_decodes w) [stray] = false) as Hstray
    by (vm_compute; reflexivity).
  assert (forallb (Props.package_resolves w) [Examples.nasm_package] = true)
    as Hpackages by (vm_compute; reflexivity).
  assert (Props.last_valid "cpe23Type" refs = Some cpe23) as H23
    by (vm_compute; reflexivity).
  assert (Props.last_valid "purl" refs = Some purl) as Hpurl
    by (vm_compute; reflexivity).
  assert (SBOM.decode_cpe23 cpe23
          = Py.Ok (Some "nasm", Some "netwide_assembler", Some "2.15"))
    as Hdec by reflexivity.
  assert (SBOM.is_valid_string "cpe22" "cpe:/a:nasm:netwide_assembler"
          = Py.Ok true) as Hvalid by (vm_compute; reflexivity).
  assert (Re.count ":" "cpe:/a:nasm:netwide_assembler" < 4) as Hshort
    by (vm_compute; lia).
  split; [|split; [|split]].
  - split; [exact Hrefs|].
    destruct (proj1 (sbom_preference_order w) refs Hrefs) as (t & Ht & Hpref).
    rewrite H23, Hdec in Hpref. now rewrite Ht, Hpref.
  - split; [exact Hstray|].
    exact (proj1 (proj2 (sbom_preference_order w)) [stray] Hstray).
  - do 3 (split; [assumption|]). split; [vm_compute; reflexivity|].
    do 3 (split; [reflexivity|]).
    destruct (proj1 (proj2 (proj2 (proj2 (sbom_preference_order w))))
                self Examples.nasm_document [] Examples.nasm_package []
                refs cpe23 purl "nasm" "netwide_assembler"
                "2.15" eq_refl eq_refl eq_refl Hpackages eq_refl H23 Hpurl
                eq_refl eq_refl eq_refl ltac:(discriminate))
      as (product' & Hproduct' & Hsbom & Hscan).
    injection Hproduct' as ->.
    split; [exact Hsbom|].
    destruct (Hscan eq_refl ltac:(discriminate))
      as (mapping & self' & Hfile & _ & Hrows).
    exists mapping, self'. split; [exact Hfile|].
    apply (Hrows row). left. reflexivity.
  - split; [exact Hvalid|]. split; [exact Hshort|].
    destruct (proj2 (proj2 (proj2 (proj2 (sbom_preference_order w'))))
                self Examples.stray_cpe22_document []
                Examples.stray_cpe22_package []
                [["SECURITY"; "cpe23Type"; cpe23];
                 ["PACKAGE-MANAGER"; "purl"; purl]]
                "SECURITY" "cpe:/a:nasm:netwide_assembler" []
                eq_refl eq_refl eq_refl eq_refl eq_refl
                ltac:(vm_compute; reflexivity) Hvalid Hshort)
      as (_ & Hsbom & Hscan).
    split; [exact Hsbom|]. exact (Hscan eq_refl ltac:(discriminate)).
Defined.

(** *** Package metadata: the lines [PythonParser.run_checker] reads *)

Section Metadata.
Import Py Util Props.








Lemma one_line_lacks l : one_line l = true -> lacks "010" l = true.
Proof. apply all_in_lacks. reflexivity. Qed.



End Metadata.


(** *** Package URLs of the parsers: [generate_purl] *)

Section Normalisation.
Import Py Props.









End Normalisation.

